(** * Mazer command front-end: [ansible_galaxy_cli/cli/galaxy.py]

    A shallow embedding of the command resolution and dispatch layer of
    Mazer ([GalaxyCLI], [exit_without_ignore], [get_config_path_from_env])
    and the properties of it that the specification states.

    Python objects are modelled as follows.
    - scalar values ([None], booleans, integers, strings) are [pyval];
      truthiness is [truthy];
    - the parsed options record ([optparse.Values]) is a finite map from
      attribute names to values, so that [hasattr] and [getattr] keep their
      meaning;
    - dictionaries live in a heap of mutable objects addressed by location,
      because [_get_galaxy_context] copies and then updates one;
    - every function of the module runs in the monad [M]: it reads and
      writes a [world] (heap and trace of calls to collaborators) and either
      returns a value or raises an exception;
    - the collaborators of other modules (base class, option parser,
      configuration loader, action handlers) are parameters, whose results
      may be any value or any exception; logging calls and the constructors
      of plain objects are recorded in the trace and do not raise. *)

From Stdlib Require Import ZArith String Ascii List DecimalString.
From stdpp Require Import base strings gmap list.

(** ** Python values *)

Inductive pyval : Type :=
| PNone
| PBool (b : bool)
| PInt (n : Z)
| PStr (s : string).

#[global] Instance pyval_eq_dec : EqDecision pyval.
Proof. solve_decision. Defined.

(** [bool(v)]: what [if v], [not v] and [a or b] test. *)
Definition truthy (v : pyval) : bool :=
  match v with
  | PNone => false
  | PBool b => b
  | PInt n => negb (n =? 0)%Z
  | PStr s => negb (String.eqb s "")
  end.

(** [a or b] *)
Definition py_or (a b : pyval) : pyval := if truthy a then a else b.

(** [str(v)], which is what ['%s' % v] inserts. *)
Definition py_str (v : pyval) : string :=
  match v with
  | PNone => "None"
  | PBool true => "True"
  | PBool false => "False"
  | PInt n => NilEmpty.string_of_int (Z.to_int n)
  | PStr s => s
  end.

(** ** String operations of Python used by the module and by [os.path] *)

Module PyString.

Definition sep : string := "/".
Definition sep_char : ascii := "/"%char.

(** [s.startswith(p)] *)
Definition startswith (s p : string) : bool := String.prefix p s.

(** [s.endswith("/")] *)
Fixpoint endswith_sep (s : string) : bool :=
  match s with
  | EmptyString => false
  | String c EmptyString => Ascii.eqb c sep_char
  | String _ r => endswith_sep r
  end.

(** [s.find("/", 1)], with Python's [-1] as [None]. *)
Definition find_sep_from1 (s : string) : option nat := String.index 1 sep s.

(** [s[i:]] *)
Fixpoint slice_from (i : nat) (s : string) : string :=
  match i, s with
  | O, _ => s
  | S _, EmptyString => EmptyString
  | S j, String _ r => slice_from j r
  end.

(** [s[1:i]] *)
Definition slice_1_to (i : nat) (s : string) : string :=
  String.substring 1 (i - 1) s.

(** [s.rstrip("/")] *)
Fixpoint rstrip_sep (s : string) : string :=
  match s with
  | EmptyString => EmptyString
  | String c r =>
      match rstrip_sep r with
      | EmptyString => if Ascii.eqb c sep_char then EmptyString else String c EmptyString
      | r' => String c r'
      end
  end.

(** [s.split("/")] *)
Fixpoint split_sep (s : string) : list string :=
  match s with
  | EmptyString => [EmptyString]
  | String c r =>
      if Ascii.eqb c sep_char then EmptyString :: split_sep r
      else match split_sep r with
           | h :: t => String c h :: t
           | [] => [String c EmptyString]
           end
  end.

(** ["/".join(comps)] *)
Definition join_sep (comps : list string) : string := String.concat sep comps.

Definition is_empty (s : string) : bool := String.eqb s "".

End PyString.

(** ** The ambient process state read by [os.environ], [os.getcwd] and [pwd] *)

Record ambient : Type := Ambient {
  environ : gmap string string;        (* os.environ *)
  getcwd : string;                     (* os.getcwd() *)
  pw_uid_dir : option string;          (* pwd.getpwuid(os.getuid()).pw_dir, None for KeyError *)
  pw_name_dir : gmap string string     (* pwd.getpwnam(name).pw_dir, missing for KeyError *)
}.

(** ** [os.path] on POSIX, for string arguments *)

Module PosixPath.
Import PyString.

(** [os.path.expanduser(path)] for a [str] argument. *)
Definition expanduser (amb : ambient) (path : string) : string :=
  if negb (startswith path "~") then path
  else
    let i := match find_sep_from1 path with
             | Some i => i
             | None => String.length path
             end in
    let userhome : option string :=
      if Nat.eqb i 1 then
        match environ amb !! "HOME" with
        | None => pw_uid_dir amb
        | Some h => Some h
        end
      else pw_name_dir amb !! slice_1_to i path in
    match userhome with
    | None => path
    | Some userhome =>
        let userhome := rstrip_sep userhome in
        let r := userhome +:+ slice_from i path in
        if is_empty r then "/" else r
    end.

Definition isabs (path : string) : bool := startswith path sep.

(** [os.path.join(a, b)] *)
Definition join (a b : string) : string :=
  if startswith b sep then b
  else if is_empty a || endswith_sep a then a +:+ b
  else a +:+ sep +:+ b.

(** The loop body of [normpath]: [new_comps] after seeing [comp]. *)
Definition normpath_step (initial_slashes : nat) (new_comps : list string)
    (comp : string) : list string :=
  if is_empty comp || String.eqb comp "." then new_comps
  else if negb (String.eqb comp "..")
          || (Nat.eqb initial_slashes 0 && match new_comps with [] => true | _ => false end)
          || match last new_comps with
             | Some l => String.eqb l ".."
             | None => false
             end
       then new_comps ++ [comp]
       else removelast new_comps.

(** [os.path.normpath(path)] *)
Definition normpath (path : string) : string :=
  if is_empty path then "."
  else
    let initial_slashes : nat :=
      if startswith path sep then
        if startswith path "//" && negb (startswith path "///") then 2 else 1
      else 0 in
    let comps := fold_left (normpath_step initial_slashes) (split_sep path) [] in
    let path := join_sep comps in
    let path := match initial_slashes with
                | 0 => path
                | 1 => sep +:+ path
                | _ => "//" +:+ path
                end in
    if is_empty path then "." else path.

(** [os.path.abspath(path)] *)
Definition abspath (amb : ambient) (path : string) : string :=
  if negb (isabs path) then normpath (join (getcwd amb) path)
  else normpath path.

End PosixPath.

(** ** Exceptions *)

(** The class of an exception raised by a collaborator outside this
    module: a subclass of the project's [GalaxyError], some other subclass
    of [Exception], or a [BaseException] that is not an [Exception]
    ([KeyboardInterrupt], [SystemExit]). *)
Inductive foreign_class : Type := GalaxyErr | PlainException | BaseOnly.

Inductive exn : Type :=
| CliOptionsError (msg : string)        (* cli_exceptions.CliOptionsError *)
| GalaxyCliError (msg : string)         (* cli_exceptions.GalaxyCliError *)
| AttributeError (attr : string)
| TypeError
| UnboundLocalError (name : string)
| Foreign (cls : foreign_class) (detail : string).

#[global] Instance foreign_class_eq_dec : EqDecision foreign_class.
Proof. solve_decision. Defined.

#[global] Instance exn_eq_dec : EqDecision exn.
Proof. solve_decision. Defined.

(** [isinstance(e, Exception)]: what [except Exception] catches. *)
Definition isinstance_Exception (e : exn) : bool :=
  match e with
  | Foreign BaseOnly _ => false
  | _ => true
  end.

(** The domain errors of the project (the [GalaxyError] hierarchy). *)
Definition is_domain_error (e : exn) : bool :=
  match e with
  | CliOptionsError _ | GalaxyCliError _ | Foreign GalaxyErr _ => true
  | _ => false
  end.

(** ** Objects *)

Definition loc : Type := positive.

(** The parsed options ([optparse.Values]): attribute name to value. *)
Abbreviation Options := (gmap string pyval).

(** A Python [dict] with string keys. *)
Abbreviation dict := (gmap string pyval).

Module Config.
(** The configuration document returned by [config.load]; [server] is a
    reference to a [dict]. *)
Record t : Type := Build {
  server : loc;
  content_path : pyval;
  global_content_path : pyval
}.
End Config.

Module GalaxyContext.
(** Modelled from the spec: the class [GalaxyContext] of
    [ansible_galaxy.models.context] is not part of this module; the
    execution context is the record [{server, content_path}] holding the
    two constructor arguments as they were passed. *)
Record t : Type := Build {
  server : loc;
  content_path : string
}.
End GalaxyContext.

Module BuildContext.
(** Modelled from the spec: [BuildContext] of
    [ansible_galaxy.models.build_context], the record
    [{collection_path, output_path}]. *)
Record t : Type := Build {
  collection_path : pyval;
  output_path : pyval
}.
End BuildContext.

Module matchers.
(** The three match filters of [ansible_galaxy.matchers], as the tagged
    union of their constructors. *)
Inductive MatchFilter : Type :=
| MatchAll
| MatchLabels (labels : list string)
| MatchNamespacesOrLabels (terms : list string).
End matchers.

(** [rest_api.GalaxyAPI(galaxy_context)] *)
Record GalaxyAPI : Type := MkGalaxyAPI { api_context : GalaxyContext.t }.

(** A call to one of the action handlers of [ansible_galaxy.actions], with
    the arguments the dispatcher passes (the display callback is left out). *)
Inductive handler_call : Type :=
| build_build (galaxy_context : GalaxyContext.t) (build_context : BuildContext.t)
| info_info_content_specs (galaxy_context : GalaxyContext.t) (api : option GalaxyAPI)
    (content_specs : list string) (offline : pyval)
| install_install_content_specs (galaxy_context : GalaxyContext.t) (editable : pyval)
    (content_spec_strings : list string) (install_content_type : string)
    (namespace_override ignore_errors no_deps force_overwrite : pyval)
| list_action_list (galaxy_context : GalaxyContext.t)
    (repository_match_filter : matchers.MatchFilter)
| remove_remove (galaxy_context : GalaxyContext.t)
    (repository_match_filter : matchers.MatchFilter)
| version_version (config_file_path : string) (cli_version : string).

Inductive log_level : Type := DEBUG | INFO.

(** What the module does to the outside, in order. *)
Inductive event : Type :=
| EvLog (level : log_level) (fmt : string) (args : list string)  (* log.debug / log.info *)
| EvLogException (e : exn)                                     (* log.exception(e) *)
| EvBaseRun                                                    (* cli.CLI.run *)
| EvConfigLoad (path : string)                                 (* config.load(path) *)
| EvGalaxyContext (ctx : GalaxyContext.t)                      (* GalaxyContext(...) *)
| EvGalaxyAPI (ctx : GalaxyContext.t)                          (* rest_api.GalaxyAPI(...) *)
| EvHandler (call : handler_call).                             (* an action handler *)

(** ** The monad of the module: heap, trace and exceptions *)

Record world : Type := World {
  heap : gmap loc dict;
  trace : list event
}.

Inductive outcome (A : Type) : Type :=
| Return (a : A)
| Raised (e : exn).
Arguments Return {A} a.
Arguments Raised {A} e.

Definition M (A : Type) : Type := world -> outcome A * world.

Definition ret {A} (a : A) : M A := fun w => (Return a, w).

Definition bind {A B} (m : M A) (k : A -> M B) : M B :=
  fun w => match m w with
           | (Return a, w') => k a w'
           | (Raised e, w') => (Raised e, w')
           end.

Definition raise {A} (e : exn) : M A := fun w => (Raised e, w).

(** [try: m  except Exception as e: h e] *)
Definition try_except_Exception {A} (m : M A) (h : exn -> M A) : M A :=
  fun w => match m w with
           | (Raised e, w') => if isinstance_Exception e then h e w' else (Raised e, w')
           | r => r
           end.

Definition emit (ev : event) : M unit :=
  fun w => (Return tt, World (heap w) (trace w ++ [ev])).

Definition lift_outcome {A} (o : outcome A) : M A := fun w => (o, w).

Notation "'let!' x ':=' m 'in' k" := (bind m (fun x => k))
  (at level 10, x name, m at level 100, k at level 200).
Notation "m ';;;' k" := (bind m (fun _ => k))
  (at level 100, k at level 200, right associativity).

(** A new dictionary object. *)
Definition alloc (d : dict) : M loc :=
  fun w => let l := fresh (dom (heap w)) in
           (Return l, World (<[l := d]> (heap w)) (trace w)).

(** Attribute access on the options record. *)
Definition hasattr (o : Options) (name : string) : bool := bool_decide (is_Some (o !! name)).

(** [getattr(o, name)], i.e. [o.name] *)
Definition getattr (o : Options) (name : string) : M pyval :=
  match o !! name with
  | Some v => ret v
  | None => raise (AttributeError name)
  end.

(** [getattr(o, name, default)] *)
Definition getattr_default (o : Options) (name : string) (default : pyval) : pyval :=
  match o !! name with
  | Some v => v
  | None => default
  end.

(** [d.copy()]: a new dictionary object with the same items.  A reference
    that is not a dictionary has no [copy]. *)
Definition dict_copy (l : loc) : M loc :=
  fun w => match heap w !! l with
           | Some d =>
               let l' := fresh (dom (heap w)) in
               (Return l', World (<[l' := d]> (heap w)) (trace w))
           | None => (Raised (AttributeError "copy"), w)
           end.

(** [d[key] = v] *)
Definition dict_setitem (l : loc) (key : string) (v : pyval) : M unit :=
  fun w => match heap w !! l with
           | Some d => (Return tt, World (<[l := <[key := v]> d]> (heap w)) (trace w))
           | None => (Raised TypeError, w)
           end.

(** [os.path.expanduser(v)]: [os.fspath] rejects what is not a path
    (Python 3; Python 2 fails at the same place with an [AttributeError]). *)
Definition os_path_expanduser (amb : ambient) (v : pyval) : M string :=
  match v with
  | PStr s => ret (PosixPath.expanduser amb s)
  | _ => raise TypeError
  end.

(** [os.path.join(v, b)] *)
Definition os_path_join (v : pyval) (b : string) : M pyval :=
  match v with
  | PStr s => ret (PStr (PosixPath.join s b))
  | _ => raise TypeError
  end.

(** ** Module-level functions *)

Definition ignore_error_blurb : string :=
  "- you can use --ignore-errors to skip failed content items and finish processing the list.".

Definition newline : string := String (ascii_of_nat 10) EmptyString.

(** [exit_without_ignore(ignore_errors, msg=None, rc=1)] *)
Definition exit_without_ignore (ignore_errors : pyval) (msg : pyval) (rc : pyval) : M pyval :=
  if negb (truthy ignore_errors) then
    let message := ignore_error_blurb in
    let message :=
      if truthy msg then py_str msg +:+ ":" +:+ newline +:+ ignore_error_blurb
      else message in
    raise (GalaxyCliError message)
  else ret PNone.

(** [os.environ.get(env_var, None)] *)
Definition environ_get (amb : ambient) (env_var : string) : pyval :=
  match environ amb !! env_var with
  | Some s => PStr s
  | None => PNone
  end.

(** The [for] loop of [get_config_path_from_env] over the tuple of names. *)
Fixpoint config_path_loop (amb : ambient) (env_vars : list string) : M pyval :=
  match env_vars with
  | [] => ret PNone
  | env_var :: rest =>
      let raw_config_file_path := environ_get amb env_var in
      if truthy raw_config_file_path then
        emit (EvLog INFO "Using config file '%s' as specified by env var '%s'"
                [py_str raw_config_file_path; env_var]) ;;;
        ret raw_config_file_path
      else config_path_loop amb rest
  end.

Definition get_config_path_from_env (amb : ambient) : M pyval :=
  config_path_loop amb ["MAZER_CONFIG"; "ANSIBLE_GALAXY_CONFIG"].

(** ** The option parser ([optparse]) as far as the module drives it *)

Inductive opt_action : Type := store | store_true.

Record opt_spec : Type := MkOpt {
  opt_flags : list string;
  opt_dest : string;
  opt_action_ : opt_action;
  opt_default : option pyval      (* [None]: no [default=] given *)
}.

Record OptionParser : Type := MkParser {
  usage : string;
  option_list : list opt_spec
}.

Definition set_usage (p : OptionParser) (u : string) : OptionParser :=
  MkParser u (option_list p).

Definition add_option (p : OptionParser) (o : opt_spec) : OptionParser :=
  MkParser (usage p) (option_list p ++ [o]).

(** ** Collaborators outside the module *)

(** What [config.load] reads from the file: the configuration document. *)
Record config_document : Type := MkDoc {
  doc_server : dict;
  doc_content_path : pyval;
  doc_global_content_path : pyval
}.

(** The parts of the program that this module calls and that live in other
    modules; the module is verified for every behaviour of them. *)
Record collaborators : Type := MkCollaborators {
  CONFIG_FILE : string;                   (* defaults.CONFIG_FILE *)
  galaxy_cli_version : string;            (* ansible_galaxy_cli.__version__ *)
  base_parser : string -> OptionParser;   (* cli.CLI.base_parser(usage, epilog) *)
  (* cli.CLI.set_action: the action found in the arguments and the
     arguments left, or an error *)
  base_set_action :
    option OptionParser -> list string -> outcome (option string * list string);
  (* cli.CLI.parse: [self.parser] run on the arguments *)
  base_parse : option OptionParser -> list string -> outcome (Options * list string);
  base_run : outcome unit;                (* cli.CLI.run *)
  config_load : string -> outcome config_document;          (* config.load *)
  handler : handler_call -> gmap loc dict -> outcome pyval  (* ansible_galaxy.actions.* *)
}.

(** ** [class GalaxyCLI(cli.CLI)] *)

Module GalaxyCLI.

Definition VALID_ACTIONS : list string :=
  ["build"; "info"; "install"; "list"; "remove"; "version"].

(** The attributes of the instance. *)
Record self : Type := MkSelf {
  args : list string;
  options : Options;
  parser : option OptionParser;
  action : option string;
  api : option GalaxyAPI;
  config : option Config.t;
  config_file_path : option string
}.

(** [__init__(self, args)] *)
Definition __init__ (args : list string) : self :=
  MkSelf args ∅ None None None None None.

Definition set_parser (s : self) (p : OptionParser) : self :=
  MkSelf (args s) (options s) (Some p) (action s) (api s) (config s) (config_file_path s).

(** [self.action == name] *)
Definition action_is (s : self) (name : string) : bool :=
  match action s with
  | Some a => String.eqb a name
  | None => false
  end.

(** [self.parser.set_usage] and [self.parser.add_option]: [self.parser]
    is [None] until [parse] sets it, and [None] has neither method; the
    method looked up first is [set_usage] when the action is a valid one. *)
Definition get_parser (s : self) : M OptionParser :=
  match parser s with
  | Some p => ret p
  | None =>
      raise (AttributeError
               (if existsb (action_is s) VALID_ACTIONS then "set_usage" else "add_option"))
  end.

(** [self.config], an attribute that exists once [run] has set it. *)
Definition get_config (s : self) : M Config.t :=
  match config s with
  | Some c => ret c
  | None => raise (AttributeError "config")
  end.

Section WithCollaborators.
Variable ext : collaborators.
Variable amb : ambient.

Definition set_action (s : self) : M self :=
  (* super(GalaxyCLI, self).set_action() *)
  let! r := lift_outcome (base_set_action ext (parser s) (args s)) in
  let s := MkSelf r.2 (options s) (parser s) r.1 (api s) (config s) (config_file_path s) in
  let! p := get_parser s in
  let p :=
    if action_is s "build" then
      let p := set_usage p "usage: %prog build [options]" in
      let p := add_option p (MkOpt ["--collection-path"] "collection_path" store (Some PNone)) in
      add_option p (MkOpt ["--output-path"] "output_path" store (Some PNone))
    else p in
  let p :=
    if action_is s "info" then
      set_usage p "usage: %prog info [options] repo_name[,version]"
    else if action_is s "install" then
      let p := set_usage p
        "usage: %prog install [options] [-r FILE | repo_name(s)[,version] | scm+repo_url[,version] | tar_file(s)]" in
      let p := add_option p (MkOpt ["-g"; "--global"] "global_install" store_true None) in
      let p := add_option p (MkOpt ["-e"; "--editable"] "editable_install" store_true None) in
      let p := add_option p (MkOpt ["-i"; "--ignore-errors"] "ignore_errors" store_true
                               (Some (PBool false))) in
      let p := add_option p (MkOpt ["-n"; "--no-deps"] "no_deps" store_true
                               (Some (PBool false))) in
      let p := add_option p (MkOpt ["-r"; "--role-file"] "role_file" store None) in
      add_option p (MkOpt ["--namespace"] "namespace" store (Some PNone))
    else if action_is s "remove" then
      set_usage p "usage: %prog remove repo1 repo2 ..."
    else if action_is s "list" then
      set_usage p "usage: %prog list [repo_name]"
    else if action_is s "version" then
      set_usage p "usage: %prog version"
    else p in
  (* options that apply to more than one action *)
  let p :=
    if action_is s "info" then
      add_option p (MkOpt ["--offline"] "offline" store_true (Some (PBool false)))
    else p in
  let p :=
    if negb (action_is s "version") then
      add_option p (MkOpt ["-C"; "--content-path"] "content_path" store None)
    else p in
  let p :=
    if action_is s "install" then
      add_option p (MkOpt ["-f"; "--force"] "force" store_true (Some (PBool false)))
    else p in
  ret (set_parser s p).

(** [parse(self)] *)
Definition parse (s : self) : M self :=
  let p := base_parser ext
    ("usage: %prog [" +:+ String.concat "|" VALID_ACTIONS +:+ "] [--help] [options] ...") in
  (* common *)
  let p := add_option p (MkOpt ["-s"; "--server"] "server_url" store (Some PNone)) in
  let p := add_option p (MkOpt ["-c"; "--ignore-certs"] "ignore_certs" store_true (Some PNone)) in
  let! s := set_action (set_parser s p) in
  (* super(GalaxyCLI, self).parse() *)
  let! r := lift_outcome (base_parse ext (parser s) (args s)) in
  let s := MkSelf r.2 r.1 (parser s) (action s) (api s) (config s) (config_file_path s) in
  let! exclusive :=
    (if action_is s "install" then
       let! c := getattr (options s) "content_path" in
       if truthy c then getattr (options s) "global_install" else ret c
     else ret (PBool false)) in
  if truthy exclusive then
    raise (CliOptionsError "--content-path and --global are mutually exclusive")
  else ret s.

(** [_get_galaxy_context(self, options, config)] *)
Definition _get_galaxy_context (options : Options) (config : Config.t) : M GalaxyContext.t :=
  (* use content_path from options if availble but fallback to configured content_path *)
  let options_content_path := PNone in
  let options_content_path :=
    if hasattr options "content_path" then getattr_default options "content_path" PNone
    else options_content_path in
  let raw_content_path := py_or options_content_path (Config.content_path config) in
  let raw_content_path :=
    if hasattr options "global_install"
       && truthy (getattr_default options "global_install" PNone)
    then Config.global_content_path config
    else raw_content_path in
  let! content_path := os_path_expanduser amb raw_content_path in
  let! server := dict_copy (Config.server config) in
  (if truthy (getattr_default options "server_url" PNone) then
     dict_setitem server "url" (getattr_default options "server_url" PNone)
   else ret tt) ;;;
  (if truthy (getattr_default options "ignore_certs" PNone) then
     (* use ignore certs from options if available, but fallback to configured ignore_certs *)
     dict_setitem server "ignore_certs" (getattr_default options "ignore_certs" PNone)
   else ret tt) ;;;
  let galaxy_context := GalaxyContext.Build server content_path in
  emit (EvGalaxyContext galaxy_context) ;;;
  ret galaxy_context.

(** A call to an action handler: it is recorded, then the handler
    decides the result. *)
Definition handler_result (call : handler_call) : M pyval :=
  fun w => (handler ext call (heap w), w).

Definition call_handler (call : handler_call) : M pyval :=
  emit (EvHandler call) ;;;
  handler_result call.

(** [execute_build(self)] *)
Definition execute_build (s : self) : M pyval :=
  emit (EvLog DEBUG "options: %s" []) ;;;
  emit (EvLog DEBUG "args: %s" []) ;;;
  let! config := get_config s in
  let! galaxy_context := _get_galaxy_context (options s) config in
  (* default to looking for collection in cwd if not specified *)
  let cwd := getcwd amb in
  let! o := getattr (options s) "collection_path" in
  let collection_path := py_or o (PStr cwd) in
  let! o := getattr (options s) "output_path" in
  let! output_path :=
    (if truthy o then ret o else os_path_join collection_path "releases") in
  let build_context := BuildContext.Build collection_path output_path in
  call_handler (build_build galaxy_context build_context).

(** [execute_info(self)] *)
Definition execute_info (s : self) : M pyval :=
  if Nat.eqb (length (args s)) 0 then
    (* the user needs to specify a role *)
    raise (CliOptionsError "- you must specify a user/role name")
  else
    emit (EvLog DEBUG "args=%s" []) ;;;
    let! config := get_config s in
    let! galaxy_context := _get_galaxy_context (options s) config in
    let content_specs := args s in
    let! offline := getattr (options s) "offline" in
    call_handler (info_info_content_specs galaxy_context (api s) content_specs offline).

(** [execute_install(self)] *)
Definition execute_install (s : self) : M pyval :=
  let install_content_type := "all" in
  emit (EvLog DEBUG "self.options: %s" []) ;;;
  let! config := get_config s in
  let! galaxy_context := _get_galaxy_context (options s) config in
  let requested_content_specs := args s in
  let! rc :=
    try_except_Exception
      (let! editable := getattr (options s) "editable_install" in
       let! namespace := getattr (options s) "namespace" in
       let! ignore_errors := getattr (options s) "ignore_errors" in
       let! no_deps := getattr (options s) "no_deps" in
       let! force := getattr (options s) "force" in
       call_handler (install_install_content_specs galaxy_context editable
                       requested_content_specs install_content_type namespace
                       ignore_errors no_deps force))
      (fun e => emit (EvLogException e) ;;; raise e) in
  ret rc.

(** [execute_remove(self)] *)
Definition execute_remove (s : self) : M pyval :=
  if Nat.eqb (length (args s)) 0 then
    raise (CliOptionsError "- you must specify at least one role to remove.")
  else
    let! config := get_config s in
    let! galaxy_context := _get_galaxy_context (options s) config in
    let match_filter : option matchers.MatchFilter :=
      match args s with
      | _ :: _ => Some (matchers.MatchLabels (args s))
      | [] => None
      end in
    let! match_filter :=
      match match_filter with
      | Some f => ret f
      | None => raise (UnboundLocalError "match_filter")
      end in
    call_handler (remove_remove galaxy_context match_filter).

(** [execute_list(self)] *)
Definition execute_list (s : self) : M pyval :=
  let! config := get_config s in
  let! galaxy_context := _get_galaxy_context (options s) config in
  let match_filter := matchers.MatchAll in
  let match_filter :=
    match args s with
    | _ :: _ => matchers.MatchNamespacesOrLabels (args s)
    | [] => match_filter
    end in
  call_handler (list_action_list galaxy_context match_filter).

(** [execute_version(self)] *)
Definition execute_version (s : self) : M pyval :=
  match config_file_path s with
  | Some path => call_handler (version_version path (galaxy_cli_version ext))
  | None => raise (AttributeError "config_file_path")
  end.

(** Modelled from the spec: [cli.CLI.execute], which is not part of this
    module, looks the method [execute_<action>] up by name and calls it;
    an action without such a method has no attribute of that name. *)
Definition execute (s : self) : M pyval :=
  if action_is s "build" then execute_build s
  else if action_is s "info" then execute_info s
  else if action_is s "install" then execute_install s
  else if action_is s "list" then execute_list s
  else if action_is s "remove" then execute_remove s
  else if action_is s "version" then execute_version s
  else raise (AttributeError ("execute_" +:+ default "None" (action s))).

(** [config.load(path)]: the call is recorded, and the document that
    the loader returns becomes a configuration object whose server
    block is a new dictionary. *)
Definition config_load_call (path : string) : M Config.t :=
  emit (EvConfigLoad path) ;;;
  let! doc := lift_outcome (config_load ext path) in
  let! server := alloc (doc_server doc) in
  ret (Config.Build server (doc_content_path doc) (doc_global_content_path doc)).

(** [run(self)]: the result and the instance as [run] leaves it. *)
Definition run (s : self) : M (self * pyval) :=
  let! env_path := get_config_path_from_env amb in
  let raw_config_file_path := py_or env_path (PStr (CONFIG_FILE ext)) in
  let! expanded := os_path_expanduser amb raw_config_file_path in
  let file_path := PosixPath.abspath amb expanded in
  let s := MkSelf (args s) (options s) (parser s) (action s) (api s) (config s)
             (Some file_path) in
  (* super(GalaxyCLI, self).run() *)
  emit EvBaseRun ;;;
  lift_outcome (base_run ext) ;;;
  let! loaded := config_load_call file_path in
  let s := MkSelf (args s) (options s) (parser s) (action s) (api s) (Some loaded)
             (config_file_path s) in
  emit (EvLog DEBUG "configuration: %s" []) ;;;
  let! galaxy_context := _get_galaxy_context (options s) loaded in
  emit (EvLog DEBUG "galaxy context: %s" []) ;;;
  emit (EvGalaxyAPI galaxy_context) ;;;
  let s := MkSelf (args s) (options s) (parser s) (action s)
             (Some (MkGalaxyAPI galaxy_context)) (config s) (config_file_path s) in
  emit (EvLog DEBUG "execute action: %s" []) ;;;
  emit (EvLog DEBUG "execute action with options: %s" []) ;;;
  emit (EvLog DEBUG "execute action with args: %s" []) ;;;
  let! rc := execute s in
  ret (s, rc).

End WithCollaborators.

End GalaxyCLI.

(** ** What the context builder computes *)

(** The raw content path that [_get_galaxy_context] expands. *)
Definition resolved_content_path (options : Options) (config : Config.t) : pyval :=
  if truthy (getattr_default options "global_install" PNone) then
    Config.global_content_path config
  else if truthy (getattr_default options "content_path" PNone) then
    getattr_default options "content_path" PNone
  else Config.content_path config.

(** The items of the server dictionary of the context, from those of the
    configuration's. *)
Definition server_overrides (options : Options) (d : dict) : dict :=
  let d :=
    if truthy (getattr_default options "server_url" PNone)
    then <["url" := getattr_default options "server_url" PNone]> d else d in
  if truthy (getattr_default options "ignore_certs" PNone)
  then <["ignore_certs" := getattr_default options "ignore_certs" PNone]> d else d.

(** The events that a computation added to the trace. *)
Definition events_since (w w' : world) : list event :=
  drop (length (trace w)) (trace w').

(** Fixtures for the examples. *)
Module Fixtures.

Definition amb0 : ambient :=
  Ambient {[ "HOME" := "/home/u" ]} "/work/dir" (Some "/root") {[ "bob" := "/home/bob" ]}.

Definition amb1 : ambient :=
  Ambient {[ "HOME" := "/home/v" ]} "/work/dir" (Some "/root") {[ "bob" := "/home/bob" ]}.

(** The primary variable is set but empty, the legacy one names a file. *)
Definition amb_legacy : ambient :=
  Ambient {[ "HOME" := "/home/u"; "MAZER_CONFIG" := "";
             "ANSIBLE_GALAXY_CONFIG" := "~/old/./mazer.yml" ]}
    "/work/dir" (Some "/root") ∅.

Definition server0 : dict :=
  {[ "url" := PStr "https://galaxy.example"; "ignore_certs" := PBool true ]}.

Definition doc0 : config_document :=
  MkDoc server0 (PStr "~/.ansible/content") (PStr "/usr/share/ansible/content").

(** A heap holding the server block of a loaded configuration. *)
Definition w0 : world := World {[ 1%positive := server0 ]} [].

Definition cfg0 : Config.t := Config.Build 1%positive (PStr "/c") (PStr "/g").

(** Collaborators: the base class takes the first argument as the action,
    the base parser finds both the content path and the global install
    set, the loader returns [doc0], every handler returns [0]. *)
Definition ext0 : collaborators :=
  MkCollaborators "~/.ansible/mazer.yml" "0.4.0" (fun u => MkParser u [])
    (fun _ a => match a with
                | x :: r => Return (Some x, r)
                | [] => Raised (CliOptionsError "Missing required action")
                end)
    (fun _ a => Return ({[ "content_path" := PStr "/a"; "global_install" := PBool true ]},
                        filter (fun x => negb (String.prefix "-" x || String.prefix "/" x)) a))
    (Return tt) (fun _ => Return doc0) (fun _ _ => Return (PInt 0)).

(** Collaborators whose handlers all fail with an unexpected exception. *)
Definition ext_failing : collaborators :=
  MkCollaborators "~/.ansible/mazer.yml" "0.4.0" (fun u => MkParser u [])
    (fun _ a => Return (None, a)) (fun _ a => Return (∅, a))
    (Return tt) (fun _ => Return doc0)
    (fun _ _ => Raised (Foreign PlainException "boom")).

(** Collaborators whose base parser finds [-C ''] and [-g]. *)
Definition ext_empty_content_path : collaborators :=
  MkCollaborators "~/.ansible/mazer.yml" "0.4.0" (fun u => MkParser u [])
    (fun _ a => match a with
                | x :: r => Return (Some x, r)
                | [] => Raised (CliOptionsError "Missing required action")
                end)
    (fun _ a => Return ({[ "content_path" := PStr ""; "global_install" := PBool true ]}, a))
    (Return tt) (fun _ => Return doc0) (fun _ _ => Return (PInt 0)).

(** Only the legacy variable is set, and it is empty. *)
Definition amb_empty_legacy : ambient :=
  Ambient {[ "HOME" := "/home/u"; "ANSIBLE_GALAXY_CONFIG" := "" ]} "/work/dir"
    (Some "/root") ∅.

(** The remove action without arguments. *)
Definition remove_nothing : GalaxyCLI.self :=
  GalaxyCLI.MkSelf [] ∅ None (Some "remove") None None None.

(** An instance after [run] loaded [cfg0], with one positional argument. *)
Definition with_argument : GalaxyCLI.self :=
  GalaxyCLI.MkSelf ["geerlingguy"] ∅ None (Some "list") None (Some cfg0) None.

(** The options of a plain [install geerlingguy.nginx], and the instance
    after [run] loaded [cfg0]. *)
Definition install_options : Options :=
  {[ "server_url" := PNone; "ignore_certs" := PNone; "global_install" := PNone;
     "editable_install" := PNone; "ignore_errors" := PBool false;
     "no_deps" := PBool false; "role_file" := PNone; "namespace" := PNone;
     "content_path" := PNone; "force" := PBool false ]}.

Definition install_one : GalaxyCLI.self :=
  GalaxyCLI.MkSelf ["geerlingguy.nginx"] install_options None (Some "install") None
    (Some cfg0) None.

(** Options with both the content path and the global install set. *)
Definition both_set : Options :=
  {[ "content_path" := PStr "/a"; "global_install" := PBool true ]}.

End Fixtures.

(** ** The specification's wording of the content-path precedence *)

(** The option was given a value: the attribute exists and is not [None]. *)
Definition option_present (o : Options) (name : string) : bool :=
  match o !! name with
  | Some PNone | None => false
  | Some _ => true
  end.


(** ** The specification's wording of the mutual exclusion *)

(** Both the content-path option and the global-install option are set:
    each was given a value on the command line. *)
Definition both_options_set (o : Options) : Prop :=
  option_present o "content_path" = true /\ option_present o "global_install" = true.

(** ** The parsers that [parse] builds *)

Definition parse_usage : string :=
  "usage: %prog [build|info|install|list|remove|version] [--help] [options] ...".

(** The parser when [parse] calls [set_action]: the base parser and the two
    common options. *)
Definition common_parser (ext : collaborators) : OptionParser :=
  add_option
    (add_option (base_parser ext parse_usage)
       (MkOpt ["-s"; "--server"] "server_url" store (Some PNone)))
    (MkOpt ["-c"; "--ignore-certs"] "ignore_certs" store_true (Some PNone)).

(** The parser that [set_action] leaves for the install action. *)
Definition install_parser (ext : collaborators) : OptionParser :=
  let p := set_usage (common_parser ext)
    "usage: %prog install [options] [-r FILE | repo_name(s)[,version] | scm+repo_url[,version] | tar_file(s)]" in
  let p := add_option p (MkOpt ["-g"; "--global"] "global_install" store_true None) in
  let p := add_option p (MkOpt ["-e"; "--editable"] "editable_install" store_true None) in
  let p := add_option p (MkOpt ["-i"; "--ignore-errors"] "ignore_errors" store_true
                           (Some (PBool false))) in
  let p := add_option p (MkOpt ["-n"; "--no-deps"] "no_deps" store_true (Some (PBool false))) in
  let p := add_option p (MkOpt ["-r"; "--role-file"] "role_file" store None) in
  let p := add_option p (MkOpt ["--namespace"] "namespace" store (Some PNone)) in
  let p := add_option p (MkOpt ["-C"; "--content-path"] "content_path" store None) in
  add_option p (MkOpt ["-f"; "--force"] "force" store_true (Some (PBool false))).

(** ** Predicates on computations *)

(** Every event that [m] adds to the trace satisfies [P]. *)
Definition emits_only {A} (P : event -> Prop) (m : M A) : Prop :=
  forall w, exists evs, trace (m w).2 = trace w ++ evs /\ Forall P evs.

(** [m] never returns normally. *)
Definition always_raises {A} (m : M A) : Prop :=
  forall w, exists e, (m w).1 = Raised e.

Definition not_handler (ev : event) : Prop :=
  match ev with
  | EvHandler _ => False
  | _ => True
  end.

(** Neither a call to a handler nor [log.exception]. *)
Definition quiet (ev : event) : Prop :=
  match ev with
  | EvHandler _ | EvLogException _ => False
  | _ => True
  end.

(** [m] either raises before any handler is called, or ends, after quiet
    events only, with the step [F c] for some handler call [c]. *)
Definition ends_with (F : handler_call -> M pyval) (m : M pyval) : Prop :=
  forall w,
    (exists e w' evs,
        m w = (Raised e, w') /\ trace w' = trace w ++ evs /\ Forall not_handler evs)
    \/ (exists c w1 evs,
           trace w1 = trace w ++ evs /\ Forall quiet evs /\ m w = F c w1).

(** The [try] statement of [execute_install] around a call [c]. *)
Definition logged_call (ext : collaborators) (c : handler_call) : M pyval :=
  try_except_Exception (GalaxyCLI.call_handler ext c)
    (fun e => emit (EvLogException e) ;;; raise e).

(** The actions of [VALID_ACTIONS], each with its method [execute_<action>]. *)
Inductive valid_action : Type :=
| ActBuild | ActInfo | ActInstall | ActList | ActRemove | ActVersion.

Definition action_name (a : valid_action) : string :=
  match a with
  | ActBuild => "build"
  | ActInfo => "info"
  | ActInstall => "install"
  | ActList => "list"
  | ActRemove => "remove"
  | ActVersion => "version"
  end.

Definition execute_method (ext : collaborators) (amb : ambient) (a : valid_action)
    : GalaxyCLI.self -> M pyval :=
  match a with
  | ActBuild => GalaxyCLI.execute_build ext amb
  | ActInfo => GalaxyCLI.execute_info ext amb
  | ActInstall => GalaxyCLI.execute_install ext amb
  | ActList => GalaxyCLI.execute_list ext amb
  | ActRemove => GalaxyCLI.execute_remove ext amb
  | ActVersion => GalaxyCLI.execute_version ext
  end.

(** The last step of the method of action [a]. *)
Definition final_step (ext : collaborators) (a : valid_action) (c : handler_call) : M pyval :=
  match a with
  | ActInstall => logged_call ext c
  | _ => GalaxyCLI.call_handler ext c
  end.

(** The specification's wording of C7 for one run of the method of action
    [a]: a handler failure that is not a domain error is re-raised as it is
    and logged. *)
Definition spec_unexpected_failure_logged
    (ext : collaborators) (amb : ambient) (a : valid_action) (s : GalaxyCLI.self)
    (w : world) : Prop :=
  forall (c : handler_call) (e : exn),
    is_domain_error e = false ->
    In (EvHandler c) (events_since w (execute_method ext amb a s w).2) ->
    handler ext c (heap (execute_method ext amb a s w).2) = Raised e ->
    (execute_method ext amb a s w).1 = Raised e
    /\ In (EvLogException e) (events_since w (execute_method ext amb a s w).2).

(** ** The specification's wording of the configuration path precedence *)

(** The value of an environment variable that is set to a non-empty value. *)
Definition env_nonempty (amb : ambient) (name : string) : option string :=
  match environ amb !! name with
  | Some p => if PyString.is_empty p then None else Some p
  | None => None
  end.

(** The primary variable if set, else the legacy alternate if set, else the
    built-in default. *)
Definition spec_config_file_path (amb : ambient) (default : string) : string :=
  match env_nonempty amb "MAZER_CONFIG" with
  | Some p => p
  | None =>
      match env_nonempty amb "ANSIBLE_GALAXY_CONFIG" with
      | Some p => p
      | None => default
      end
  end.

Definition not_config_load (ev : event) : Prop :=
  match ev with
  | EvConfigLoad _ => False
  | _ => True
  end.

(** Every value that [m] returns satisfies [Q]. *)
Definition returns_only {A} (Q : A -> Prop) (m : M A) : Prop :=
  forall w a, (m w).1 = Return a -> Q a.

(** ** The specification's wording of the remaining claims on the context *)

(** No content path is resolvable from any source: no content-path option,
    global-install unset, and the configured content path absent or empty. *)
Definition no_content_path_source (options : Options) (config : Config.t) : Prop :=
  truthy (getattr_default options "content_path" PNone) = false
  /\ truthy (getattr_default options "global_install" PNone) = false
  /\ (Config.content_path config = PNone \/ Config.content_path config = PStr "").

(** Two results of the context builder are equal: the same exception, or
    contexts with the same content path and the same server settings. *)
Definition same_context (r1 r2 : outcome GalaxyContext.t * world) : Prop :=
  match r1.1, r2.1 with
  | Return c1, Return c2 =>
      GalaxyContext.content_path c1 = GalaxyContext.content_path c2
      /\ heap r1.2 !! GalaxyContext.server c1 = heap r2.2 !! GalaxyContext.server c2
  | Raised e1, Raised e2 => e1 = e2
  | _, _ => False
  end.

(** ** The option schema of each action *)

(** The options, by destination, that [set_action] registers for an action,
    in the order of registration. *)
Definition action_options (a : valid_action) : list string :=
  match a with
  | ActBuild => ["collection_path"; "output_path"; "content_path"]
  | ActInfo => ["offline"; "content_path"]
  | ActInstall =>
      ["global_install"; "editable_install"; "ignore_errors"; "no_deps"; "role_file";
       "namespace"; "content_path"; "force"]
  | ActList => ["content_path"]
  | ActRemove => ["content_path"]
  | ActVersion => []
  end.

Module MoreFixtures.

(** An instance whose arguments ask for the list action. *)
Definition list_invocation : GalaxyCLI.self :=
  GalaxyCLI.__init__ ["list"; "-C"; "/a"; "-g"].

(** Collaborators whose base parser finds no attribute at all. *)
Definition ext_no_attributes : collaborators :=
  MkCollaborators "~/.ansible/mazer.yml" "0.4.0" (fun u => MkParser u [])
    (fun _ a => match a with
                | x :: r => Return (Some x, r)
                | [] => Raised (CliOptionsError "Missing required action")
                end)
    (fun _ a => Return (∅, a))
    (Return tt) (fun _ => Return Fixtures.doc0) (fun _ _ => Return (PInt 0)).

(** The instance of [build] without options, after [run] loaded [cfg0]. *)
Definition build_plain : GalaxyCLI.self :=
  GalaxyCLI.MkSelf []
    {[ "server_url" := PNone; "ignore_certs" := PNone; "collection_path" := PNone;
       "output_path" := PNone; "content_path" := PNone ]}
    None (Some "build") None (Some Fixtures.cfg0) None.

(** Collaborators whose configuration loader fails. *)
Definition ext_no_config : collaborators :=
  MkCollaborators "~/.ansible/mazer.yml" "0.4.0" (fun u => MkParser u [])
    (fun _ a => Return (None, a)) (fun _ a => Return (∅, a))
    (Return tt) (fun _ => Raised (Foreign PlainException "cannot read mazer.yml"))
    (fun _ _ => Return (PInt 0)).

(** Collaborators whose configuration has no content path. *)
Definition ext_no_content_path : collaborators :=
  MkCollaborators "~/.ansible/mazer.yml" "0.4.0" (fun u => MkParser u [])
    (fun _ a => Return (None, a)) (fun _ a => Return (∅, a))
    (Return tt)
    (fun _ => Return (MkDoc Fixtures.server0 PNone (PStr "/usr/share/ansible/content")))
    (fun _ _ => Return (PInt 0)).

(** The instance of a [version] invocation after [parse]. *)
Definition version_only : GalaxyCLI.self :=
  GalaxyCLI.MkSelf [] {[ "server_url" := PNone; "ignore_certs" := PNone ]} None
    (Some "version") None None None.

End MoreFixtures.
(** ** [run] in stages *)

(** The path that [run] resolves. *)
Definition resolved_config_file_path (ext : collaborators) (amb : ambient) : string :=
  PosixPath.abspath amb
    (PosixPath.expanduser amb (spec_config_file_path amb (CONFIG_FILE ext))).

(** The log line of [get_config_path_from_env], if it writes one. *)
Definition config_path_log (amb : ambient) : list event :=
  match env_nonempty amb "MAZER_CONFIG" with
  | Some p =>
      [EvLog INFO "Using config file '%s' as specified by env var '%s'" [p; "MAZER_CONFIG"]]
  | None =>
      match env_nonempty amb "ANSIBLE_GALAXY_CONFIG" with
      | Some p =>
          [EvLog INFO "Using config file '%s' as specified by env var '%s'"
             [p; "ANSIBLE_GALAXY_CONFIG"]]
      | None => []
      end
  end.

(** The instance that [run] dispatches and returns. *)
Definition run_instance (ext : collaborators) (amb : ambient) (s : GalaxyCLI.self)
    (cfg : Config.t) (ctx : GalaxyContext.t) : GalaxyCLI.self :=
  GalaxyCLI.MkSelf (GalaxyCLI.args s) (GalaxyCLI.options s) (GalaxyCLI.parser s)
    (GalaxyCLI.action s) (Some (MkGalaxyAPI ctx)) (Some cfg)
    (Some (resolved_config_file_path ext amb)).

(** What [run] records between the construction of its context and the
    dispatch. *)
Definition run_before_dispatch (ctx : GalaxyContext.t) : list event :=
  [EvLog DEBUG "galaxy context: %s" []; EvGalaxyAPI ctx;
   EvLog DEBUG "execute action: %s" [];
   EvLog DEBUG "execute action with options: %s" [];
   EvLog DEBUG "execute action with args: %s" []].
(** ** The heap under a computation *)

(** [m] changes no object that exists; it may allocate new ones. *)
Definition heap_grows {A} (m : M A) : Prop :=
  forall w l d, heap w !! l = Some d -> heap (m w).2 !! l = Some d.

(** [m] leaves the heap as it is. *)
Definition heap_same {A} (m : M A) : Prop :=
  forall w, heap (m w).2 = heap w.

(** The context that a handler is called with; the version handler gets
    none. *)
Definition handler_context (c : handler_call) : option GalaxyContext.t :=
  match c with
  | build_build ctx _ => Some ctx
  | info_info_content_specs ctx _ _ _ => Some ctx
  | install_install_content_specs ctx _ _ _ _ _ _ _ => Some ctx
  | list_action_list ctx _ => Some ctx
  | remove_remove ctx _ => Some ctx
  | version_version _ _ => None
  end.

(** Every context that [m] hands to a handler was built by
    [_get_galaxy_context] from [options] and [config] on the heap that [m]
    started with, and what that heap held afterwards is still there when
    [m] ends. *)
Definition builds_then_calls (amb : ambient) (options : Options) (config : Config.t)
    (m : M pyval) : Prop :=
  forall w, exists evs,
    trace (m w).2 = trace w ++ evs
    /\ forall c ctx,
         In (EvHandler c) evs -> handler_context c = Some ctx ->
         exists w0 w1,
           heap w0 = heap w
           /\ GalaxyCLI._get_galaxy_context amb options config w0 = (Return ctx, w1)
           /\ forall l d, heap w1 !! l = Some d -> heap (m w).2 !! l = Some d.

(** After the context [ctx] is built: the handlers are called with [ctx]
    and nothing that exists is changed. *)
Definition calls_with (ctx : GalaxyContext.t) (m : M pyval) : Prop :=
  heap_grows m
  /\ emits_only
       (fun ev => forall c x, ev = EvHandler c -> handler_context c = Some x -> x = ctx) m.
(** ** Options records as the parser leaves them *)

(** The options record holds every destination that the parser has
    registered, with [None], a string (for [store]) or a boolean (for
    [store_true]). *)
Definition parsed_by (p : OptionParser) (opts : Options) : Prop :=
  forall o, In o (option_list p) ->
    exists v, opts !! opt_dest o = Some v
      /\ match opt_action_ o with
         | store => v = PNone \/ exists t, v = PStr t
         | store_true => v = PNone \/ exists b, v = PBool b
         end.

(** * Properties *)

Lemma hasattr_getattr_default (o : Options) (name : string) :
  (if hasattr o name then getattr_default o name PNone else PNone)
  = getattr_default o name PNone.
Proof.
  unfold hasattr, getattr_default. destruct (o !! name); reflexivity.
Qed.

Lemma hasattr_and_truthy (o : Options) (name : string) :
  hasattr o name && truthy (getattr_default o name PNone)
  = truthy (getattr_default o name PNone).
Proof.
  unfold hasattr, getattr_default. destruct (o !! name); reflexivity.
Qed.

Lemma resolved_content_path_eq (options : Options) (config : Config.t) :
  (if hasattr options "global_install"
      && truthy (getattr_default options "global_install" PNone)
   then Config.global_content_path config
   else py_or (if hasattr options "content_path"
               then getattr_default options "content_path" PNone else PNone)
          (Config.content_path config))
  = resolved_content_path options config.
Proof.
  rewrite hasattr_and_truthy, hasattr_getattr_default.
  unfold resolved_content_path, py_or. reflexivity.
Qed.

(** The context builder in closed form: it fails on a raw content path that
    is not a string and on a server block that is not a dictionary;
    otherwise it allocates one dictionary, constructs one context and
    changes nothing else. *)
Lemma get_galaxy_context_eq (amb : ambient) (options : Options) (config : Config.t) (w : world) :
  GalaxyCLI._get_galaxy_context amb options config w =
  match resolved_content_path options config with
  | PStr s =>
      match heap w !! Config.server config with
      | Some d =>
          let l := fresh (dom (heap w)) in
          let ctx := GalaxyContext.Build l (PosixPath.expanduser amb s) in
          (Return ctx,
           World (<[l := server_overrides options d]> (heap w))
             (trace w ++ [EvGalaxyContext ctx]))
      | None => (Raised (AttributeError "copy"), w)
      end
  | _ => (Raised TypeError, w)
  end.
Proof.
  unfold GalaxyCLI._get_galaxy_context.
  rewrite resolved_content_path_eq.
  destruct (resolved_content_path options config) as [| b | n | s]; try reflexivity.
  unfold bind, os_path_expanduser, ret, dict_copy; simpl.
  destruct (heap w !! Config.server config) as [d|] eqn:Hd; [|reflexivity].
  unfold server_overrides, dict_setitem, emit; simpl.
  destruct (truthy (getattr_default options "server_url" PNone));
    destruct (truthy (getattr_default options "ignore_certs" PNone)); simpl;
    rewrite ?lookup_insert_eq; simpl; rewrite ?lookup_insert_eq; simpl;
    rewrite ?insert_insert_eq; reflexivity.
Qed.

(** ** The content path of the execution context *)




(** ** Strings *)

Lemma append_assoc (a b c : string) : (a +:+ b) +:+ c = a +:+ b +:+ c.
Proof.
  induction a as [|x a IH]; [reflexivity|].
  change (String x ((a +:+ b) +:+ c) = String x (a +:+ b +:+ c)).
  f_equal. exact IH.
Qed.

(** ** Stepping through the monad *)

Lemma bind_return {A B} (m : M A) (k : A -> M B) (w w1 : world) (a : A) :
  m w = (Return a, w1) -> bind m k w = k a w1.
Proof. intros H. unfold bind. rewrite H. reflexivity. Qed.

Lemma bind_raised {A B} (m : M A) (k : A -> M B) (w w1 : world) (e : exn) :
  m w = (Raised e, w1) -> bind m k w = (Raised e, w1).
Proof. intros H. unfold bind. rewrite H. reflexivity. Qed.

(** ** The mutual exclusion checked by [parse] *)

(** C2, as the specification states it, fails: an install invocation that
    gives the content-path option the empty string and sets the
    global-install flag has both options set, and [parse] returns without
    an error. *)
Lemma parse_exclusion_misses_empty_content_path :
  ~ (forall (ext : collaborators) (s : GalaxyCLI.self) (w : world)
       (args1 args2 : list string) (opts : Options),
       base_set_action ext (Some (common_parser ext)) (GalaxyCLI.args s)
         = Return (Some "install", args1) ->
       base_parse ext (Some (install_parser ext)) args1 = Return (opts, args2) ->
       both_options_set opts ->
       exists msg w', GalaxyCLI.parse ext s w = (Raised (CliOptionsError msg), w')).
Proof.
  intros H.
  destruct (H Fixtures.ext_empty_content_path
              (GalaxyCLI.__init__ ["install"; "-C"; ""; "-g"; "geerlingguy.nginx"])
              Fixtures.w0 ["-C"; ""; "-g"; "geerlingguy.nginx"]
              ["-C"; ""; "-g"; "geerlingguy.nginx"]
              {[ "content_path" := PStr ""; "global_install" := PBool true ]}
              eq_refl eq_refl (conj eq_refl eq_refl))
    as (msg & w' & Heq).
  vm_compute in Heq. discriminate Heq.
Qed.

(** C2, amended: when the base class resolves the action to install and
    the base parser yields options in which the content path and the global
    install are both truthy (a content path that is not empty, the flag
    on), [parse] raises [CliOptionsError] and leaves the world as it found
    it: no context was constructed, no handler and no network collaborator
    was called. *)
Theorem parse_content_path_and_global_exclusive
    (ext : collaborators) (s : GalaxyCLI.self) (w : world)
    (args1 args2 : list string) (opts : Options) :
  base_set_action ext (Some (common_parser ext)) (GalaxyCLI.args s)
    = Return (Some "install", args1) ->
  base_parse ext (Some (install_parser ext)) args1 = Return (opts, args2) ->
  truthy (getattr_default opts "content_path" PNone) = true ->
  truthy (getattr_default opts "global_install" PNone) = true ->
  GalaxyCLI.parse ext s w
  = (Raised (CliOptionsError "--content-path and --global are mutually exclusive"), w).
Proof.
  intros Hact Hparse Hc Hg.
  unfold GalaxyCLI.parse.
  change (add_option (add_option (base_parser ext _) _) _) with (common_parser ext).
  erewrite bind_return; cycle 1.
  { unfold GalaxyCLI.set_action. simpl.
    erewrite bind_return; [| unfold lift_outcome; rewrite Hact; reflexivity].
    simpl. reflexivity. }
  simpl.
  change (add_option _ (MkOpt _ "force" _ _)) with (install_parser ext).
  erewrite bind_return; [| unfold lift_outcome; rewrite Hparse; reflexivity].
  simpl.
  unfold getattr_default in Hc, Hg. unfold getattr, bind.
  destruct (opts !! "content_path") as [c|]; [|discriminate Hc].
  simpl. rewrite Hc.
  destruct (opts !! "global_install") as [g|]; [|discriminate Hg].
  simpl. rewrite Hg. reflexivity.
Qed.

Lemma parse_content_path_and_global_exclusive_witness :
  GalaxyCLI.parse Fixtures.ext0
    (GalaxyCLI.__init__ ["install"; "-C"; "/a"; "-g"; "geerlingguy.nginx"]) Fixtures.w0
  = (Raised (CliOptionsError "--content-path and --global are mutually exclusive"),
     Fixtures.w0).
Proof.
  apply (parse_content_path_and_global_exclusive Fixtures.ext0 _ Fixtures.w0
           ["-C"; "/a"; "-g"; "geerlingguy.nginx"] ["geerlingguy.nginx"] Fixtures.both_set);
    reflexivity.
Defined.

(** The test of [parse] is on truthiness: a content path given as the empty
    string does not count as set, and [parse] returns. *)
Remark parse_accepts_empty_content_path :
  exists s',
    GalaxyCLI.parse Fixtures.ext_empty_content_path
      (GalaxyCLI.__init__ ["install"; "-C"; ""; "-g"; "geerlingguy.nginx"]) Fixtures.w0
    = (Return s', Fixtures.w0).
Proof. eexists. vm_compute. reflexivity. Qed.

(** ** [exit_without_ignore] *)

(** C5: with a truthy [ignore_errors], [exit_without_ignore] returns
    [None] and leaves the world unchanged; with a falsy one it raises
    [GalaxyCliError] with a message that ends with the fixed blurb and,
    when a message is supplied, starts with it (the supplied message, a
    colon and a line break come before the blurb). *)
Theorem exit_without_ignore_raises_unless_ignored
    (ignore_errors msg rc : pyval) (w : world) :
  if truthy ignore_errors then
    exit_without_ignore ignore_errors msg rc w = (Return PNone, w)
  else
    exists message,
      exit_without_ignore ignore_errors msg rc w = (Raised (GalaxyCliError message), w)
      /\ (exists before, message = before +:+ ignore_error_blurb)
      /\ message = (if truthy msg then py_str msg +:+ ":" +:+ newline +:+ ignore_error_blurb
                    else ignore_error_blurb)
      /\ match msg with
         | PStr s => exists rest, message = s +:+ rest
         | _ => True
         end.
Proof.
  unfold exit_without_ignore.
  destruct (truthy ignore_errors); simpl; [reflexivity|].
  eexists. split; [reflexivity|]. split; [|split; [reflexivity|]].
  - destruct (truthy msg).
    + exists (py_str msg +:+ ":" +:+ newline).
      rewrite !append_assoc. reflexivity.
    + exists "". reflexivity.
  - destruct msg as [| b | n | s]; try exact I.
    simpl. destruct (String.eqb_spec s "") as [->|Hne]; simpl.
    + exists ignore_error_blurb. reflexivity.
    + eexists. reflexivity.
Qed.

(** ** The events of a computation *)

Lemma events_since_app (w : world) (h : gmap loc dict) (evs : list event) :
  events_since w (World h (trace w ++ evs)) = evs.
Proof. unfold events_since. simpl. apply drop_app_length. Qed.

Lemma events_since_trace (w w' : world) (evs : list event) :
  trace w' = trace w ++ evs -> events_since w w' = evs.
Proof. intros H. unfold events_since. rewrite H. apply drop_app_length. Qed.

Section EmitsOnly.
Context (P : event -> Prop).

Lemma emits_only_ret {A} (a : A) : emits_only P (ret a).
Proof. intros w. exists []. simpl. rewrite app_nil_r. auto. Qed.

Lemma emits_only_raise {A} (e : exn) : emits_only P (@raise A e).
Proof. intros w. exists []. simpl. rewrite app_nil_r. auto. Qed.

Lemma emits_only_lift_outcome {A} (o : outcome A) : emits_only P (lift_outcome o).
Proof. intros w. exists []. simpl. rewrite app_nil_r. auto. Qed.

Lemma emits_only_emit (ev : event) : P ev -> emits_only P (emit ev).
Proof. intros H w. exists [ev]. simpl. auto. Qed.

Lemma emits_only_bind {A B} (m : M A) (k : A -> M B) :
  emits_only P m -> (forall a, emits_only P (k a)) -> emits_only P (bind m k).
Proof.
  intros Hm Hk w. destruct (Hm w) as (evs1 & Ht1 & HP1).
  unfold bind. destruct (m w) as [[a|e] w1]; simpl in *.
  - destruct (Hk a w1) as (evs2 & Ht2 & HP2).
    exists (evs1 ++ evs2). rewrite Ht2, Ht1, app_assoc.
    split; [reflexivity | apply Forall_app; auto].
  - exists evs1. auto.
Qed.

Lemma emits_only_bind_ret {A B} (a : A) (k : A -> M B) :
  emits_only P (k a) -> emits_only P (bind (ret a) k).
Proof. intros H w. exact (H w). Qed.

Lemma emits_only_try_except {A} (m : M A) (h : exn -> M A) :
  emits_only P m -> (forall e, emits_only P (h e)) ->
  emits_only P (try_except_Exception m h).
Proof.
  intros Hm Hh w. destruct (Hm w) as (evs1 & Ht1 & HP1).
  unfold try_except_Exception. destruct (m w) as [[a|e] w1]; simpl in *.
  - exists evs1. auto.
  - destruct (isinstance_Exception e); [|exists evs1; auto].
    destruct (Hh e w1) as (evs2 & Ht2 & HP2).
    exists (evs1 ++ evs2). rewrite Ht2, Ht1, app_assoc.
    split; [reflexivity | apply Forall_app; auto].
Qed.

Lemma emits_only_getattr (o : Options) (name : string) : emits_only P (getattr o name).
Proof.
  unfold getattr. destruct (o !! name); [apply emits_only_ret | apply emits_only_raise].
Qed.

Lemma emits_only_alloc (d : dict) : emits_only P (alloc d).
Proof. intros w. exists []. simpl. rewrite app_nil_r. auto. Qed.

Lemma emits_only_dict_copy (l : loc) : emits_only P (dict_copy l).
Proof.
  intros w. exists []. unfold dict_copy.
  destruct (heap w !! l); simpl; rewrite app_nil_r; auto.
Qed.

Lemma emits_only_dict_setitem (l : loc) (key : string) (v : pyval) :
  emits_only P (dict_setitem l key v).
Proof.
  intros w. exists []. unfold dict_setitem.
  destruct (heap w !! l); simpl; rewrite app_nil_r; auto.
Qed.

Lemma emits_only_expanduser (amb : ambient) (v : pyval) :
  emits_only P (os_path_expanduser amb v).
Proof. destruct v; simpl; first [apply emits_only_ret | apply emits_only_raise]. Qed.

Lemma emits_only_join (v : pyval) (b : string) : emits_only P (os_path_join v b).
Proof. destruct v; simpl; first [apply emits_only_ret | apply emits_only_raise]. Qed.

Lemma emits_only_get_config (s : GalaxyCLI.self) : emits_only P (GalaxyCLI.get_config s).
Proof.
  unfold GalaxyCLI.get_config.
  destruct (GalaxyCLI.config s); [apply emits_only_ret | apply emits_only_raise].
Qed.

Lemma emits_only_handler_result (ext : collaborators) (c : handler_call) :
  emits_only P (GalaxyCLI.handler_result ext c).
Proof. intros w. exists []. simpl. rewrite app_nil_r. auto. Qed.

End EmitsOnly.

Create HintDb emits discriminated.
#[local] Hint Resolve emits_only_ret emits_only_raise emits_only_lift_outcome
  emits_only_getattr emits_only_alloc emits_only_dict_copy emits_only_dict_setitem
  emits_only_expanduser emits_only_join emits_only_get_config
  emits_only_handler_result : emits.

Lemma emits_only_get_galaxy_context (P : event -> Prop) (amb : ambient)
    (options : Options) (config : Config.t) :
  (forall ctx, P (EvGalaxyContext ctx)) ->
  emits_only P (GalaxyCLI._get_galaxy_context amb options config).
Proof.
  intros HP. unfold GalaxyCLI._get_galaxy_context.
  repeat first
    [ solve [auto with emits]
    | apply emits_only_bind; [| intros ?]
    | apply emits_only_emit; apply HP
    | match goal with |- emits_only _ (if ?b then _ else _) => destruct b end ].
Qed.

Lemma emits_only_get_config_path_from_env (P : event -> Prop) (amb : ambient) :
  (forall fmt a, P (EvLog INFO fmt a)) ->
  emits_only P (get_config_path_from_env amb).
Proof.
  intros HP. unfold get_config_path_from_env.
  generalize ["MAZER_CONFIG"; "ANSIBLE_GALAXY_CONFIG"].
  intros vars. induction vars as [|v vars IH]; simpl; [apply emits_only_ret|].
  destruct (truthy (environ_get amb v)); [|exact IH].
  apply emits_only_bind; [apply emits_only_emit, HP | intros ?; apply emits_only_ret].
Qed.

(** Walks through a computation built from the primitives above; the side
    conditions [P ev] of the events emitted are left to [tac]. *)
Ltac emits_with tac :=
  repeat first
    [ solve [auto with emits]
    | apply emits_only_get_config_path_from_env; intros; tac
    | apply emits_only_get_galaxy_context; intros; tac
    | apply emits_only_bind_ret
    | apply emits_only_bind; [| intros ?]
    | apply emits_only_try_except; [| intros ?]
    | apply emits_only_emit; tac
    | match goal with
      | |- emits_only _ (if ?b then _ else _) => destruct b
      | |- emits_only _ (match ?x with _ => _ end) => destruct x
      end ].

Lemma always_raises_bind_r {A B} (m : M A) (k : A -> M B) :
  (forall a, always_raises (k a)) -> always_raises (bind m k).
Proof.
  intros Hk w. unfold bind. destruct (m w) as [[a|e] w1]; [apply Hk | eauto].
Qed.

Lemma always_raises_bind_l {A B} (m : M A) (k : A -> M B) :
  always_raises m -> always_raises (bind m k).
Proof.
  intros Hm w. unfold bind. destruct (Hm w) as [e He].
  destruct (m w) as [[a|e'] w1]; simpl in *; [discriminate | eauto].
Qed.

(** ** Actions that need a positional argument *)

(** The dispatch by name reaches the method of the action. *)
Lemma execute_dispatches (ext : collaborators) (amb : ambient) (a : valid_action)
    (s : GalaxyCLI.self) (w : world) :
  GalaxyCLI.action s = Some (action_name a) ->
  GalaxyCLI.execute ext amb s w = execute_method ext amb a s w.
Proof.
  intros Hact. unfold GalaxyCLI.execute, GalaxyCLI.action_is. rewrite Hact.
  destruct a; reflexivity.
Qed.

Lemma execute_info_without_arguments (ext : collaborators) (amb : ambient)
    (s : GalaxyCLI.self) (w : world) :
  GalaxyCLI.args s = [] ->
  GalaxyCLI.execute_info ext amb s w
  = (Raised (CliOptionsError "- you must specify a user/role name"), w).
Proof. intros Hargs. unfold GalaxyCLI.execute_info. rewrite Hargs. reflexivity. Qed.

Lemma execute_remove_without_arguments (ext : collaborators) (amb : ambient)
    (s : GalaxyCLI.self) (w : world) :
  GalaxyCLI.args s = [] ->
  GalaxyCLI.execute_remove ext amb s w
  = (Raised (CliOptionsError "- you must specify at least one role to remove."), w).
Proof. intros Hargs. unfold GalaxyCLI.execute_remove. rewrite Hargs. reflexivity. Qed.

Lemma emits_only_ext {A} (P : event -> Prop) (m m' : M A) :
  (forall w, m w = m' w) -> emits_only P m' -> emits_only P m.
Proof. intros Heq H w. rewrite Heq. apply H. Qed.

Lemma always_raises_ext {A} (m m' : M A) :
  (forall w, m w = m' w) -> always_raises m' -> always_raises m.
Proof. intros Heq H w. rewrite Heq. apply H. Qed.

Lemma always_raises_raise {A} (e : exn) : always_raises (@raise A e).
Proof. intros w. exists e. reflexivity. Qed.

(** C4: with an empty list of positional arguments, [execute_info] and
    [execute_remove] raise [CliOptionsError] at once, leaving the world as
    it was, so that their handlers are not called; dispatching the info or
    the remove action does the same, and a whole [run] of such an
    invocation ends in an exception without any call to an action handler. *)
Theorem info_and_remove_need_arguments
    (ext : collaborators) (amb : ambient) (s : GalaxyCLI.self) (w : world) :
  GalaxyCLI.args s = [] ->
  GalaxyCLI.execute_info ext amb s w
  = (Raised (CliOptionsError "- you must specify a user/role name"), w)
  /\ GalaxyCLI.execute_remove ext amb s w
     = (Raised (CliOptionsError "- you must specify at least one role to remove."), w)
  /\ (GalaxyCLI.action s = Some "info" \/ GalaxyCLI.action s = Some "remove" ->
      (exists msg, GalaxyCLI.execute ext amb s w = (Raised (CliOptionsError msg), w))
      /\ (exists e evs,
            (GalaxyCLI.run ext amb s w).1 = Raised e
            /\ trace (GalaxyCLI.run ext amb s w).2 = trace w ++ evs
            /\ Forall not_handler evs)).
Proof.
  intros Hargs.
  split; [apply execute_info_without_arguments, Hargs|].
  split; [apply execute_remove_without_arguments, Hargs|].
  intros Hact.
  assert (Hexec : forall s', GalaxyCLI.args s' = [] -> GalaxyCLI.action s' = GalaxyCLI.action s ->
            exists msg, forall w', GalaxyCLI.execute ext amb s' w' = raise (CliOptionsError msg) w').
  { intros s' Ha Hs'.
    destruct Hact as [Hact|Hact]; rewrite Hact in Hs'; eexists; intros w'.
    - rewrite (execute_dispatches ext amb ActInfo s' w' Hs').
      apply execute_info_without_arguments, Ha.
    - rewrite (execute_dispatches ext amb ActRemove s' w' Hs').
      apply execute_remove_without_arguments, Ha. }
  split.
  - destruct (Hexec s Hargs eq_refl) as [msg Hm]. exists msg. apply Hm.
  - assert (Hr : always_raises (GalaxyCLI.run ext amb s)).
    { unfold GalaxyCLI.run.
      repeat match goal with
             | |- always_raises (bind (GalaxyCLI.execute _ _ _) _) => fail 1
             | |- always_raises (bind _ _) => apply always_raises_bind_r; intros ?
             end.
      apply always_raises_bind_l.
      edestruct Hexec as [msg Hm]; [| | eapply always_raises_ext;
        [exact Hm | apply always_raises_raise]]; [exact Hargs | reflexivity]. }
    assert (He : emits_only not_handler (GalaxyCLI.run ext amb s)).
    { unfold GalaxyCLI.run, GalaxyCLI.config_load_call.
      emits_with ltac:(exact I).
      edestruct Hexec as [msg Hm]; [| | eapply emits_only_ext;
          [exact Hm | apply emits_only_raise]]; [exact Hargs | reflexivity]. }
    destruct (Hr w) as [e Hre]. destruct (He w) as (evs & Ht & Hf).
    exists e, evs. auto.
Qed.

Lemma info_and_remove_need_arguments_witness :
  GalaxyCLI.execute_remove Fixtures.ext0 Fixtures.amb0 Fixtures.remove_nothing Fixtures.w0
  = (Raised (CliOptionsError "- you must specify at least one role to remove."),
     Fixtures.w0)
  /\ (exists e evs,
        (GalaxyCLI.run Fixtures.ext0 Fixtures.amb0 Fixtures.remove_nothing Fixtures.w0).1
        = Raised e
        /\ trace (GalaxyCLI.run Fixtures.ext0 Fixtures.amb0 Fixtures.remove_nothing
                    Fixtures.w0).2 = trace Fixtures.w0 ++ evs
        /\ Forall not_handler evs).
Proof.
  destruct (info_and_remove_need_arguments Fixtures.ext0 Fixtures.amb0
              Fixtures.remove_nothing Fixtures.w0 eq_refl) as (_ & Hremove & Hrun).
  split; [exact Hremove|].
  apply Hrun. right. reflexivity.
Defined.

(** ** The match filter handed to the handlers *)

Lemma get_galaxy_context_trace (amb : ambient) (options : Options) (config : Config.t)
    (w w1 : world) (r : outcome GalaxyContext.t) :
  GalaxyCLI._get_galaxy_context amb options config w = (r, w1) ->
  exists evs, trace w1 = trace w ++ evs.
Proof.
  intros H.
  destruct (emits_only_get_galaxy_context (fun _ => True) amb options config
              (fun _ => I) w) as (evs & Ht & _).
  rewrite H in Ht. eauto.
Qed.

(** C6: whenever [execute_remove] calls its handler, the arguments are not
    empty and the filter is [MatchLabels(args)]; whenever [execute_list]
    calls its handler, the filter is [MatchAll] for an empty argument list
    and [MatchNamespacesOrLabels(args)] otherwise; and once the context is
    built, the handler is called (for remove, when there are arguments). *)
Theorem match_filter_from_arguments
    (ext : collaborators) (amb : ambient) (s : GalaxyCLI.self) :
  let list_filter :=
    match GalaxyCLI.args s with
    | [] => matchers.MatchAll
    | _ :: _ => matchers.MatchNamespacesOrLabels (GalaxyCLI.args s)
    end in
  emits_only
    (fun ev => forall c, ev = EvHandler c ->
       GalaxyCLI.args s <> []
       /\ exists ctx, c = remove_remove ctx (matchers.MatchLabels (GalaxyCLI.args s)))
    (GalaxyCLI.execute_remove ext amb s)
  /\ emits_only
       (fun ev => forall c, ev = EvHandler c -> exists ctx, c = list_action_list ctx list_filter)
       (GalaxyCLI.execute_list ext amb s)
  /\ forall (w w1 : world) (config : Config.t) (ctx : GalaxyContext.t),
       GalaxyCLI.config s = Some config ->
       GalaxyCLI._get_galaxy_context amb (GalaxyCLI.options s) config w = (Return ctx, w1) ->
       In (EvHandler (list_action_list ctx list_filter))
         (events_since w (GalaxyCLI.execute_list ext amb s w).2)
       /\ (GalaxyCLI.args s <> [] ->
           In (EvHandler (remove_remove ctx (matchers.MatchLabels (GalaxyCLI.args s))))
             (events_since w (GalaxyCLI.execute_remove ext amb s w).2)).
Proof.
  intros list_filter. split; [|split].
  - unfold GalaxyCLI.execute_remove.
    destruct (GalaxyCLI.args s) as [|a l] eqn:Hargs; simpl.
    + apply emits_only_raise.
    + unfold GalaxyCLI.call_handler.
      emits_with ltac:(try discriminate).
      intros c Hc. injection Hc as <-. split; [discriminate | eauto].
  - unfold GalaxyCLI.execute_list, GalaxyCLI.call_handler.
    emits_with ltac:(try discriminate).
    intros c Hc. injection Hc as <-. subst list_filter.
    destruct (GalaxyCLI.args s); eauto.
  - intros w w1 config ctx Hcfg Hgc.
    destruct (get_galaxy_context_trace _ _ _ _ _ _ Hgc) as [evs Ht].
    split.
    + unfold GalaxyCLI.execute_list, GalaxyCLI.get_config. rewrite Hcfg.
      unfold bind at 1. simpl. unfold bind at 1. rewrite Hgc.
      unfold GalaxyCLI.call_handler, bind, emit, GalaxyCLI.handler_result. simpl.
      rewrite Ht, <- app_assoc, events_since_app.
      apply in_or_app. right. left. subst list_filter.
      destruct (GalaxyCLI.args s); reflexivity.
    + intros Hne. unfold GalaxyCLI.execute_remove, GalaxyCLI.get_config. rewrite Hcfg.
      destruct (GalaxyCLI.args s) as [|a l] eqn:Hargs; [congruence|]. simpl.
      unfold bind at 1. simpl. unfold bind at 1. rewrite Hgc.
      unfold GalaxyCLI.call_handler, bind, emit, GalaxyCLI.handler_result. simpl.
      rewrite Ht, <- app_assoc, events_since_app.
      apply in_or_app. right. left. reflexivity.
Qed.

Lemma match_filter_from_arguments_witness :
  exists ctx,
    In (EvHandler (list_action_list ctx (matchers.MatchNamespacesOrLabels ["geerlingguy"])))
      (events_since Fixtures.w0
         (GalaxyCLI.execute_list Fixtures.ext0 Fixtures.amb0 Fixtures.with_argument
            Fixtures.w0).2)
    /\ (GalaxyCLI.args Fixtures.with_argument <> [] ->
        In (EvHandler (remove_remove ctx (matchers.MatchLabels ["geerlingguy"])))
          (events_since Fixtures.w0
             (GalaxyCLI.execute_remove Fixtures.ext0 Fixtures.amb0 Fixtures.with_argument
                Fixtures.w0).2)).
Proof.
  eexists.
  eapply (proj2 (proj2 (match_filter_from_arguments Fixtures.ext0 Fixtures.amb0
                          Fixtures.with_argument)) Fixtures.w0 _ Fixtures.cfg0);
    [reflexivity | vm_compute; reflexivity].
Defined.

(** ** Failures of the handlers *)

Lemma quiet_not_handler (evs : list event) : Forall quiet evs -> Forall not_handler evs.
Proof.
  intros H. eapply Forall_impl; [exact H|]. intros [] Hq; simpl in *; auto.
Qed.

Lemma events_since_same (w : world) : events_since w w = [].
Proof. unfold events_since. apply drop_all. Qed.

Section EndsWith.
Context (F : handler_call -> M pyval).

Lemma ends_with_raise (e : exn) : ends_with F (raise e).
Proof.
  intros w. left. exists e, w, []. rewrite app_nil_r. auto.
Qed.

Lemma ends_with_bind {A} (m : M A) (k : A -> M pyval) :
  emits_only quiet m -> (forall a, ends_with F (k a)) -> ends_with F (bind m k).
Proof.
  intros Hm Hk w. destruct (Hm w) as (evs1 & Ht1 & Hq1).
  unfold bind. destruct (m w) as [[a|e] w1]; simpl in *.
  - destruct (Hk a w1) as [(e & w' & evs2 & Heq & Ht2 & Hn2)
                          |(c & w2 & evs2 & Ht2 & Hq2 & Heq)].
    + left. exists e, w', (evs1 ++ evs2). rewrite Ht2, Ht1, app_assoc.
      repeat split; auto. apply Forall_app. auto using quiet_not_handler.
    + right. exists c, w2, (evs1 ++ evs2). rewrite Ht2, Ht1, app_assoc.
      repeat split; auto. apply Forall_app. auto.
  - left. exists e, w1, evs1. auto using quiet_not_handler.
Qed.

Lemma ends_with_bind_ret (m : M pyval) :
  ends_with F m -> ends_with F (bind m (fun rc => ret rc)).
Proof.
  intros Hm w.
  assert (Heq : bind m (fun rc => ret rc) w = m w).
  { unfold bind, ret. destruct (m w) as [[a|e] w1]; reflexivity. }
  rewrite Heq. apply Hm.
Qed.

End EndsWith.

Lemma ends_with_call_handler (ext : collaborators) (c : handler_call) :
  ends_with (GalaxyCLI.call_handler ext) (GalaxyCLI.call_handler ext c).
Proof.
  intros w. right. exists c, w, []. rewrite app_nil_r. auto.
Qed.

Lemma ends_with_try_except (ext : collaborators) (m : M pyval) :
  ends_with (GalaxyCLI.call_handler ext) m ->
  ends_with (logged_call ext)
    (try_except_Exception m (fun e => emit (EvLogException e) ;;; raise e)).
Proof.
  intros Hm w.
  destruct (Hm w) as [(e & w' & evs & Heq & Ht & Hn)|(c & w1 & evs & Ht & Hq & Heq)].
  - left. unfold try_except_Exception. rewrite Heq.
    destruct (isinstance_Exception e).
    + exists e, (World (heap w') (trace w' ++ [EvLogException e])), (evs ++ [EvLogException e]).
      split; [reflexivity|]. simpl. rewrite Ht, app_assoc. split; [reflexivity|].
      apply Forall_app. split; [assumption | repeat constructor].
    + exists e, w', evs. auto.
  - right. exists c, w1, evs. repeat split; auto.
    unfold logged_call, try_except_Exception. rewrite Heq. reflexivity.
Qed.

(** Walks through a method up to its handler call. *)
Ltac ends_with_tac :=
  repeat first
    [ apply ends_with_raise
    | apply ends_with_call_handler
    | apply ends_with_bind; [emits_with ltac:(exact I) | intros ?]
    | match goal with
      | |- ends_with _ (if ?b then _ else _) => destruct b
      | |- ends_with _ (match ?x with _ => _ end) => destruct x
      end ].

(** Every [execute_<action>] method ends with its handler call, inside the
    [try] statement for install. *)
Lemma method_ends_with (ext : collaborators) (amb : ambient) (a : valid_action)
    (s : GalaxyCLI.self) :
  ends_with (final_step ext a) (execute_method ext amb a s).
Proof.
  destruct a; simpl.
  - unfold GalaxyCLI.execute_build. ends_with_tac.
  - unfold GalaxyCLI.execute_info. ends_with_tac.
  - unfold GalaxyCLI.execute_install.
    do 3 (apply ends_with_bind; [emits_with ltac:(exact I) | intros ?]).
    apply ends_with_bind_ret. apply ends_with_try_except. ends_with_tac.
  - unfold GalaxyCLI.execute_list. ends_with_tac.
  - unfold GalaxyCLI.execute_remove. ends_with_tac.
  - unfold GalaxyCLI.execute_version. ends_with_tac.
Qed.

Lemma call_handler_eq (ext : collaborators) (c : handler_call) (w : world) :
  GalaxyCLI.call_handler ext c w
  = (handler ext c (heap w), World (heap w) (trace w ++ [EvHandler c])).
Proof. reflexivity. Qed.

Lemma in_quiet_handler (evs : list event) (c : handler_call) :
  Forall quiet evs -> ~ In (EvHandler c) evs.
Proof.
  intros H Hin. rewrite Forall_forall in H. apply list_elem_of_In in Hin.
  exact (H _ Hin).
Qed.

Lemma in_quiet_log_exception (evs : list event) (e : exn) :
  Forall quiet evs -> ~ In (EvLogException e) evs.
Proof.
  intros H Hin. rewrite Forall_forall in H. apply list_elem_of_In in Hin.
  exact (H _ Hin).
Qed.

Lemma in_not_handler (evs : list event) (c : handler_call) :
  Forall not_handler evs -> ~ In (EvHandler c) evs.
Proof.
  intros H Hin. rewrite Forall_forall in H. apply list_elem_of_In in Hin.
  exact (H _ Hin).
Qed.

(** C7, as the specification states it, fails: the list action does not
    log the unexpected failure of its handler (it only lets it pass). *)
Lemma unexpected_failure_of_list_is_not_logged :
  ~ (forall ext amb a s w, spec_unexpected_failure_logged ext amb a s w).
Proof.
  intros H.
  destruct (H Fixtures.ext_failing Fixtures.amb0 ActList Fixtures.with_argument Fixtures.w0
              (list_action_list (GalaxyContext.Build 2%positive "/c")
                 (matchers.MatchNamespacesOrLabels ["geerlingguy"]))
              (Foreign PlainException "boom") eq_refl) as [_ Hlog].
  - vm_compute. right. left. reflexivity.
  - reflexivity.
  - vm_compute in Hlog. destruct Hlog as [Hl|[Hl|[]]]; discriminate Hl.
Qed.

(** C7, amended: for every action, when the handler that the action's
    method called raises an exception, domain error or not, the method
    raises that same exception, neither suppressed nor wrapped; it is
    logged with [log.exception] exactly when the action is install and the
    exception is an [Exception]; and the dispatch by name runs that method. *)
Theorem handler_exception_is_reraised
    (ext : collaborators) (amb : ambient) (a : valid_action) (s : GalaxyCLI.self)
    (w : world) (c : handler_call) (e : exn) :
  In (EvHandler c) (events_since w (execute_method ext amb a s w).2) ->
  handler ext c (heap (execute_method ext amb a s w).2) = Raised e ->
  (execute_method ext amb a s w).1 = Raised e
  /\ (In (EvLogException e) (events_since w (execute_method ext amb a s w).2)
      <-> a = ActInstall /\ isinstance_Exception e = true)
  /\ (GalaxyCLI.action s = Some (action_name a) ->
      GalaxyCLI.execute ext amb s w = execute_method ext amb a s w).
Proof.
  intros Hin Hr.
  cut ((execute_method ext amb a s w).1 = Raised e
       /\ (In (EvLogException e) (events_since w (execute_method ext amb a s w).2)
           <-> a = ActInstall /\ isinstance_Exception e = true)).
  { intros [H1 H2]. auto using execute_dispatches. }
  revert Hin Hr.
  destruct (method_ends_with ext amb a s w)
    as [(e' & w' & evs & Heq & Ht & Hn)|(c' & w1 & evs & Ht & Hq & Heq)];
    rewrite Heq.
  { simpl. rewrite (events_since_trace _ _ _ Ht). intros Hin.
    destruct (in_not_handler _ _ Hn Hin). }
  assert (Hc : forall more, In (EvHandler c) (evs ++ EvHandler c' :: more) ->
                 (forall c0, ~ In (EvHandler c0) more) -> c = c').
  { intros more Hin Hmore. apply in_app_or in Hin.
    destruct Hin as [Hin|[Hin|Hin]].
    - destruct (in_quiet_handler _ _ Hq Hin).
    - congruence.
    - destruct (Hmore _ Hin). }
  assert (Hplain :
            a <> ActInstall ->
            In (EvHandler c) (events_since w (GalaxyCLI.call_handler ext c' w1).2) ->
            handler ext c (heap (GalaxyCLI.call_handler ext c' w1).2) = Raised e ->
            (GalaxyCLI.call_handler ext c' w1).1 = Raised e
            /\ (In (EvLogException e)
                  (events_since w (GalaxyCLI.call_handler ext c' w1).2)
                <-> a = ActInstall /\ isinstance_Exception e = true)).
  { intros Ha. rewrite call_handler_eq. simpl.
    rewrite Ht, <- app_assoc, events_since_app. intros Hin Hr.
    rewrite (Hc [] Hin (fun _ H => H)) in Hr. split; [exact Hr|].
    split; [|intros [H _]; destruct (Ha H)].
    intros Hl. apply in_app_or in Hl. destruct Hl as [Hl|[Hl|[]]].
    - destruct (in_quiet_log_exception _ _ Hq Hl).
    - discriminate Hl. }
  destruct a; try (apply Hplain; discriminate).
  clear Hplain. simpl.
  unfold logged_call, try_except_Exception. rewrite call_handler_eq.
  destruct (handler ext c' (heap w1)) as [v|e'] eqn:Hh; simpl.
  - rewrite Ht, <- app_assoc, events_since_app. intros Hin Hr.
    rewrite (Hc [] Hin (fun _ H => H)), Hh in Hr. discriminate Hr.
  - destruct (isinstance_Exception e') eqn:Hexc; simpl;
      rewrite Ht, <- ?app_assoc, events_since_app; simpl; intros Hin Hr.
    + assert (c = c') as ->.
      { apply (Hc [EvLogException e'] Hin). intros c0 [H|[]]. discriminate H. }
      rewrite Hh in Hr. injection Hr as ->. split; [reflexivity|].
      split; [auto|]. intros _. apply in_or_app. right. right. left. reflexivity.
    + rewrite (Hc [] Hin (fun _ H => H)), Hh in Hr. injection Hr as ->.
      split; [reflexivity|]. split; [|intros [_ H]; congruence].
      intros Hl. apply in_app_or in Hl. destruct Hl as [Hl|[Hl|[]]].
      * destruct (in_quiet_log_exception _ _ Hq Hl).
      * discriminate Hl.
Qed.

Lemma handler_exception_is_reraised_witness :
  (GalaxyCLI.execute_install Fixtures.ext_failing Fixtures.amb0 Fixtures.install_one
     Fixtures.w0).1
  = Raised (Foreign PlainException "boom")
  /\ In (EvLogException (Foreign PlainException "boom"))
       (events_since Fixtures.w0
          (GalaxyCLI.execute_install Fixtures.ext_failing Fixtures.amb0 Fixtures.install_one
             Fixtures.w0).2).
Proof.
  destruct (handler_exception_is_reraised Fixtures.ext_failing Fixtures.amb0 ActInstall
              Fixtures.install_one Fixtures.w0
              (install_install_content_specs (GalaxyContext.Build 2%positive "/c")
                 PNone ["geerlingguy.nginx"] "all" PNone (PBool false) (PBool false)
                 (PBool false))
              (Foreign PlainException "boom")) as (Hraise & Hlog & _).
  - vm_compute. right. right. left. reflexivity.
  - reflexivity.
  - split; [exact Hraise|]. apply Hlog. split; reflexivity.
Defined.

(** ** The configuration file path *)

Lemma startswith_sep_inv (p : string) :
  PyString.startswith p PyString.sep = true -> exists r, p = String "/"%char r.
Proof.
  unfold PyString.startswith, PyString.sep.
  destruct p as [|c r]; [discriminate|]. intros H.
  change (match ascii_dec "/"%char c with
          | left _ => String.prefix "" r
          | right _ => false
          end = true) in H.
  destruct (ascii_dec "/"%char c) as [Heq|]; [subst c; eauto | discriminate].
Qed.

Lemma startswith_sep_cons (r : string) :
  PyString.startswith (String "/"%char r) PyString.sep = true.
Proof. destruct r; reflexivity. Qed.

Lemma normpath_isabs (p : string) :
  PosixPath.isabs p = true -> PosixPath.isabs (PosixPath.normpath p) = true.
Proof.
  intros H. unfold PosixPath.isabs in H.
  destruct (startswith_sep_inv p H) as [r ->].
  unfold PosixPath.normpath.
  change (PyString.is_empty (String "/"%char r)) with false.
  rewrite startswith_sep_cons. cbv iota.
  destruct (PyString.startswith (String "/"%char r) "//"
            && negb (PyString.startswith (String "/"%char r) "///"));
    unfold PosixPath.isabs; apply startswith_sep_cons.
Qed.

Lemma join_isabs (a b : string) :
  PosixPath.isabs a = true -> PosixPath.isabs (PosixPath.join a b) = true.
Proof.
  intros H. unfold PosixPath.join.
  destruct (PyString.startswith b PyString.sep) eqn:Hb; [exact Hb|].
  destruct (startswith_sep_inv a H) as [r ->].
  destruct (PyString.is_empty (String "/"%char r)
            || PyString.endswith_sep (String "/"%char r));
    unfold PosixPath.isabs; apply startswith_sep_cons.
Qed.

Lemma abspath_isabs (amb : ambient) (p : string) :
  PosixPath.isabs (getcwd amb) = true -> PosixPath.isabs (PosixPath.abspath amb p) = true.
Proof.
  intros Hcwd. unfold PosixPath.abspath.
  destruct (PosixPath.isabs p) eqn:Hp; simpl.
  - apply normpath_isabs, Hp.
  - apply normpath_isabs, join_isabs, Hcwd.
Qed.

(** [get_config_path_from_env] in closed form. *)
Lemma get_config_path_from_env_eq (amb : ambient) (default : string) (w : world) :
  exists v evs,
    get_config_path_from_env amb w = (Return v, World (heap w) (trace w ++ evs))
    /\ Forall not_config_load evs
    /\ py_or v (PStr default) = PStr (spec_config_file_path amb default).
Proof.
  unfold get_config_path_from_env, spec_config_file_path, env_nonempty. simpl.
  unfold environ_get, PyString.is_empty.
  destruct (environ amb !! "MAZER_CONFIG") as [p|]; simpl.
  - destruct (String.eqb p "") eqn:Hp; simpl.
    + destruct (environ amb !! "ANSIBLE_GALAXY_CONFIG") as [q|]; simpl.
      * destruct (String.eqb q "") eqn:Hq; simpl.
        -- exists PNone, []. rewrite app_nil_r. destruct w; auto.
        -- eexists (PStr q), [_]. unfold py_or. simpl. rewrite Hq.
           repeat split. repeat constructor.
      * exists PNone, []. rewrite app_nil_r. destruct w; auto.
    + eexists (PStr p), [_]. unfold py_or. simpl. rewrite Hp.
      repeat split. repeat constructor.
  - destruct (environ amb !! "ANSIBLE_GALAXY_CONFIG") as [q|]; simpl.
    + destruct (String.eqb q "") eqn:Hq; simpl.
      * exists PNone, []. rewrite app_nil_r. destruct w; auto.
      * eexists (PStr q), [_]. unfold py_or. simpl. rewrite Hq.
        repeat split. repeat constructor.
    + exists PNone, []. rewrite app_nil_r. destruct w; auto.
Qed.

Lemma returns_only_bind {A B} (Q : B -> Prop) (m : M A) (k : A -> M B) :
  (forall a, returns_only Q (k a)) -> returns_only Q (bind m k).
Proof.
  intros Hk w b. unfold bind. destruct (m w) as [[a|e] w1]; [apply Hk | discriminate].
Qed.

Lemma returns_only_ret {A} (Q : A -> Prop) (a : A) : Q a -> returns_only Q (ret a).
Proof. intros H w a' Heq. injection Heq as <-. exact H. Qed.

Lemma emits_only_execute (P : event -> Prop) (ext : collaborators) (amb : ambient)
    (s : GalaxyCLI.self) :
  (forall ev, not_config_load ev -> P ev) ->
  emits_only P (GalaxyCLI.execute ext amb s).
Proof.
  intros HP.
  unfold GalaxyCLI.execute, GalaxyCLI.execute_build, GalaxyCLI.execute_info,
    GalaxyCLI.execute_install, GalaxyCLI.execute_list, GalaxyCLI.execute_remove,
    GalaxyCLI.execute_version, GalaxyCLI.call_handler.
  emits_with ltac:(apply HP; exact I).
Qed.

(** An environment variable that is set to the empty string is passed
    over, the legacy one like the primary one. *)
Remark empty_legacy_variable_is_passed_over :
  (get_config_path_from_env Fixtures.amb_empty_legacy Fixtures.w0).1 = Return PNone
  /\ spec_config_file_path Fixtures.amb_empty_legacy "~/.ansible/mazer.yml"
     = "~/.ansible/mazer.yml".
Proof. split; reflexivity. Qed.

(** C3: [run] hands to the configuration loader, and keeps as
    [config_file_path], the absolute, home-expanded form of the value of
    [MAZER_CONFIG] if that is set to a non-empty value, else of
    [ANSIBLE_GALAXY_CONFIG] if that is set to a non-empty value, else of
    the built-in default; the loader is called with no other path, it is
    called whenever the base class's [run] returns, and the path is
    absolute (the working directory being absolute). *)
Theorem run_config_file_path
    (ext : collaborators) (amb : ambient) (s : GalaxyCLI.self) (w : world) :
  let path :=
    PosixPath.abspath amb
      (PosixPath.expanduser amb (spec_config_file_path amb (CONFIG_FILE ext))) in
  let r := GalaxyCLI.run ext amb s w in
  (forall p, In (EvConfigLoad p) (events_since w r.2) -> p = path)
  /\ ((exists u, base_run ext = Return u) -> In (EvConfigLoad path) (events_since w r.2))
  /\ (forall s' rc, r.1 = Return (s', rc) -> GalaxyCLI.config_file_path s' = Some path)
  /\ (PosixPath.isabs (getcwd amb) = true -> PosixPath.isabs path = true).
Proof.
  intros path r.
  assert (Hin : forall evs p, Forall not_config_load evs -> ~ In (EvConfigLoad p) evs).
  { intros evs p H Hi. rewrite Forall_forall in H. apply list_elem_of_In in Hi.
    exact (H _ Hi). }
  assert (Hr : exists evs0 evs1 o h,
             GalaxyCLI.run ext amb s w = (o, World h (trace w ++ evs0 ++ evs1))
             /\ Forall not_config_load evs0
             /\ ((exists e, o = Raised e) /\ evs1 = []
                 \/ exists evs2, (exists u, base_run ext = Return u)
                      /\ evs1 = EvConfigLoad path :: evs2
                      /\ Forall not_config_load evs2
                      /\ forall s' rc, o = Return (s', rc) ->
                           GalaxyCLI.config_file_path s' = Some path)
             /\ ((exists u, base_run ext = Return u) -> evs1 <> [])).
  { unfold GalaxyCLI.run.
    destruct (get_config_path_from_env_eq amb (CONFIG_FILE ext) w)
      as (v & evs0 & Henv & Hq0 & Hor).
    erewrite bind_return by exact Henv. rewrite Hor.
    erewrite bind_return by reflexivity. fold path.
    erewrite bind_return by reflexivity.
    destruct (base_run ext) as [u|e] eqn:Hbr.
    - erewrite bind_return by reflexivity.
      match goal with
      | |- context [bind (GalaxyCLI.config_load_call ext path) ?k] => set (K := k)
      end.
      assert (HK : forall loaded,
                 emits_only not_config_load (K loaded)
                 /\ returns_only (fun o => GalaxyCLI.config_file_path o.1 = Some path)
                      (K loaded)).
      { intros loaded. subst K. split.
        - emits_with ltac:(exact I). apply emits_only_execute. auto.
        - repeat (apply returns_only_bind; intros ?).
          apply returns_only_ret. reflexivity. }
      unfold GalaxyCLI.config_load_call.
      unfold bind at 1. unfold bind at 1. simpl.
      destruct (config_load ext path) as [doc|e]; simpl.
      + destruct (HK (Config.Build (fresh (dom (heap w))) (doc_content_path doc)
                        (doc_global_content_path doc))) as [He Hret].
        match goal with |- context [K ?l ?w1] => destruct (He w1) as (evs2 & Ht & Hq2);
          pose proof (Hret w1) as Hret1; destruct (K l w1) as [o [h t]] end.
        simpl in *. subst t.
        exists (evs0 ++ [EvBaseRun]), (EvConfigLoad path :: evs2), o, h.
        split; [rewrite <- !app_assoc; reflexivity|].
        split; [apply Forall_app; split; [assumption | repeat constructor]|].
        split; [|discriminate].
        right. exists evs2. repeat split; eauto.
        intros s' rc ->. apply (Hret1 (s', rc)). reflexivity.
      + eexists (evs0 ++ [EvBaseRun]), [EvConfigLoad path], _, _.
        split; [rewrite <- !app_assoc; reflexivity|].
        split; [apply Forall_app; split; [assumption | repeat constructor]|].
        split; [|discriminate].
        right. exists []. repeat split; eauto. discriminate.
    - erewrite bind_raised by reflexivity.
      exists (evs0 ++ [EvBaseRun]), [], (Raised e), (heap w).
      split; [simpl; rewrite app_nil_r, app_assoc; reflexivity|].
      split; [apply Forall_app; split; [assumption | repeat constructor]|].
      split; [left; eauto|]. intros [u Hu]. discriminate Hu. }
  destruct Hr as (evs0 & evs1 & o & h & Hrun & Hq0 & Hcases & Hne).
  subst r. rewrite Hrun. simpl. rewrite events_since_app.
  split; [|split; [|split]].
  - intros p Hp. apply in_app_or in Hp. destruct Hp as [Hp|Hp]; [destruct (Hin _ _ Hq0 Hp)|].
    destruct Hcases as [[_ ->]|(evs2 & _ & -> & Hq2 & _)]; [destruct Hp|].
    destruct Hp as [Hp|Hp]; [congruence | destruct (Hin _ _ Hq2 Hp)].
  - intros Hu. apply in_or_app. right.
    destruct Hcases as [[_ ->]|(evs2 & _ & -> & _)]; [destruct (Hne Hu eq_refl) | left; reflexivity].
  - intros s' rc ->.
    destruct Hcases as [[[e He] _]|(evs2 & _ & _ & _ & Hs)]; [discriminate He | eauto].
  - apply abspath_isabs.
Qed.

Lemma run_config_file_path_witness :
  PosixPath.isabs
    (PosixPath.abspath Fixtures.amb_legacy
       (PosixPath.expanduser Fixtures.amb_legacy
          (spec_config_file_path Fixtures.amb_legacy (CONFIG_FILE Fixtures.ext0)))) = true
  /\ In (EvConfigLoad "/home/u/old/mazer.yml")
       (events_since Fixtures.w0
          (GalaxyCLI.run Fixtures.ext0 Fixtures.amb_legacy Fixtures.with_argument
             Fixtures.w0).2).
Proof.
  pose proof (run_config_file_path Fixtures.ext0 Fixtures.amb_legacy Fixtures.with_argument
                Fixtures.w0) as (_ & Hload & _ & Habs).
  split; [apply Habs; reflexivity | apply Hload; exists tt; reflexivity].
Defined.

(** ** A configuration without a content path *)

(** C8, as the specification states it, fails: with an empty configured
    content path and nothing else to choose from, the builder returns a
    context whose content path is empty. *)
Lemma empty_content_path_is_accepted :
  ~ (forall (amb : ambient) (options : Options) (config : Config.t) (w : world),
       no_content_path_source options config ->
       exists e w', GalaxyCLI._get_galaxy_context amb options config w = (Raised e, w')).
Proof.
  intros H.
  destruct (H Fixtures.amb0 ∅ (Config.Build 1%positive (PStr "") (PStr "/g")) Fixtures.w0)
    as (e & w' & Heq).
  - repeat split. right. reflexivity.
  - vm_compute in Heq. discriminate Heq.
Qed.

(** C8, amended: with no content-path option and global-install unset, a
    configured content path that is [None] makes the builder raise (the
    error of [os.path.expanduser] on a value that is not a path) before
    anything is constructed, and a configured content path that is the
    empty string makes it return a context whose content path is the empty
    string. *)
Theorem get_galaxy_context_without_content_path
    (amb : ambient) (options : Options) (config : Config.t) (w : world) :
  truthy (getattr_default options "content_path" PNone) = false ->
  truthy (getattr_default options "global_install" PNone) = false ->
  (Config.content_path config = PNone ->
   GalaxyCLI._get_galaxy_context amb options config w = (Raised TypeError, w))
  /\ (Config.content_path config = PStr "" ->
      forall d, heap w !! Config.server config = Some d ->
      exists ctx w',
        GalaxyCLI._get_galaxy_context amb options config w = (Return ctx, w')
        /\ GalaxyContext.content_path ctx = "").
Proof.
  intros Hc Hg. rewrite get_galaxy_context_eq.
  unfold resolved_content_path. rewrite Hc, Hg.
  split.
  - intros ->. reflexivity.
  - intros -> d ->. simpl. eauto.
Qed.

Lemma get_galaxy_context_without_content_path_witness :
  GalaxyCLI._get_galaxy_context Fixtures.amb0 ∅
    (Config.Build 1%positive PNone (PStr "/g")) Fixtures.w0
  = (Raised TypeError, Fixtures.w0).
Proof.
  apply (get_galaxy_context_without_content_path Fixtures.amb0 ∅
           (Config.Build 1%positive PNone (PStr "/g")) Fixtures.w0);
    reflexivity.
Defined.

(** ** Determinism of the context builder *)

(** C9, as the specification states it, fails: the context depends on the
    environment variable [HOME] that [os.path.expanduser] reads. *)
Lemma context_depends_on_home :
  ~ (forall (amb1 amb2 : ambient) (options : Options) (config : Config.t) (w : world),
       same_context (GalaxyCLI._get_galaxy_context amb1 options config w)
         (GalaxyCLI._get_galaxy_context amb2 options config w)).
Proof.
  intros H.
  specialize (H Fixtures.amb0 Fixtures.amb1 ∅
                (Config.Build 1%positive (PStr "~/.ansible/content") (PStr "/g"))
                Fixtures.w0).
  vm_compute in H. destruct H as [H _]. discriminate H.
Qed.

(** [os.path.expanduser] reads the variable [HOME] and the password
    database, and nothing else of the ambient state. *)
Lemma expanduser_reads (amb1 amb2 : ambient) (path : string) :
  environ amb1 !! "HOME" = environ amb2 !! "HOME" ->
  pw_uid_dir amb1 = pw_uid_dir amb2 ->
  (forall name, pw_name_dir amb1 !! name = pw_name_dir amb2 !! name) ->
  PosixPath.expanduser amb1 path = PosixPath.expanduser amb2 path.
Proof.
  intros Hhome Huid Hname. unfold PosixPath.expanduser.
  rewrite Hhome, Huid, Hname. reflexivity.
Qed.

(** C9, amended: the result of the context builder is a function of the
    options, the configuration document with the contents of its server
    block, and the part of the ambient state that [os.path.expanduser]
    reads: the variable [HOME] and the home directories of the password
    database.  Two runs that agree on these raise the same exception or
    build contexts with the same content path and the same server
    settings, whatever their working directories, their other environment
    variables, their heaps and their traces are. *)
Theorem get_galaxy_context_deterministic
    (amb1 amb2 : ambient) (options : Options) (config : Config.t) (w1 w2 : world) :
  environ amb1 !! "HOME" = environ amb2 !! "HOME" ->
  pw_uid_dir amb1 = pw_uid_dir amb2 ->
  (forall name, pw_name_dir amb1 !! name = pw_name_dir amb2 !! name) ->
  heap w1 !! Config.server config = heap w2 !! Config.server config ->
  same_context (GalaxyCLI._get_galaxy_context amb1 options config w1)
    (GalaxyCLI._get_galaxy_context amb2 options config w2).
Proof.
  intros Hhome Huid Hname Hs. rewrite !get_galaxy_context_eq, <- Hs. unfold same_context.
  destruct (resolved_content_path options config) as [| | |raw]; try reflexivity.
  destruct (heap w1 !! Config.server config); simpl; [|reflexivity].
  rewrite !lookup_insert_eq.
  rewrite (expanduser_reads amb1 amb2 raw Hhome Huid Hname). auto.
Qed.

Lemma get_galaxy_context_deterministic_witness :
  same_context
    (GalaxyCLI._get_galaxy_context Fixtures.amb0 ∅
       (Config.Build 1%positive (PStr "~/.ansible/content") (PStr "/g")) Fixtures.w0)
    (GalaxyCLI._get_galaxy_context
       (Ambient {[ "HOME" := "/home/u"; "MAZER_CONFIG" := "/etc/mazer.yml" ]} "/srv/other"
          (Some "/root") {[ "bob" := "/home/bob" ]})
       ∅ (Config.Build 1%positive (PStr "~/.ansible/content") (PStr "/g"))
       (World {[ 1%positive := Fixtures.server0; 2%positive := ∅ ]} [EvBaseRun])).
Proof.
  apply (get_galaxy_context_deterministic Fixtures.amb0
           (Ambient {[ "HOME" := "/home/u"; "MAZER_CONFIG" := "/etc/mazer.yml" ]} "/srv/other"
              (Some "/root") {[ "bob" := "/home/bob" ]})
           ∅ (Config.Build 1%positive (PStr "~/.ansible/content") (PStr "/g"))).
  - reflexivity.
  - reflexivity.
  - intros name. reflexivity.
  - reflexivity.
Defined.

(** ** Server settings of the context *)

Lemma in_add_option (o o' : opt_spec) (p : OptionParser) :
  In o (option_list p) -> In o (option_list (add_option p o')).
Proof. intros H. simpl. apply in_or_app. left. exact H. Qed.

Lemma in_set_usage (o : opt_spec) (p : OptionParser) (u : string) :
  In o (option_list p) -> In o (option_list (set_usage p u)).
Proof. intros H. exact H. Qed.

(** The parser that [parse] leaves holds the [ignore_certs] flag as a
    store-true option with default [None]. *)
Lemma parse_registers_ignore_certs (ext : collaborators) (s s' : GalaxyCLI.self)
    (w w' : world) :
  GalaxyCLI.parse ext s w = (Return s', w') ->
  exists p, GalaxyCLI.parser s' = Some p
    /\ In (MkOpt ["-c"; "--ignore-certs"] "ignore_certs" store_true (Some PNone))
         (option_list p).
Proof.
  unfold GalaxyCLI.parse.
  change (add_option (add_option (base_parser ext _) _) _) with (common_parser ext).
  unfold GalaxyCLI.set_action, bind at 1 2 3, lift_outcome at 1. simpl.
  destruct (base_set_action ext (Some (common_parser ext)) (GalaxyCLI.args s))
    as [[act args1]|e]; [|discriminate].
  simpl. unfold bind at 1, lift_outcome.
  match goal with
  | |- context [base_parse ext (Some ?p) args1] => set (P := p)
  end.
  assert (HP : In (MkOpt ["-c"; "--ignore-certs"] "ignore_certs" store_true (Some PNone))
                 (option_list P)).
  { subst P.
    repeat match goal with
           | |- In _ (option_list (if ?b then _ else _)) => destruct b
           | |- In _ (option_list (add_option _ _)) => apply in_add_option
           | |- In _ (option_list (set_usage _ _)) => apply in_set_usage
           end.
    all: unfold common_parser; simpl; apply in_or_app; right; left; reflexivity. }
  destruct (base_parse ext (Some P) args1) as [[opts args2]|e]; [|discriminate].
  simpl. unfold bind.
  match goal with
  | |- context [if ?b then _ else _] => destruct b
  end.
  - unfold getattr. destruct (opts !! "content_path") as [c|]; [|discriminate].
    simpl. destruct (truthy c) eqn:Hc.
    + destruct (opts !! "global_install") as [g|]; [|discriminate].
      simpl. destruct (truthy g); [discriminate|].
      intros Heq. injection Heq as <- <-. eauto.
    + simpl. rewrite Hc. intros Heq. injection Heq as <- <-. eauto.
  - simpl. intros Heq. injection Heq as <- <-. eauto.
Qed.

(** [parse] once the base class has found the action and the base parser
    has returned. *)
Lemma parse_after_base (ext : collaborators) (s s1 : GalaxyCLI.self) (w : world)
    (opts : Options) (args2 : list string) :
  GalaxyCLI.set_action ext (GalaxyCLI.set_parser s (common_parser ext)) w = (Return s1, w) ->
  base_parse ext (GalaxyCLI.parser s1) (GalaxyCLI.args s1) = Return (opts, args2) ->
  GalaxyCLI.parse ext s w =
  let s2 := GalaxyCLI.MkSelf args2 opts (GalaxyCLI.parser s1) (GalaxyCLI.action s1)
              (GalaxyCLI.api s1) (GalaxyCLI.config s1) (GalaxyCLI.config_file_path s1) in
  if GalaxyCLI.action_is s1 "install" then
    match opts !! "content_path" with
    | None => (Raised (AttributeError "content_path"), w)
    | Some c =>
        if truthy c then
          match opts !! "global_install" with
          | None => (Raised (AttributeError "global_install"), w)
          | Some g =>
              if truthy g then
                (Raised (CliOptionsError "--content-path and --global are mutually exclusive"),
                 w)
              else (Return s2, w)
          end
        else (Return s2, w)
    end
  else (Return s2, w).
Proof.
  intros Hset Hparse. unfold GalaxyCLI.parse.
  change (add_option (add_option (base_parser ext _) _) _) with (common_parser ext).
  erewrite bind_return by exact Hset.
  erewrite bind_return by (unfold lift_outcome; rewrite Hparse; reflexivity).
  simpl. unfold GalaxyCLI.action_is. simpl.
  destruct (GalaxyCLI.action s1) as [a|]; [|reflexivity].
  destruct (String.eqb a "install"); [|reflexivity].
  unfold bind, getattr.
  destruct (opts !! "content_path") as [c|]; [|reflexivity]. simpl.
  destruct (truthy c) eqn:Hc.
  - destruct (opts !! "global_install") as [g|]; [|reflexivity]. simpl.
    destruct (truthy g); reflexivity.
  - simpl. rewrite Hc. reflexivity.
Qed.

(** [set_action] only adds options to the parser it is given. *)
Lemma set_action_keeps_option (ext : collaborators) (s s1 : GalaxyCLI.self) (w w1 : world)
    (p0 : OptionParser) (o : opt_spec) :
  GalaxyCLI.parser s = Some p0 -> In o (option_list p0) ->
  GalaxyCLI.set_action ext s w = (Return s1, w1) ->
  exists p, GalaxyCLI.parser s1 = Some p /\ In o (option_list p).
Proof.
  intros Hp Ho. unfold GalaxyCLI.set_action, bind, lift_outcome, GalaxyCLI.get_parser.
  destruct (base_set_action ext (GalaxyCLI.parser s) (GalaxyCLI.args s)) as [[act args1]|e];
    [|discriminate].
  simpl. rewrite Hp. simpl. intros Heq. injection Heq as <- <-. simpl.
  eexists. split; [reflexivity|].
  repeat match goal with
         | |- In _ (option_list (if ?b then _ else _)) => destruct b
         | |- In _ (option_list (add_option _ _)) => apply in_add_option
         | |- In _ (option_list (set_usage _ _)) => apply in_set_usage
         end; exact Ho.
Qed.

Lemma common_parser_ignore_certs (ext : collaborators) :
  In (MkOpt ["-c"; "--ignore-certs"] "ignore_certs" store_true (Some PNone))
    (option_list (common_parser ext)).
Proof. unfold common_parser. simpl. apply in_or_app. right. left. reflexivity. Qed.

(** C10: [_get_galaxy_context] leaves every object that existed before as
    it was, the configuration's server block among them, whether it
    returns or raises.  Whenever the raw content path is a string it
    returns a context whose server dictionary is a new object; the [url]
    of that dictionary is the server-URL option when that is truthy (not
    empty) and the configured one otherwise; its [ignore_certs] is the
    ignore-certs option when that is truthy and the configured one
    otherwise, so a truthy configured [ignore_certs] is never turned off;
    the other items are the configured ones.  It returns in no other case.
    [parse] registers ignore-certs as a store-true flag whose default is
    [None] before it calls the base class: the parser that the base parser
    receives holds the flag; [parse] returns, with that parser, whenever
    the base parser returns and the exclusion check passes; and every
    instance that [parse] returns holds the flag in its parser. *)
Theorem get_galaxy_context_server
    (ext : collaborators) (amb : ambient) (options : Options) (config : Config.t)
    (w : world) (d : dict) :
  heap w !! Config.server config = Some d ->
  let r := GalaxyCLI._get_galaxy_context amb options config w in
  let raw :=
    if truthy (getattr_default options "global_install" PNone) then
      Config.global_content_path config
    else if truthy (getattr_default options "content_path" PNone) then
      getattr_default options "content_path" PNone
    else Config.content_path config in
  let url := getattr_default options "server_url" PNone in
  let ignore_certs := getattr_default options "ignore_certs" PNone in
  let flag := MkOpt ["-c"; "--ignore-certs"] "ignore_certs" store_true (Some PNone) in
  (forall l, is_Some (heap w !! l) -> heap r.2 !! l = heap w !! l)
  /\ heap r.2 !! Config.server config = Some d
  /\ (forall path, raw = PStr path ->
        exists ctx,
          r.1 = Return ctx
          /\ GalaxyContext.server ctx <> Config.server config
          /\ exists d',
              heap r.2 !! GalaxyContext.server ctx = Some d'
              /\ d' !! "url" = (if truthy url then Some url else d !! "url")
              /\ d' !! "ignore_certs"
                 = (if truthy ignore_certs then Some ignore_certs else d !! "ignore_certs")
              /\ (forall k, k <> "url" -> k <> "ignore_certs" -> d' !! k = d !! k)
              /\ (forall v, d !! "ignore_certs" = Some v -> truthy v = true ->
                    exists v', d' !! "ignore_certs" = Some v' /\ truthy v' = true))
  /\ (forall ctx, r.1 = Return ctx -> exists path, raw = PStr path)
  /\ (forall s s1 w0 w1,
        GalaxyCLI.set_action ext (GalaxyCLI.set_parser s (common_parser ext)) w0
          = (Return s1, w1) ->
        exists p, GalaxyCLI.parser s1 = Some p /\ In flag (option_list p))
  /\ (forall s s1 w0 opts args2,
        GalaxyCLI.set_action ext (GalaxyCLI.set_parser s (common_parser ext)) w0
          = (Return s1, w0) ->
        base_parse ext (GalaxyCLI.parser s1) (GalaxyCLI.args s1) = Return (opts, args2) ->
        GalaxyCLI.action_is s1 "install" = false
        \/ (exists c, opts !! "content_path" = Some c /\ truthy c = false)
        \/ (exists c g, opts !! "content_path" = Some c
                        /\ opts !! "global_install" = Some g /\ truthy g = false) ->
        exists s' p,
          GalaxyCLI.parse ext s w0 = (Return s', w0)
          /\ GalaxyCLI.options s' = opts
          /\ GalaxyCLI.parser s' = Some p
          /\ In flag (option_list p))
  /\ (forall s s' w0 w', GalaxyCLI.parse ext s w0 = (Return s', w') ->
        exists p, GalaxyCLI.parser s' = Some p /\ In flag (option_list p)).
Proof.
  intros Hd r raw url ignore_certs flag.
  assert (Hfresh : forall l, is_Some (heap w !! l) -> fresh (dom (heap w)) <> l).
  { intros l Hl Heq. apply elem_of_dom in Hl. rewrite <- Heq in Hl.
    exact (is_fresh (dom (heap w)) Hl). }
  change raw with (resolved_content_path options config). clear raw.
  subst r. rewrite get_galaxy_context_eq, Hd.
  split; [|split; [|split; [|split; [|split; [|split]]]]].
  - intros l Hl. destruct (resolved_content_path options config); try reflexivity.
    simpl. apply lookup_insert_ne, Hfresh, Hl.
  - destruct (resolved_content_path options config); try exact Hd.
    simpl. rewrite lookup_insert_ne; [exact Hd | apply Hfresh; eauto].
  - intros path ->. simpl. eexists. split; [reflexivity|]. simpl.
    split; [apply Hfresh; eauto|].
    exists (server_overrides options d). rewrite lookup_insert_eq.
    split; [reflexivity|].
    unfold server_overrides. fold url ignore_certs.
    assert (Hurl : (if truthy ignore_certs
                    then <["ignore_certs":=ignore_certs]>
                           (if truthy url then <["url":=url]> d else d)
                    else if truthy url then <["url":=url]> d else d) !! "url"
                   = (if truthy url then Some url else d !! "url")).
    { destruct (truthy ignore_certs), (truthy url);
        rewrite ?lookup_insert_ne by discriminate; rewrite ?lookup_insert_eq; reflexivity. }
    assert (Hic : (if truthy ignore_certs
                   then <["ignore_certs":=ignore_certs]>
                          (if truthy url then <["url":=url]> d else d)
                   else if truthy url then <["url":=url]> d else d) !! "ignore_certs"
                  = (if truthy ignore_certs then Some ignore_certs
                     else d !! "ignore_certs")).
    { destruct (truthy ignore_certs), (truthy url);
        rewrite ?lookup_insert_eq; rewrite ?lookup_insert_ne by discriminate; reflexivity. }
    split; [exact Hurl|]. split; [exact Hic|]. split.
    + intros k Hk1 Hk2.
      destruct (truthy ignore_certs), (truthy url);
        rewrite ?lookup_insert_ne by congruence; reflexivity.
    + intros v Hv Ht. rewrite Hic.
      destruct (truthy ignore_certs) eqn:Hi; eauto.
  - intros ctx. destruct (resolved_content_path options config); try discriminate.
    eauto.
  - intros s s1 w0 w1.
    apply (set_action_keeps_option ext (GalaxyCLI.set_parser s (common_parser ext))
             s1 w0 w1 (common_parser ext) flag);
      [reflexivity | apply common_parser_ignore_certs].
  - intros s s1 w0 opts args2 Hset Hparse Hcases.
    destruct (set_action_keeps_option ext (GalaxyCLI.set_parser s (common_parser ext))
                s1 w0 w0 (common_parser ext) flag eq_refl
                (common_parser_ignore_certs ext) Hset) as (p & Hp & Hin).
    exists (GalaxyCLI.MkSelf args2 opts (GalaxyCLI.parser s1) (GalaxyCLI.action s1)
              (GalaxyCLI.api s1) (GalaxyCLI.config s1) (GalaxyCLI.config_file_path s1)), p.
    split; [|split; [reflexivity|split; [exact Hp|exact Hin]]].
    rewrite (parse_after_base ext s s1 w0 opts args2 Hset Hparse).
    cbv zeta. destruct (GalaxyCLI.action_is s1 "install"); [|reflexivity].
    destruct Hcases as [H|[(c & Hc & Ht)|(c & g & Hc & Hg & Ht)]]; [discriminate H| |].
    + rewrite Hc, Ht. reflexivity.
    + rewrite Hc, Hg, Ht. destruct (truthy c); reflexivity.
  - intros s s' w0 w'. apply parse_registers_ignore_certs.
Qed.

Lemma get_galaxy_context_server_witness :
  (exists ctx d',
     (GalaxyCLI._get_galaxy_context Fixtures.amb0
        {[ "server_url" := PStr "https://galaxy.test"; "ignore_certs" := PNone ]}
        Fixtures.cfg0 Fixtures.w0).1 = Return ctx
     /\ heap (GalaxyCLI._get_galaxy_context Fixtures.amb0
                {[ "server_url" := PStr "https://galaxy.test"; "ignore_certs" := PNone ]}
                Fixtures.cfg0 Fixtures.w0).2 !! GalaxyContext.server ctx = Some d'
     /\ d' !! "url" = Some (PStr "https://galaxy.test")
     /\ d' !! "ignore_certs" = Some (PBool true))
  /\ heap (GalaxyCLI._get_galaxy_context Fixtures.amb0
             {[ "server_url" := PStr "https://galaxy.test"; "ignore_certs" := PNone ]}
             Fixtures.cfg0 Fixtures.w0).2 !! Config.server Fixtures.cfg0
     = Some Fixtures.server0
  /\ exists s' p,
       GalaxyCLI.parse Fixtures.ext0 MoreFixtures.list_invocation Fixtures.w0
       = (Return s', Fixtures.w0)
       /\ GalaxyCLI.options s' = Fixtures.both_set
       /\ GalaxyCLI.parser s' = Some p
       /\ In (MkOpt ["-c"; "--ignore-certs"] "ignore_certs" store_true (Some PNone))
            (option_list p).
Proof.
  pose proof (get_galaxy_context_server Fixtures.ext0 Fixtures.amb0
                {[ "server_url" := PStr "https://galaxy.test"; "ignore_certs" := PNone ]}
                Fixtures.cfg0 Fixtures.w0 Fixtures.server0 eq_refl)
    as (_ & Hsame & Hctx & _ & _ & Hparse & _).
  split; [|split; [exact Hsame|]].
  - destruct (Hctx "/c" eq_refl) as (ctx & Hr & _ & d' & Hd' & Hurl & Hic & _).
    exists ctx, d'. split; [exact Hr|]. split; [exact Hd'|].
    split; [exact Hurl | exact Hic].
  - eapply (Hparse MoreFixtures.list_invocation _ Fixtures.w0);
      [reflexivity | reflexivity | left; reflexivity].
Defined.

(** * Further properties of the module *)

(** ** [set_action] and [parse] *)

(** [set_action] in closed form, for an instance that has a parser. *)
Lemma set_action_world (ext : collaborators) (s s1 : GalaxyCLI.self) (w w1 : world) :
  GalaxyCLI.set_action ext s w = (Return s1, w1) ->
  w1 = w
  /\ base_set_action ext (GalaxyCLI.parser s) (GalaxyCLI.args s)
     = Return (GalaxyCLI.action s1, GalaxyCLI.args s1)
  /\ GalaxyCLI.options s1 = GalaxyCLI.options s
  /\ GalaxyCLI.api s1 = GalaxyCLI.api s
  /\ GalaxyCLI.config s1 = GalaxyCLI.config s
  /\ GalaxyCLI.config_file_path s1 = GalaxyCLI.config_file_path s.
Proof.
  unfold GalaxyCLI.set_action, bind, lift_outcome, GalaxyCLI.get_parser.
  destruct (base_set_action ext (GalaxyCLI.parser s) (GalaxyCLI.args s)) as [[act args1]|e];
    [|discriminate].
  simpl. destruct (GalaxyCLI.parser s) as [p|]; [|discriminate].
  simpl. intros Heq. injection Heq as <- <-. simpl. repeat split; reflexivity.
Qed.

(** X1: [parse] rejects nothing but an install with both options set: once
    the base class and the base parser have returned, [parse] returns the
    instance with the parsed options and arguments, and leaves the world
    alone, when the action is not install (whatever the options hold), when
    the content path is present and falsy (the global-install attribute is
    then not even read), and when the content path is present and the
    global install is present and falsy. *)
Theorem parse_accepts
    (ext : collaborators) (s s1 : GalaxyCLI.self) (w : world)
    (opts : Options) (args2 : list string) :
  GalaxyCLI.set_action ext (GalaxyCLI.set_parser s (common_parser ext)) w = (Return s1, w) ->
  base_parse ext (GalaxyCLI.parser s1) (GalaxyCLI.args s1) = Return (opts, args2) ->
  GalaxyCLI.action_is s1 "install" = false
  \/ (exists c, opts !! "content_path" = Some c /\ truthy c = false)
  \/ (exists c g, opts !! "content_path" = Some c
                  /\ opts !! "global_install" = Some g /\ truthy g = false) ->
  GalaxyCLI.parse ext s w
  = (Return (GalaxyCLI.MkSelf args2 opts (GalaxyCLI.parser s1) (GalaxyCLI.action s1)
               (GalaxyCLI.api s1) (GalaxyCLI.config s1) (GalaxyCLI.config_file_path s1)),
     w).
Proof.
  intros Hset Hparse Hcases. rewrite (parse_after_base ext s s1 w opts args2 Hset Hparse).
  cbv zeta. destruct (GalaxyCLI.action_is s1 "install"); [|reflexivity].
  destruct Hcases as [H|[(c & Hc & Ht)|(c & g & Hc & Hg & Ht)]]; [discriminate H| |].
  - rewrite Hc, Ht. reflexivity.
  - rewrite Hc, Hg, Ht. destruct (truthy c); reflexivity.
Qed.

Lemma parse_accepts_witness :
  exists s',
    GalaxyCLI.parse Fixtures.ext0 MoreFixtures.list_invocation Fixtures.w0
    = (Return s', Fixtures.w0)
    /\ GalaxyCLI.options s' = Fixtures.both_set
    /\ GalaxyCLI.action s' = Some "list".
Proof.
  eexists. split.
  - eapply (parse_accepts Fixtures.ext0 MoreFixtures.list_invocation _ Fixtures.w0);
      [reflexivity | reflexivity | left; reflexivity].
  - split; reflexivity.
Defined.

(** X2: for the install action [parse] reads the options without a
    default: options without the [content_path] attribute make it raise
    [AttributeError], and so do options with a truthy content path and
    without the [global_install] attribute; nothing else has happened. *)
Theorem parse_install_needs_attributes
    (ext : collaborators) (s s1 : GalaxyCLI.self) (w : world)
    (opts : Options) (args2 : list string) :
  GalaxyCLI.set_action ext (GalaxyCLI.set_parser s (common_parser ext)) w = (Return s1, w) ->
  base_parse ext (GalaxyCLI.parser s1) (GalaxyCLI.args s1) = Return (opts, args2) ->
  GalaxyCLI.action_is s1 "install" = true ->
  (opts !! "content_path" = None ->
   GalaxyCLI.parse ext s w = (Raised (AttributeError "content_path"), w))
  /\ (forall c, opts !! "content_path" = Some c -> truthy c = true ->
      opts !! "global_install" = None ->
      GalaxyCLI.parse ext s w = (Raised (AttributeError "global_install"), w)).
Proof.
  intros Hset Hparse Hact. rewrite (parse_after_base ext s s1 w opts args2 Hset Hparse).
  cbv zeta. rewrite Hact. split.
  - intros ->. reflexivity.
  - intros c -> -> ->. reflexivity.
Qed.

Lemma parse_install_needs_attributes_witness :
  GalaxyCLI.parse MoreFixtures.ext_no_attributes
    (GalaxyCLI.__init__ ["install"; "geerlingguy.nginx"]) Fixtures.w0
  = (Raised (AttributeError "content_path"), Fixtures.w0).
Proof.
  eapply (parse_install_needs_attributes MoreFixtures.ext_no_attributes
            (GalaxyCLI.__init__ ["install"; "geerlingguy.nginx"]) _ Fixtures.w0 ∅);
    reflexivity.
Defined.

(** X3: [parse] lets the failures of the base class pass as they are: an
    exception of [cli.CLI.set_action] or of [cli.CLI.parse] is the
    exception of [parse], and the world is as it was. *)
Theorem parse_propagates_base_errors
    (ext : collaborators) (s : GalaxyCLI.self) (w : world) (e : exn) :
  (base_set_action ext (Some (common_parser ext)) (GalaxyCLI.args s) = Raised e ->
   GalaxyCLI.parse ext s w = (Raised e, w))
  /\ (forall s1,
        GalaxyCLI.set_action ext (GalaxyCLI.set_parser s (common_parser ext)) w
        = (Return s1, w) ->
        base_parse ext (GalaxyCLI.parser s1) (GalaxyCLI.args s1) = Raised e ->
        GalaxyCLI.parse ext s w = (Raised e, w)).
Proof.
  split.
  - intros Hbase. unfold GalaxyCLI.parse.
    change (add_option (add_option (base_parser ext _) _) _) with (common_parser ext).
    erewrite bind_raised; [reflexivity|].
    unfold GalaxyCLI.set_action. erewrite bind_raised; [reflexivity|].
    unfold lift_outcome. simpl. rewrite Hbase. reflexivity.
  - intros s1 Hset Hparse. unfold GalaxyCLI.parse.
    change (add_option (add_option (base_parser ext _) _) _) with (common_parser ext).
    erewrite bind_return by exact Hset.
    erewrite bind_raised; [reflexivity|].
    unfold lift_outcome. rewrite Hparse. reflexivity.
Qed.

Lemma parse_propagates_base_errors_witness :
  GalaxyCLI.parse Fixtures.ext0 (GalaxyCLI.__init__ []) Fixtures.w0
  = (Raised (CliOptionsError "Missing required action"), Fixtures.w0).
Proof.
  apply (parse_propagates_base_errors Fixtures.ext0 (GalaxyCLI.__init__ []) Fixtures.w0).
  reflexivity.
Defined.

(** X4: [set_action] only adds options, after those the parser has, and
    which ones depends on the action alone: build gets the collection and
    output paths, info the offline flag, install its seven options, and
    every action but version the content path; nothing but the parser, the
    action and the arguments of the instance changes, and the world stays
    as it was. *)
Theorem set_action_registers
    (ext : collaborators) (s s1 : GalaxyCLI.self) (w w1 : world)
    (a : valid_action) (p0 : OptionParser) :
  GalaxyCLI.parser s = Some p0 ->
  GalaxyCLI.set_action ext s w = (Return s1, w1) ->
  GalaxyCLI.action s1 = Some (action_name a) ->
  w1 = w
  /\ GalaxyCLI.options s1 = GalaxyCLI.options s
  /\ exists p,
      GalaxyCLI.parser s1 = Some p
      /\ map opt_dest (option_list p) = map opt_dest (option_list p0) ++ action_options a.
Proof.
  intros Hp Hset Hact.
  destruct (set_action_world ext s s1 w w1 Hset) as (-> & _ & Ho & _).
  split; [reflexivity|]. split; [exact Ho|].
  revert Hset Hact.
  unfold GalaxyCLI.set_action, bind, lift_outcome, GalaxyCLI.get_parser.
  destruct (base_set_action ext (GalaxyCLI.parser s) (GalaxyCLI.args s)) as [[act args1]|e];
    [|discriminate].
  simpl. rewrite Hp. simpl. intros Heq. injection Heq as <-. simpl.
  intros ->. unfold GalaxyCLI.action_is. simpl.
  clear Ho.
  destruct a; simpl; eexists; (split; [reflexivity|]); simpl;
    rewrite ?map_app; simpl; rewrite <- ?app_assoc, ?app_nil_r; reflexivity.
Qed.

Lemma set_action_registers_witness :
  exists s1 p,
    GalaxyCLI.set_action Fixtures.ext0
      (GalaxyCLI.set_parser (GalaxyCLI.__init__ ["version"]) (common_parser Fixtures.ext0))
      Fixtures.w0 = (Return s1, Fixtures.w0)
    /\ GalaxyCLI.parser s1 = Some p
    /\ map opt_dest (option_list p) = ["server_url"; "ignore_certs"].
Proof.
  eexists.
  destruct (set_action_registers Fixtures.ext0
              (GalaxyCLI.set_parser (GalaxyCLI.__init__ ["version"])
                 (common_parser Fixtures.ext0))
              _ Fixtures.w0 Fixtures.w0 ActVersion (common_parser Fixtures.ext0)
              eq_refl eq_refl eq_refl) as (_ & _ & p & Hp & Hd).
  exists p. split; [reflexivity|]. split; [exact Hp|]. exact Hd.
Defined.

(** ** The context builder once more *)

(** The builder does not look at the trace. *)
Lemma get_galaxy_context_frame (amb : ambient) (options : Options) (config : Config.t)
    (w w1 : world) (ctx : GalaxyContext.t) (evs : list event) :
  GalaxyCLI._get_galaxy_context amb options config w = (Return ctx, w1) ->
  GalaxyCLI._get_galaxy_context amb options config (World (heap w) (trace w ++ evs))
  = (Return ctx, World (heap w1) (trace w ++ evs ++ [EvGalaxyContext ctx]))
  /\ trace w1 = trace w ++ [EvGalaxyContext ctx].
Proof.
  rewrite !get_galaxy_context_eq. simpl.
  destruct (resolved_content_path options config); try discriminate.
  destruct (heap w !! Config.server config); [|discriminate].
  simpl. intros Heq. injection Heq as <- <-. simpl.
  rewrite <- app_assoc. split; reflexivity.
Qed.

(** What the builder does to the world. *)
Lemma get_galaxy_context_effect
    (amb : ambient) (options : Options) (config : Config.t) (w : world) :
  match GalaxyCLI._get_galaxy_context amb options config w with
  | (Return ctx, w') =>
      heap w !! GalaxyContext.server ctx = None
      /\ dom (heap w') = {[ GalaxyContext.server ctx ]} ∪ dom (heap w)
      /\ trace w' = trace w ++ [EvGalaxyContext ctx]
  | (Raised e, w') =>
      w' = w /\ (e = TypeError \/ e = AttributeError "copy")
  end.
Proof.
  rewrite get_galaxy_context_eq.
  destruct (resolved_content_path options config); auto.
  destruct (heap w !! Config.server config); auto.
  simpl. split; [|split; [|reflexivity]].
  - apply not_elem_of_dom. apply is_fresh.
  - apply dom_insert_L.
Qed.


(** X6: options that override nothing (the four attributes missing, as
    for an options record of another action, or falsy) give a context that
    mirrors the configuration: its content path is the home-expanded
    configured content path and its server dictionary has the items of the
    configured server block. *)
Theorem get_galaxy_context_without_overrides
    (amb : ambient) (options : Options) (config : Config.t) (w : world)
    (d : dict) (s : string) :
  (forall name, In name ["content_path"; "global_install"; "server_url"; "ignore_certs"] ->
     truthy (getattr_default options name PNone) = false) ->
  heap w !! Config.server config = Some d ->
  Config.content_path config = PStr s ->
  exists ctx w',
    GalaxyCLI._get_galaxy_context amb options config w = (Return ctx, w')
    /\ GalaxyContext.content_path ctx = PosixPath.expanduser amb s
    /\ heap w' !! GalaxyContext.server ctx = Some d.
Proof.
  intros Hno Hd Hs. rewrite get_galaxy_context_eq.
  unfold resolved_content_path, server_overrides.
  rewrite !Hno by (simpl; auto 6). rewrite Hs, Hd. simpl.
  eexists _, _. split; [reflexivity|]. split; [reflexivity|].
  apply lookup_insert_eq.
Qed.

Lemma get_galaxy_context_without_overrides_witness :
  exists ctx w',
    GalaxyCLI._get_galaxy_context Fixtures.amb0 ∅ Fixtures.cfg0 Fixtures.w0 = (Return ctx, w')
    /\ GalaxyContext.content_path ctx = PosixPath.expanduser Fixtures.amb0 "/c"
    /\ heap w' !! GalaxyContext.server ctx = Some Fixtures.server0.
Proof.
  apply (get_galaxy_context_without_overrides Fixtures.amb0 ∅ Fixtures.cfg0 Fixtures.w0
           Fixtures.server0 "/c"); [|reflexivity|reflexivity].
  intros name _. reflexivity.
Defined.

(** ** The methods of the actions on their way to the handler *)

Lemma is_empty_append_cons (a : string) (c : ascii) (r : string) :
  PyString.is_empty (a +:+ String c r) = false.
Proof. destruct a; reflexivity. Qed.

Lemma join_releases_nonempty (a : string) :
  PyString.is_empty (PosixPath.join a "releases") = false.
Proof.
  unfold PosixPath.join.
  change (PyString.startswith "releases" PyString.sep) with false. cbv iota.
  destruct (PyString.is_empty a || PyString.endswith_sep a);
    [apply is_empty_append_cons | destruct a; reflexivity].
Qed.

(** [execute_build] in closed form. *)
Lemma execute_build_eq (ext : collaborators) (amb : ambient) (s : GalaxyCLI.self) (w : world) :
  GalaxyCLI.execute_build ext amb s w =
  let w' := World (heap w)
              (trace w ++ [EvLog DEBUG "options: %s" []; EvLog DEBUG "args: %s" []]) in
  match GalaxyCLI.config s with
  | None => (Raised (AttributeError "config"), w')
  | Some cfg =>
      match GalaxyCLI._get_galaxy_context amb (GalaxyCLI.options s) cfg w' with
      | (Raised e, w1) => (Raised e, w1)
      | (Return ctx, w1) =>
          match GalaxyCLI.options s !! "collection_path" with
          | None => (Raised (AttributeError "collection_path"), w1)
          | Some cp =>
              match GalaxyCLI.options s !! "output_path" with
              | None => (Raised (AttributeError "output_path"), w1)
              | Some op =>
                  let collection_path := py_or cp (PStr (getcwd amb)) in
                  if truthy op then
                    GalaxyCLI.call_handler ext
                      (build_build ctx (BuildContext.Build collection_path op)) w1
                  else
                    match collection_path with
                    | PStr d =>
                        GalaxyCLI.call_handler ext
                          (build_build ctx
                             (BuildContext.Build collection_path
                                (PStr (PosixPath.join d "releases")))) w1
                    | _ => (Raised TypeError, w1)
                    end
              end
          end
      end
  end.
Proof.
  unfold GalaxyCLI.execute_build, GalaxyCLI.get_config, getattr, os_path_join.
  unfold bind at 1 2 3. simpl. rewrite <- app_assoc. simpl.
  destruct (GalaxyCLI.config s) as [cfg|]; [|reflexivity]. simpl.
  unfold bind at 1.
  destruct (GalaxyCLI._get_galaxy_context amb (GalaxyCLI.options s) cfg _) as [[ctx|e] w1];
    [|reflexivity].
  unfold bind at 1.
  destruct (GalaxyCLI.options s !! "collection_path") as [cp|]; [|reflexivity]. simpl.
  unfold bind at 1.
  destruct (GalaxyCLI.options s !! "output_path") as [op|]; [|reflexivity]. simpl.
  unfold bind at 1.
  destruct (truthy op); [reflexivity|].
  destruct (py_or cp (PStr (getcwd amb))); reflexivity.
Qed.

(** X7: the defaults of the build action.  With a context built and the
    two options of build in the options record, the collection path being
    [None] or a string as the parser stores it, [execute_build] calls the
    build handler, and returns or raises what it does, with a build context
    whose collection path is the option or else the working directory and
    whose output path is the option or else [releases] under the collection
    path; the output path is never empty. *)
Theorem execute_build_defaults
    (ext : collaborators) (amb : ambient) (s : GalaxyCLI.self) (w w1 : world)
    (cfg : Config.t) (ctx : GalaxyContext.t) (cp op : pyval) :
  GalaxyCLI.config s = Some cfg ->
  GalaxyCLI._get_galaxy_context amb (GalaxyCLI.options s) cfg w = (Return ctx, w1) ->
  GalaxyCLI.options s !! "collection_path" = Some cp ->
  GalaxyCLI.options s !! "output_path" = Some op ->
  cp = PNone \/ (exists d, cp = PStr d) ->
  exists collection_path output_path,
    let call :=
      build_build ctx (BuildContext.Build (PStr collection_path) output_path) in
    collection_path = (if truthy cp then py_str cp else getcwd amb)
    /\ output_path
       = (if truthy op then op else PStr (PosixPath.join collection_path "releases"))
    /\ truthy output_path = true
    /\ (GalaxyCLI.execute_build ext amb s w).1 = handler ext call (heap w1)
    /\ In (EvHandler call) (events_since w (GalaxyCLI.execute_build ext amb s w).2).
Proof.
  intros Hcfg Hgc Hcp Hop Hstr.
  destruct (get_galaxy_context_frame amb _ cfg w w1 ctx
              [EvLog DEBUG "options: %s" []; EvLog DEBUG "args: %s" []] Hgc) as [Hgc' Ht].
  rewrite execute_build_eq. cbv zeta. rewrite Hcfg, Hgc', Hcp, Hop.
  assert (Hcoll : py_or cp (PStr (getcwd amb))
                  = PStr (if truthy cp then py_str cp else getcwd amb)).
  { unfold py_or. destruct Hstr as [->|[d ->]]; [reflexivity|].
    destruct (truthy (PStr d)); reflexivity. }
  rewrite Hcoll.
  exists (if truthy cp then py_str cp else getcwd amb).
  destruct (truthy op) eqn:Hto.
  - exists op. rewrite call_handler_eq. simpl.
    rewrite <- !app_assoc, events_since_app.
    repeat split; auto. apply in_or_app. right. simpl. auto.
  - eexists. rewrite call_handler_eq. simpl.
    rewrite <- !app_assoc, events_since_app.
    split; [reflexivity|]. split; [reflexivity|].
    split; [simpl; fold (PyString.is_empty (PosixPath.join
                                 (if truthy cp then py_str cp else getcwd amb) "releases"));
            rewrite join_releases_nonempty; reflexivity|].
    split; [reflexivity|]. apply in_or_app. right. simpl. auto.
Qed.

Lemma execute_build_defaults_witness :
  In (EvHandler
        (build_build (GalaxyContext.Build 2%positive "/c")
           (BuildContext.Build (PStr "/work/dir") (PStr "/work/dir/releases"))))
    (events_since Fixtures.w0
       (GalaxyCLI.execute_build Fixtures.ext0 Fixtures.amb0 MoreFixtures.build_plain
          Fixtures.w0).2).
Proof.
  destruct (execute_build_defaults Fixtures.ext0 Fixtures.amb0 MoreFixtures.build_plain
              Fixtures.w0
              (GalaxyCLI._get_galaxy_context Fixtures.amb0
                 (GalaxyCLI.options MoreFixtures.build_plain) Fixtures.cfg0 Fixtures.w0).2
              Fixtures.cfg0 (GalaxyContext.Build 2%positive "/c") PNone PNone)
    as (c & o & -> & -> & _ & _ & Hin);
    [reflexivity | reflexivity | reflexivity | reflexivity | left; reflexivity |].
  exact Hin.
Defined.

(** X8: what [execute_install] hands to the installer.  With a context
    built and the five options it reads in the options record, it calls the
    install handler once, with that context, the positional arguments as
    they are and in their order, the content type [all] and the five
    options as they are, and its result is the handler's: the value
    returned or the exception raised. *)
Theorem execute_install_forwards
    (ext : collaborators) (amb : ambient) (s : GalaxyCLI.self) (w w1 : world)
    (cfg : Config.t) (ctx : GalaxyContext.t)
    (editable namespace ignore_errors no_deps force : pyval) :
  GalaxyCLI.config s = Some cfg ->
  GalaxyCLI._get_galaxy_context amb (GalaxyCLI.options s) cfg w = (Return ctx, w1) ->
  GalaxyCLI.options s !! "editable_install" = Some editable ->
  GalaxyCLI.options s !! "namespace" = Some namespace ->
  GalaxyCLI.options s !! "ignore_errors" = Some ignore_errors ->
  GalaxyCLI.options s !! "no_deps" = Some no_deps ->
  GalaxyCLI.options s !! "force" = Some force ->
  let call :=
    install_install_content_specs ctx editable (GalaxyCLI.args s) "all" namespace
      ignore_errors no_deps force in
  (GalaxyCLI.execute_install ext amb s w).1 = handler ext call (heap w1)
  /\ exists after,
      events_since w (GalaxyCLI.execute_install ext amb s w).2
      = [EvLog DEBUG "self.options: %s" []; EvGalaxyContext ctx; EvHandler call] ++ after
      /\ Forall not_handler after.
Proof.
  intros Hcfg Hgc He Hn Hi Hd Hf call.
  destruct (get_galaxy_context_frame amb _ cfg w w1 ctx
              [EvLog DEBUG "self.options: %s" []] Hgc) as [Hgc' Ht].
  set (evs := [EvLog DEBUG "self.options: %s" []; EvGalaxyContext ctx; EvHandler call]).
  assert (Heq : GalaxyCLI.execute_install ext amb s w =
                match handler ext call (heap w1) with
                | Return v => (Return v, World (heap w1) (trace w ++ evs))
                | Raised e =>
                    (Raised e,
                     World (heap w1)
                       (trace w ++ evs ++
                        if isinstance_Exception e then [EvLogException e] else []))
                end).
  { unfold GalaxyCLI.execute_install, GalaxyCLI.get_config. rewrite Hcfg.
    unfold bind at 1 2 3. simpl. rewrite Hgc'.
    unfold try_except_Exception, getattr, bind. rewrite He, Hn, Hi, Hd, Hf. simpl.
    fold call. subst evs.
    destruct (handler ext call (heap w1)) as [v|e]; simpl.
    - rewrite <- !app_assoc. reflexivity.
    - destruct (isinstance_Exception e); simpl; rewrite <- !app_assoc; reflexivity. }
  rewrite Heq. destruct (handler ext call (heap w1)) as [v|e]; simpl;
    (split; [reflexivity|]); rewrite events_since_app.
  - exists []. split; [reflexivity | constructor].
  - eexists. split; [reflexivity|]. destruct (isinstance_Exception e); repeat constructor.
Qed.

Lemma execute_install_forwards_witness :
  (GalaxyCLI.execute_install Fixtures.ext0 Fixtures.amb0 Fixtures.install_one Fixtures.w0).1
  = Return (PInt 0).
Proof.
  apply (execute_install_forwards Fixtures.ext0 Fixtures.amb0 Fixtures.install_one
           Fixtures.w0
           (GalaxyCLI._get_galaxy_context Fixtures.amb0
              (GalaxyCLI.options Fixtures.install_one) Fixtures.cfg0 Fixtures.w0).2
           Fixtures.cfg0 (GalaxyContext.Build 2%positive "/c")
           PNone PNone (PBool false) (PBool false) (PBool false));
    reflexivity.
Defined.

(** X9: an option that [execute_install] reads and the options record
    lacks is an [AttributeError] raised inside the [try] statement: it is
    logged with [log.exception] like a failure of the handler and raised
    again, and the handler is not called. *)
Theorem execute_install_missing_option
    (ext : collaborators) (amb : ambient) (s : GalaxyCLI.self) (w w1 : world)
    (cfg : Config.t) (ctx : GalaxyContext.t) (name : string) :
  GalaxyCLI.config s = Some cfg ->
  GalaxyCLI._get_galaxy_context amb (GalaxyCLI.options s) cfg w = (Return ctx, w1) ->
  In name ["editable_install"; "namespace"; "ignore_errors"; "no_deps"; "force"] ->
  GalaxyCLI.options s !! name = None ->
  exists missing,
    GalaxyCLI.options s !! missing = None
    /\ (GalaxyCLI.execute_install ext amb s w).1 = Raised (AttributeError missing)
    /\ events_since w (GalaxyCLI.execute_install ext amb s w).2
       = [EvLog DEBUG "self.options: %s" []; EvGalaxyContext ctx;
          EvLogException (AttributeError missing)].
Proof.
  intros Hcfg Hgc Hin Hnone.
  destruct (get_galaxy_context_frame amb _ cfg w w1 ctx
              [EvLog DEBUG "self.options: %s" []] Hgc) as [Hgc' Ht].
  assert (Heq : exists missing,
             GalaxyCLI.options s !! missing = None
             /\ GalaxyCLI.execute_install ext amb s w
                = (Raised (AttributeError missing),
                   World (heap w1)
                     (trace w ++ [EvLog DEBUG "self.options: %s" []; EvGalaxyContext ctx;
                                  EvLogException (AttributeError missing)]))).
  { unfold GalaxyCLI.execute_install, GalaxyCLI.get_config. rewrite Hcfg.
    unfold bind at 1 2 3. simpl. rewrite Hgc'.
    unfold try_except_Exception, getattr, bind.
    destruct (GalaxyCLI.options s !! "editable_install") eqn:H1;
      [|exists "editable_install"; simpl; rewrite <- !app_assoc; auto].
    destruct (GalaxyCLI.options s !! "namespace") eqn:H2;
      [|exists "namespace"; simpl; rewrite <- !app_assoc; auto].
    destruct (GalaxyCLI.options s !! "ignore_errors") eqn:H3;
      [|exists "ignore_errors"; simpl; rewrite <- !app_assoc; auto].
    destruct (GalaxyCLI.options s !! "no_deps") eqn:H4;
      [|exists "no_deps"; simpl; rewrite <- !app_assoc; auto].
    destruct (GalaxyCLI.options s !! "force") eqn:H5;
      [|exists "force"; simpl; rewrite <- !app_assoc; auto].
    exfalso. simpl in Hin.
    destruct Hin as [<-|[<-|[<-|[<-|[<-|[]]]]]]; congruence. }
  destruct Heq as (missing & Hm & Heq). exists missing. rewrite Heq. simpl.
  rewrite events_since_app. auto.
Qed.

Lemma execute_install_missing_option_witness :
  exists missing,
    (GalaxyCLI.execute_install Fixtures.ext0 Fixtures.amb0
       (GalaxyCLI.MkSelf ["geerlingguy.nginx"] ∅ None (Some "install") None
          (Some Fixtures.cfg0) None) Fixtures.w0).1
    = Raised (AttributeError missing).
Proof.
  destruct (execute_install_missing_option Fixtures.ext0 Fixtures.amb0
              (GalaxyCLI.MkSelf ["geerlingguy.nginx"] ∅ None (Some "install") None
                 (Some Fixtures.cfg0) None)
              Fixtures.w0
              (GalaxyCLI._get_galaxy_context Fixtures.amb0 ∅ Fixtures.cfg0 Fixtures.w0).2
              Fixtures.cfg0 (GalaxyContext.Build 2%positive "/c") "force")
    as (missing & _ & Hr & _);
    [reflexivity | reflexivity | simpl; auto 10 | reflexivity |].
  exists missing. exact Hr.
Defined.

(** X10: what [execute_info] hands to its handler.  With arguments, a
    context built and the [offline] option in the options record, it calls
    the info handler with that context, the API object of the instance, the
    arguments as content specs and the offline flag, and its result is the
    handler's; without the [offline] attribute it raises [AttributeError]
    after the context is built and calls no handler. *)
Theorem execute_info_forwards
    (ext : collaborators) (amb : ambient) (s : GalaxyCLI.self) (w w1 : world)
    (cfg : Config.t) (ctx : GalaxyContext.t) :
  GalaxyCLI.args s <> [] ->
  GalaxyCLI.config s = Some cfg ->
  GalaxyCLI._get_galaxy_context amb (GalaxyCLI.options s) cfg w = (Return ctx, w1) ->
  match GalaxyCLI.options s !! "offline" with
  | Some offline =>
      let call :=
        info_info_content_specs ctx (GalaxyCLI.api s) (GalaxyCLI.args s) offline in
      (GalaxyCLI.execute_info ext amb s w).1 = handler ext call (heap w1)
      /\ events_since w (GalaxyCLI.execute_info ext amb s w).2
         = [EvLog DEBUG "args=%s" []; EvGalaxyContext ctx; EvHandler call]
  | None =>
      (GalaxyCLI.execute_info ext amb s w).1 = Raised (AttributeError "offline")
      /\ events_since w (GalaxyCLI.execute_info ext amb s w).2
         = [EvLog DEBUG "args=%s" []; EvGalaxyContext ctx]
  end.
Proof.
  intros Hargs Hcfg Hgc.
  destruct (get_galaxy_context_frame amb _ cfg w w1 ctx
              [EvLog DEBUG "args=%s" []] Hgc) as [Hgc' Ht].
  assert (Heq : GalaxyCLI.execute_info ext amb s w =
                match GalaxyCLI.options s !! "offline" with
                | Some offline =>
                    GalaxyCLI.call_handler ext
                      (info_info_content_specs ctx (GalaxyCLI.api s) (GalaxyCLI.args s)
                         offline)
                      (World (heap w1)
                         (trace w ++ [EvLog DEBUG "args=%s" []; EvGalaxyContext ctx]))
                | None =>
                    (Raised (AttributeError "offline"),
                     World (heap w1)
                       (trace w ++ [EvLog DEBUG "args=%s" []; EvGalaxyContext ctx]))
                end).
  { unfold GalaxyCLI.execute_info, GalaxyCLI.get_config. rewrite Hcfg.
    destruct (GalaxyCLI.args s) as [|a l] eqn:Ha; [congruence|]. simpl.
    unfold bind at 1 2 3. simpl. rewrite Hgc'.
    unfold getattr, bind.
    destruct (GalaxyCLI.options s !! "offline") as [offline|]; reflexivity. }
  rewrite Heq.
  destruct (GalaxyCLI.options s !! "offline") as [offline|]; simpl;
    rewrite <- ?app_assoc, events_since_app; split; reflexivity.
Qed.

Lemma execute_info_forwards_witness :
  (GalaxyCLI.execute_info Fixtures.ext0 Fixtures.amb0 Fixtures.with_argument Fixtures.w0).1
  = Raised (AttributeError "offline").
Proof.
  pose proof (execute_info_forwards Fixtures.ext0 Fixtures.amb0 Fixtures.with_argument
                Fixtures.w0
                (GalaxyCLI._get_galaxy_context Fixtures.amb0 ∅ Fixtures.cfg0 Fixtures.w0).2
                Fixtures.cfg0 (GalaxyContext.Build 2%positive "/c")) as H.
  simpl in H. apply H; [discriminate | reflexivity | reflexivity].
Defined.


(** ** [get_config_path_from_env] and [run] *)

Lemma get_config_path_from_env_log (amb : ambient) (default : string) (w : world) :
  exists v,
    get_config_path_from_env amb w
    = (Return v, World (heap w) (trace w ++ config_path_log amb))
    /\ py_or v (PStr default) = PStr (spec_config_file_path amb default)
    /\ v = match env_nonempty amb "MAZER_CONFIG" with
           | Some p => PStr p
           | None => match env_nonempty amb "ANSIBLE_GALAXY_CONFIG" with
                     | Some p => PStr p
                     | None => PNone
                     end
           end.
Proof.
  unfold get_config_path_from_env, spec_config_file_path, config_path_log, env_nonempty.
  simpl. unfold environ_get, PyString.is_empty.
  destruct (environ amb !! "MAZER_CONFIG") as [p|]; simpl.
  - destruct (String.eqb p "") eqn:Hp; simpl.
    + destruct (environ amb !! "ANSIBLE_GALAXY_CONFIG") as [q|]; simpl.
      * destruct (String.eqb q "") eqn:Hq; simpl.
        -- exists PNone. rewrite app_nil_r. destruct w; auto.
        -- exists (PStr q). unfold py_or. simpl. rewrite Hq. auto.
      * exists PNone. rewrite app_nil_r. destruct w; auto.
    + exists (PStr p). unfold py_or. simpl. rewrite Hp. auto.
  - destruct (environ amb !! "ANSIBLE_GALAXY_CONFIG") as [q|]; simpl.
    + destruct (String.eqb q "") eqn:Hq; simpl.
      * exists PNone. rewrite app_nil_r. destruct w; auto.
      * exists (PStr q). unfold py_or. simpl. rewrite Hq. auto.
    + exists PNone. rewrite app_nil_r. destruct w; auto.
Qed.

(** [run] in closed form, stage by stage. *)
Lemma run_eq (ext : collaborators) (amb : ambient) (s : GalaxyCLI.self) (w : world) :
  GalaxyCLI.run ext amb s w =
  let path := resolved_config_file_path ext amb in
  let before := trace w ++ config_path_log amb ++ [EvBaseRun] in
  match base_run ext with
  | Raised e => (Raised e, World (heap w) before)
  | Return _ =>
      match config_load ext path with
      | Raised e => (Raised e, World (heap w) (before ++ [EvConfigLoad path]))
      | Return doc =>
          let cfg := Config.Build (fresh (dom (heap w))) (doc_content_path doc)
                       (doc_global_content_path doc) in
          match GalaxyCLI._get_galaxy_context amb (GalaxyCLI.options s) cfg
                  (World (<[fresh (dom (heap w)) := doc_server doc]> (heap w))
                     (before ++ [EvConfigLoad path; EvLog DEBUG "configuration: %s" []]))
          with
          | (Raised e, w2) => (Raised e, w2)
          | (Return ctx, w2) =>
              match GalaxyCLI.execute ext amb (run_instance ext amb s cfg ctx)
                      (World (heap w2) (trace w2 ++ run_before_dispatch ctx))
              with
              | (Raised e, w4) => (Raised e, w4)
              | (Return rc, w4) => (Return (run_instance ext amb s cfg ctx, rc), w4)
              end
          end
      end
  end.
Proof.
  unfold GalaxyCLI.run.
  destruct (get_config_path_from_env_log amb (CONFIG_FILE ext) w) as (v & Henv & Hor & _).
  erewrite bind_return by exact Henv. rewrite Hor.
  erewrite bind_return by reflexivity.
  fold (resolved_config_file_path ext amb).
  erewrite bind_return by reflexivity. cbv zeta.
  unfold lift_outcome at 1. unfold bind at 1. simpl.
  rewrite <- app_assoc.
  destruct (base_run ext) as [u|e]; [|reflexivity].
  unfold GalaxyCLI.config_load_call, lift_outcome, alloc, emit.
  unfold bind at 1 2 3 4. simpl.
  destruct (config_load ext (resolved_config_file_path ext amb)) as [doc|e]; [|reflexivity].
  simpl. unfold bind at 1 2. simpl. rewrite <- !app_assoc. simpl.
  destruct (GalaxyCLI._get_galaxy_context amb (GalaxyCLI.options s) _ _) as [[ctx|e] w2];
    [|reflexivity].
  unfold bind at 1 2 3 4 5 6. simpl. rewrite <- !app_assoc. simpl.
  unfold run_instance, run_before_dispatch, bind, ret.
  destruct (GalaxyCLI.execute ext amb _ _) as [[rc|e] w4]; reflexivity.
Qed.

Lemma env_nonempty_inv (amb : ambient) (name p : string) :
  env_nonempty amb name = Some p -> environ amb !! name = Some p /\ p <> "".
Proof.
  unfold env_nonempty, PyString.is_empty.
  destruct (environ amb !! name) as [q|]; [|discriminate].
  destruct (String.eqb_spec q ""); [discriminate|].
  intros Heq. injection Heq as <-. auto.
Qed.

(** X11: [get_config_path_from_env] never raises and never touches the
    heap.  It returns [None], writing no log line, exactly when neither
    variable is set to a non-empty value; otherwise it returns a non-empty
    string, the value of one of the two variables, and writes one line to
    the log that names that value and that variable. *)
Theorem get_config_path_from_env_result (amb : ambient) (w : world) :
  match get_config_path_from_env amb w with
  | (Return PNone, w') =>
      w' = w
      /\ env_nonempty amb "MAZER_CONFIG" = None
      /\ env_nonempty amb "ANSIBLE_GALAXY_CONFIG" = None
  | (Return (PStr p), w') =>
      p <> ""
      /\ heap w' = heap w
      /\ exists env_var,
          In env_var ["MAZER_CONFIG"; "ANSIBLE_GALAXY_CONFIG"]
          /\ environ amb !! env_var = Some p
          /\ trace w' = trace w ++
               [EvLog INFO "Using config file '%s' as specified by env var '%s'"
                  [p; env_var]]
  | _ => False
  end.
Proof.
  destruct (get_config_path_from_env_log amb "" w) as (v & -> & _ & ->).
  unfold config_path_log.
  destruct (env_nonempty amb "MAZER_CONFIG") as [p|] eqn:H1.
  - destruct (env_nonempty_inv _ _ _ H1) as [He Hne]. simpl.
    split; [exact Hne|]. split; [reflexivity|].
    exists "MAZER_CONFIG". simpl. auto.
  - destruct (env_nonempty amb "ANSIBLE_GALAXY_CONFIG") as [p|] eqn:H2.
    + destruct (env_nonempty_inv _ _ _ H2) as [He Hne]. simpl.
      split; [exact Hne|]. split; [reflexivity|].
      exists "ANSIBLE_GALAXY_CONFIG". simpl. auto.
    + rewrite app_nil_r. destruct w; auto.
Qed.

(** X12: [run] stops at the first failure of a collaborator.  When the
    base class's [run] raises, [run] raises the same exception and the
    configuration loader is not called; when the loader raises, [run]
    raises the same exception; in both cases the heap is untouched and no
    context, no API object and no handler call has been made. *)
Theorem run_stops_at_first_failure
    (ext : collaborators) (amb : ambient) (s : GalaxyCLI.self) (w : world) (e : exn) :
  (base_run ext = Raised e ->
   GalaxyCLI.run ext amb s w
   = (Raised e, World (heap w) (trace w ++ config_path_log amb ++ [EvBaseRun])))
  /\ ((exists u, base_run ext = Return u) ->
      config_load ext (resolved_config_file_path ext amb) = Raised e ->
      GalaxyCLI.run ext amb s w
      = (Raised e,
         World (heap w)
           (trace w ++ config_path_log amb ++
            [EvBaseRun; EvConfigLoad (resolved_config_file_path ext amb)]))).
Proof.
  rewrite run_eq. cbv zeta. split.
  - intros ->. reflexivity.
  - intros [u ->] ->. rewrite <- !app_assoc. reflexivity.
Qed.

Lemma run_stops_at_first_failure_witness :
  GalaxyCLI.run MoreFixtures.ext_no_config Fixtures.amb0 Fixtures.with_argument Fixtures.w0
  = (Raised (Foreign PlainException "cannot read mazer.yml"),
     World (heap Fixtures.w0) [EvBaseRun; EvConfigLoad "/home/u/.ansible/mazer.yml"]).
Proof.
  apply (run_stops_at_first_failure MoreFixtures.ext_no_config Fixtures.amb0
           Fixtures.with_argument Fixtures.w0);
    [exists tt; reflexivity | reflexivity].
Defined.

(** X13: the context is built before the dispatch, for every action, the
    version action included: when the loaded configuration and the options
    give no string as content path, [run] raises the builder's error right
    after loading the configuration, and neither an API object nor a
    handler call has been made. *)
Theorem run_needs_content_path
    (ext : collaborators) (amb : ambient) (s : GalaxyCLI.self) (w : world)
    (doc : config_document) :
  (exists u, base_run ext = Return u) ->
  config_load ext (resolved_config_file_path ext amb) = Return doc ->
  truthy (getattr_default (GalaxyCLI.options s) "content_path" PNone) = false ->
  truthy (getattr_default (GalaxyCLI.options s) "global_install" PNone) = false ->
  doc_content_path doc = PNone ->
  (GalaxyCLI.run ext amb s w).1 = Raised TypeError
  /\ events_since w (GalaxyCLI.run ext amb s w).2
     = config_path_log amb ++
       [EvBaseRun; EvConfigLoad (resolved_config_file_path ext amb);
        EvLog DEBUG "configuration: %s" []].
Proof.
  intros [u Hu] Hload Hc Hg Hnone. rewrite run_eq. cbv zeta. rewrite Hu, Hload.
  rewrite get_galaxy_context_eq. unfold resolved_content_path.
  rewrite Hc, Hg. simpl. rewrite Hnone. simpl.
  rewrite <- !app_assoc, events_since_app. split; reflexivity.
Qed.

Lemma run_needs_content_path_witness :
  (GalaxyCLI.run MoreFixtures.ext_no_content_path Fixtures.amb0 MoreFixtures.version_only
     Fixtures.w0).1 = Raised TypeError.
Proof.
  apply (run_needs_content_path MoreFixtures.ext_no_content_path Fixtures.amb0
           MoreFixtures.version_only Fixtures.w0
           (MkDoc Fixtures.server0 PNone (PStr "/usr/share/ansible/content")));
    [exists tt; reflexivity | reflexivity ..].
Defined.

(** ** The heap during a run *)

Section HeapGrows.

Lemma heap_grows_ret {A} (a : A) : heap_grows (ret a).
Proof. intros w l d H. exact H. Qed.

Lemma heap_grows_raise {A} (e : exn) : heap_grows (@raise A e).
Proof. intros w l d H. exact H. Qed.

Lemma heap_grows_emit (ev : event) : heap_grows (emit ev).
Proof. intros w l d H. exact H. Qed.

Lemma heap_grows_lift_outcome {A} (o : outcome A) : heap_grows (lift_outcome o).
Proof. intros w l d H. exact H. Qed.

Lemma heap_grows_getattr (o : Options) (name : string) : heap_grows (getattr o name).
Proof.
  unfold getattr. destruct (o !! name); [apply heap_grows_ret | apply heap_grows_raise].
Qed.

Lemma heap_grows_join (v : pyval) (b : string) : heap_grows (os_path_join v b).
Proof. destruct v; simpl; first [apply heap_grows_ret | apply heap_grows_raise]. Qed.

Lemma heap_grows_get_config (s : GalaxyCLI.self) : heap_grows (GalaxyCLI.get_config s).
Proof.
  unfold GalaxyCLI.get_config.
  destruct (GalaxyCLI.config s); [apply heap_grows_ret | apply heap_grows_raise].
Qed.

Lemma heap_grows_handler_result (ext : collaborators) (c : handler_call) :
  heap_grows (GalaxyCLI.handler_result ext c).
Proof. intros w l d H. exact H. Qed.

Lemma heap_grows_bind {A B} (m : M A) (k : A -> M B) :
  heap_grows m -> (forall a, heap_grows (k a)) -> heap_grows (bind m k).
Proof.
  intros Hm Hk w l d H. specialize (Hm w l d H). unfold bind.
  destruct (m w) as [[a|e] w1]; simpl in *; [apply Hk, Hm | exact Hm].
Qed.

Lemma heap_grows_try_except {A} (m : M A) (h : exn -> M A) :
  heap_grows m -> (forall e, heap_grows (h e)) -> heap_grows (try_except_Exception m h).
Proof.
  intros Hm Hh w l d H. specialize (Hm w l d H). unfold try_except_Exception.
  destruct (m w) as [[a|e] w1]; simpl in *; [exact Hm|].
  destruct (isinstance_Exception e); [apply Hh, Hm | exact Hm].
Qed.

Lemma heap_grows_get_galaxy_context (amb : ambient) (options : Options)
    (config : Config.t) :
  heap_grows (GalaxyCLI._get_galaxy_context amb options config).
Proof.
  intros w l d H. rewrite get_galaxy_context_eq.
  destruct (resolved_content_path options config); try exact H.
  destruct (heap w !! Config.server config); [|exact H].
  simpl. rewrite lookup_insert_ne; [exact H|].
  intros Heq. assert (Hin : l ∈ dom (heap w)) by (apply elem_of_dom; eauto).
  rewrite <- Heq in Hin. exact (is_fresh _ Hin).
Qed.

End HeapGrows.

Create HintDb heap discriminated.
#[local] Hint Resolve heap_grows_ret heap_grows_raise heap_grows_emit
  heap_grows_lift_outcome heap_grows_getattr heap_grows_join heap_grows_get_config
  heap_grows_handler_result heap_grows_get_galaxy_context : heap.

(** Walks through a computation to show that it only allocates. *)
Ltac heap_grows_tac :=
  repeat first
    [ solve [auto with heap]
    | apply heap_grows_bind; [| intros ?]
    | apply heap_grows_try_except; [| intros ?]
    | match goal with
      | |- heap_grows (if ?b then _ else _) => destruct b
      | |- heap_grows (match ?x with _ => _ end) => destruct x
      end ].

Lemma heap_grows_execute (ext : collaborators) (amb : ambient) (s : GalaxyCLI.self) :
  heap_grows (GalaxyCLI.execute ext amb s).
Proof.
  unfold GalaxyCLI.execute, GalaxyCLI.execute_build, GalaxyCLI.execute_info,
    GalaxyCLI.execute_install, GalaxyCLI.execute_list, GalaxyCLI.execute_remove,
    GalaxyCLI.execute_version, GalaxyCLI.call_handler.
  heap_grows_tac.
Qed.

(** X14: [run] never changes the configuration it loaded.  Once the
    loader has returned a document, the server block of the configuration
    object holds the items of that document when [run] ends, however it
    ends and whatever the action: the builder is run twice and each time
    works on a copy. *)
Theorem run_keeps_configuration
    (ext : collaborators) (amb : ambient) (s : GalaxyCLI.self) (w : world)
    (doc : config_document) :
  (exists u, base_run ext = Return u) ->
  config_load ext (resolved_config_file_path ext amb) = Return doc ->
  exists l,
    heap w !! l = None
    /\ heap (GalaxyCLI.run ext amb s w).2 !! l = Some (doc_server doc)
    /\ (forall s' rc, (GalaxyCLI.run ext amb s w).1 = Return (s', rc) ->
          GalaxyCLI.config s'
          = Some (Config.Build l (doc_content_path doc) (doc_global_content_path doc)))
    /\ forall l' d, heap w !! l' = Some d ->
          heap (GalaxyCLI.run ext amb s w).2 !! l' = Some d.
Proof.
  intros [u Hu] Hload. exists (fresh (dom (heap w))).
  assert (Hfresh : heap w !! fresh (dom (heap w)) = None).
  { apply not_elem_of_dom, is_fresh. }
  split; [exact Hfresh|].
  rewrite run_eq. cbv zeta. rewrite Hu, Hload.
  set (l := fresh (dom (heap w))) in *.
  set (cfg := Config.Build l (doc_content_path doc) (doc_global_content_path doc)).
  match goal with
  | |- context [GalaxyCLI._get_galaxy_context amb ?o cfg ?w1] =>
      pose proof (heap_grows_get_galaxy_context amb o cfg w1) as Hgc;
      destruct (GalaxyCLI._get_galaxy_context amb o cfg w1) as [[ctx|e] w2]
  end; simpl in Hgc.
  - match goal with
    | |- context [GalaxyCLI.execute ext amb ?s' ?w3] =>
        pose proof (heap_grows_execute ext amb s' w3) as Hex;
        destruct (GalaxyCLI.execute ext amb s' w3) as [[rc|e] w4]
    end; simpl in *.
    + split; [apply Hex, Hgc, lookup_insert_eq|]. split.
      * intros s' rc' Heq. injection Heq as <- <-. reflexivity.
      * intros l' d Hl. apply Hex, Hgc. rewrite lookup_insert_ne; [exact Hl|].
        intros <-. congruence.
    + split; [apply Hex, Hgc, lookup_insert_eq|]. split; [discriminate|].
      intros l' d Hl. apply Hex, Hgc. rewrite lookup_insert_ne; [exact Hl|].
      intros <-. congruence.
  - simpl. split; [apply Hgc, lookup_insert_eq|]. split; [discriminate|].
    intros l' d Hl. apply Hgc. rewrite lookup_insert_ne; [exact Hl|].
    intros <-. congruence.
Qed.

Lemma run_keeps_configuration_witness :
  exists l,
    heap Fixtures.w0 !! l = None
    /\ heap (GalaxyCLI.run Fixtures.ext_failing Fixtures.amb0 Fixtures.install_one
               Fixtures.w0).2 !! l = Some Fixtures.server0.
Proof.
  destruct (run_keeps_configuration Fixtures.ext_failing Fixtures.amb0 Fixtures.install_one
              Fixtures.w0 Fixtures.doc0) as (l & Hnew & Hkept & _);
    [exists tt; reflexivity | reflexivity | exists l; auto].
Defined.

(** ** The context that reaches the handlers *)

Lemma heap_same_emit (ev : event) : heap_same (emit ev).
Proof. intros w. reflexivity. Qed.

Section BuildsThenCalls.
Context (amb : ambient) (options : Options) (config : Config.t).

Lemma builds_then_calls_raise (e : exn) :
  builds_then_calls amb options config (raise e).
Proof.
  intros w. exists []. simpl. rewrite app_nil_r. split; [reflexivity|].
  intros c ctx [].
Qed.

Lemma builds_then_calls_bind_ret {A} (a : A) (k : A -> M pyval) :
  builds_then_calls amb options config (k a) ->
  builds_then_calls amb options config (bind (ret a) k).
Proof. intros H w. exact (H w). Qed.

Lemma builds_then_calls_prefix {A} (p : M A) (k : A -> M pyval) :
  heap_same p -> emits_only not_handler p ->
  (forall a, builds_then_calls amb options config (k a)) ->
  builds_then_calls amb options config (bind p k).
Proof.
  intros Hh Hp Hk w. specialize (Hh w). destruct (Hp w) as (evs1 & Ht1 & Hn1).
  unfold bind. destruct (p w) as [[a|e] w1]; simpl in *.
  - destruct (Hk a w1) as (evs2 & Ht2 & Hc).
    exists (evs1 ++ evs2). rewrite Ht2, Ht1, app_assoc. split; [reflexivity|].
    intros c ctx Hin Hctx. apply in_app_or in Hin. destruct Hin as [Hin|Hin].
    + destruct (in_not_handler _ _ Hn1 Hin).
    + destruct (Hc c ctx Hin Hctx) as (w0 & w1' & Hw0 & Hgc & Hkeep).
      exists w0, w1'. rewrite Hw0, Hh. auto.
  - exists evs1. split; [exact Ht1|].
    intros c ctx Hin. destruct (in_not_handler _ _ Hn1 Hin).
Qed.

Lemma builds_then_calls_build (k : GalaxyContext.t -> M pyval) :
  (forall ctx, calls_with ctx (k ctx)) ->
  builds_then_calls amb options config
    (bind (GalaxyCLI._get_galaxy_context amb options config) k).
Proof.
  intros Hk w. pose proof (get_galaxy_context_effect amb options config w) as Hfp.
  unfold bind.
  destruct (GalaxyCLI._get_galaxy_context amb options config w) as [[ctx|e] w1] eqn:Hgc.
  - destruct Hfp as (_ & _ & Ht1).
    destruct (Hk ctx) as [Hgrow Hem]. destruct (Hem w1) as (evs2 & Ht2 & Hc).
    exists ([EvGalaxyContext ctx] ++ evs2). rewrite Ht2, Ht1, app_assoc.
    split; [reflexivity|].
    intros c x Hin Hx. destruct Hin as [Hin|Hin]; [discriminate Hin|].
    rewrite Forall_forall in Hc. apply list_elem_of_In in Hin.
    rewrite (Hc _ Hin c x eq_refl Hx).
    exists w, w1. split; [reflexivity|]. split; [exact Hgc|].
    intros l d Hl. apply Hgrow, Hl.
  - destruct Hfp as [-> _]. exists []. simpl. rewrite app_nil_r.
    split; [reflexivity|]. intros c ctx [].
Qed.

Lemma builds_then_calls_no_context (m : M pyval) :
  emits_only (fun ev => forall c, ev = EvHandler c -> handler_context c = None) m ->
  builds_then_calls amb options config m.
Proof.
  intros Hm w. destruct (Hm w) as (evs & Ht & Hc). exists evs. split; [exact Ht|].
  intros c ctx Hin Hctx. rewrite Forall_forall in Hc. apply list_elem_of_In in Hin.
  rewrite (Hc _ Hin c eq_refl) in Hctx. discriminate Hctx.
Qed.

End BuildsThenCalls.

(** Walks through a method: quiet steps, then the context, then the call. *)
Ltac builds_then_calls_tac :=
  repeat first
    [ apply builds_then_calls_raise
    | apply builds_then_calls_bind_ret
    | apply builds_then_calls_build;
      intros ?; split;
      [ heap_grows_tac
      | emits_with ltac:(let c := fresh in let x := fresh in
                         let H1 := fresh in let H2 := fresh in
                         intros c x H1 H2; try discriminate H1;
                         injection H1 as <-; simpl in H2; injection H2; auto) ]
    | apply builds_then_calls_prefix;
      [ apply heap_same_emit | apply emits_only_emit; exact I | intros ? ]
    | match goal with
      | |- builds_then_calls _ _ _ (if ?b then _ else _) => destruct b
      end ].

Lemma execute_builds_then_calls (ext : collaborators) (amb : ambient)
    (s : GalaxyCLI.self) (cfg : Config.t) :
  GalaxyCLI.config s = Some cfg ->
  builds_then_calls amb (GalaxyCLI.options s) cfg (GalaxyCLI.execute ext amb s).
Proof.
  intros Hcfg.
  unfold GalaxyCLI.execute, GalaxyCLI.execute_build, GalaxyCLI.execute_info,
    GalaxyCLI.execute_install, GalaxyCLI.execute_list, GalaxyCLI.execute_remove,
    GalaxyCLI.get_config, GalaxyCLI.call_handler.
  rewrite Hcfg.
  builds_then_calls_tac.
  apply builds_then_calls_no_context.
  unfold GalaxyCLI.execute_version, GalaxyCLI.call_handler.
  emits_with ltac:(let c := fresh in let H := fresh in
                   intros c H; try discriminate H; injection H as <-; reflexivity).
Qed.

(** X15: the context of the handler and the context of the API object.
    [run] builds one context for the API object and the method of the
    action builds another for its handler; the two are distinct objects
    with distinct server dictionaries, and they agree: whenever a handler
    is called with a context in a run, an API object was constructed
    before from a context with the same content path, and when [run] ends
    the two server dictionaries hold the same items. *)
Theorem run_handler_context_agrees_with_api
    (ext : collaborators) (amb : ambient) (s : GalaxyCLI.self) (w : world)
    (c : handler_call) (ctx : GalaxyContext.t) :
  In (EvHandler c) (events_since w (GalaxyCLI.run ext amb s w).2) ->
  handler_context c = Some ctx ->
  exists api_ctx before after,
    events_since w (GalaxyCLI.run ext amb s w).2
    = before ++ EvGalaxyAPI api_ctx :: after
    /\ Forall not_handler before
    /\ GalaxyContext.content_path ctx = GalaxyContext.content_path api_ctx
    /\ GalaxyContext.server ctx <> GalaxyContext.server api_ctx
    /\ is_Some (heap (GalaxyCLI.run ext amb s w).2 !! GalaxyContext.server ctx)
    /\ heap (GalaxyCLI.run ext amb s w).2 !! GalaxyContext.server ctx
       = heap (GalaxyCLI.run ext amb s w).2 !! GalaxyContext.server api_ctx.
Proof.
  rewrite run_eq. cbv zeta.
  assert (Hlog : Forall not_handler (config_path_log amb)).
  { unfold config_path_log.
    destruct (env_nonempty amb "MAZER_CONFIG");
      [|destruct (env_nonempty amb "ANSIBLE_GALAXY_CONFIG")]; repeat constructor. }
  destruct (base_run ext) as [u|e].
  2:{ simpl. rewrite events_since_app. intros Hin. exfalso.
      apply in_app_or in Hin. destruct Hin as [Hin|[Hin|[]]];
        [exact (in_not_handler _ _ Hlog Hin) | discriminate Hin]. }
  destruct (config_load ext (resolved_config_file_path ext amb)) as [doc|e].
  2:{ simpl. rewrite <- !app_assoc, events_since_app. intros Hin. exfalso.
      apply in_app_or in Hin. simpl in Hin. destruct Hin as [Hin|[Hin|[Hin|[]]]];
        [exact (in_not_handler _ _ Hlog Hin) | discriminate Hin | discriminate Hin]. }
  set (l := fresh (dom (heap w))).
  set (cfg := Config.Build l (doc_content_path doc) (doc_global_content_path doc)).
  set (pre := config_path_log amb ++
              [EvBaseRun; EvConfigLoad (resolved_config_file_path ext amb);
               EvLog DEBUG "configuration: %s" []]).
  assert (Hpre : Forall not_handler pre).
  { apply Forall_app. split; [exact Hlog | repeat constructor]. }
  replace ((trace w ++ config_path_log amb ++ [EvBaseRun]) ++
           [EvConfigLoad (resolved_config_file_path ext amb);
            EvLog DEBUG "configuration: %s" []])
    with (trace w ++ pre) by (unfold pre; rewrite <- !app_assoc; reflexivity).
  rewrite get_galaxy_context_eq. simpl heap. simpl trace.
  destruct (resolved_content_path (GalaxyCLI.options s) cfg) as [| | |r] eqn:Hraw;
    try (simpl; rewrite events_since_app; intros Hin; exfalso;
         exact (in_not_handler _ _ Hpre Hin)).
  unfold cfg at 1. simpl Config.server. rewrite lookup_insert_eq. cbv zeta.
  set (h1 := <[l := doc_server doc]> (heap w)).
  set (l1 := fresh (dom h1)).
  set (api_ctx := GalaxyContext.Build l1 (PosixPath.expanduser amb r)).
  set (h2 := <[l1 := server_overrides (GalaxyCLI.options s) (doc_server doc)]> h1).
  match goal with
  | |- context [GalaxyCLI.execute ext amb ?s' ?w3] =>
      destruct (execute_builds_then_calls ext amb s' cfg eq_refl w3)
        as (evs & Ht & Hcalls);
      destruct (GalaxyCLI.execute ext amb s' w3) as [o w4]
  end.
  simpl in Ht, Hcalls.
  intros Hin Hctx.
  assert (Hw4 : events_since w w4
                = (pre ++ [EvGalaxyContext api_ctx; EvLog DEBUG "galaxy context: %s" []])
                  ++ EvGalaxyAPI api_ctx
                     :: ([EvLog DEBUG "execute action: %s" [];
                          EvLog DEBUG "execute action with options: %s" [];
                          EvLog DEBUG "execute action with args: %s" []] ++ evs)).
  { apply events_since_trace. rewrite Ht. unfold run_before_dispatch.
    rewrite <- !app_assoc. reflexivity. }
  destruct o as [rc|e]; simpl in Hin |- *; rewrite Hw4 in Hin |- *.
  all: eexists api_ctx, _, _; (split; [reflexivity|]).
  all: (split; [apply Forall_app; split; [exact Hpre | repeat constructor]|]).
  all: assert (Hinevs : In (EvHandler c) evs)
         by (apply in_app_or in Hin;
             destruct Hin as [Hin|[Hin|[Hin|[Hin|[Hin|Hin]]]]];
             [ apply in_app_or in Hin; destruct Hin as [Hin|[Hin|[Hin|[]]]];
               [destruct (in_not_handler _ _ Hpre Hin) | discriminate Hin | discriminate Hin]
             | discriminate Hin | discriminate Hin | discriminate Hin | discriminate Hin
             | exact Hin ]).
  all: destruct (Hcalls c ctx Hinevs Hctx) as (w0 & w1 & Hw0 & Hgc & Hkeep).
  all: rewrite get_galaxy_context_eq, Hraw, Hw0 in Hgc; fold h2 in Hgc.
  all: assert (Hl : h2 !! Config.server cfg = Some (doc_server doc))
         by (unfold h2; rewrite lookup_insert_ne;
             [apply lookup_insert_eq
             | intros Heq; assert (Hd : l ∈ dom h1) by (apply elem_of_dom; unfold h1;
                 rewrite lookup_insert_eq; eauto);
               change (Config.server cfg) with l in Heq; rewrite <- Heq in Hd;
               exact (is_fresh _ Hd)]).
  all: rewrite Hl in Hgc; simpl in Hgc; injection Hgc as <- <-; simpl.
  all: assert (Hne : fresh (dom h2) <> l1)
         by (intros Heq; assert (Hd : l1 ∈ dom h2) by (apply elem_of_dom; unfold h2;
               rewrite lookup_insert_eq; eauto);
             rewrite <- Heq in Hd; exact (is_fresh _ Hd)).
  all: (split; [reflexivity|]); (split; [exact Hne|]).
  all: rewrite (Hkeep (fresh (dom h2)) _ (lookup_insert_eq _ _ _)).
  all: (split; [eauto|]); symmetry; apply Hkeep; simpl.
  all: rewrite lookup_insert_ne by exact Hne; unfold h2; apply lookup_insert_eq.
Qed.

Lemma run_handler_context_agrees_with_api_witness :
  exists api_ctx before after,
    events_since Fixtures.w0
      (GalaxyCLI.run Fixtures.ext0 Fixtures.amb0 Fixtures.with_argument Fixtures.w0).2
    = before ++ EvGalaxyAPI api_ctx :: after
    /\ Forall not_handler before
    /\ "/home/u/.ansible/content" = GalaxyContext.content_path api_ctx
    /\ 4%positive <> GalaxyContext.server api_ctx.
Proof.
  destruct (run_handler_context_agrees_with_api Fixtures.ext0 Fixtures.amb0
              Fixtures.with_argument Fixtures.w0
              (list_action_list (GalaxyContext.Build 4%positive "/home/u/.ansible/content")
                 (matchers.MatchNamespacesOrLabels ["geerlingguy"]))
              (GalaxyContext.Build 4%positive "/home/u/.ansible/content"))
    as (api_ctx & before & after & Hev & Hq & Hp & Hs & _).
  - vm_compute. repeat (try (left; reflexivity); right).
  - reflexivity.
  - exists api_ctx, before, after. auto.
Defined.

(** ** What [run] returns *)

(** A dispatch that returns has called a handler, and returns its value. *)
Lemma execute_returns (ext : collaborators) (amb : ambient) (s : GalaxyCLI.self)
    (w : world) (rc : pyval) :
  (GalaxyCLI.execute ext amb s w).1 = Return rc ->
  exists c evs,
    trace (GalaxyCLI.execute ext amb s w).2 = trace w ++ evs
    /\ In (EvHandler c) evs
    /\ handler ext c (heap (GalaxyCLI.execute ext amb s w).2) = Return rc.
Proof.
  assert (Hmethod : forall a,
            (execute_method ext amb a s w).1 = Return rc ->
            exists c evs,
              trace (execute_method ext amb a s w).2 = trace w ++ evs
              /\ In (EvHandler c) evs
              /\ handler ext c (heap (execute_method ext amb a s w).2) = Return rc).
  { intros a.
    destruct (method_ends_with ext amb a s w)
      as [(e' & w' & evs & Heq & Ht & Hn)|(c' & w1 & evs & Ht & Hq & Heq)];
      rewrite Heq; [discriminate|].
    assert (Hcall : (final_step ext a c' w1).1 = Return rc ->
                    trace (final_step ext a c' w1).2 = trace w1 ++ [EvHandler c']
                    /\ handler ext c' (heap (final_step ext a c' w1).2) = Return rc).
    { destruct a; unfold final_step, logged_call, try_except_Exception;
        rewrite call_handler_eq;
        destruct (handler ext c' (heap w1)) as [v|e] eqn:Hh; simpl;
        try destruct (isinstance_Exception e); simpl; try discriminate;
        intros Hv; rewrite Hh; auto. }
    intros Hr. destruct (Hcall Hr) as [Ht' Hh].
    exists c', (evs ++ [EvHandler c']). rewrite Ht', Ht, app_assoc.
    split; [reflexivity|]. split; [apply in_or_app; right; left; reflexivity | exact Hh]. }
  unfold GalaxyCLI.execute.
  destruct (GalaxyCLI.action_is s "build"); [exact (Hmethod ActBuild)|].
  destruct (GalaxyCLI.action_is s "info"); [exact (Hmethod ActInfo)|].
  destruct (GalaxyCLI.action_is s "install"); [exact (Hmethod ActInstall)|].
  destruct (GalaxyCLI.action_is s "list"); [exact (Hmethod ActList)|].
  destruct (GalaxyCLI.action_is s "remove"); [exact (Hmethod ActRemove)|].
  destruct (GalaxyCLI.action_is s "version"); [exact (Hmethod ActVersion)|].
  discriminate.
Qed.

(** X16: what [run] returns.  When [run] returns, its return code is the
    value that an action handler returned, so [run] never returns without
    having called a handler; and the instance it leaves has the arguments,
    options, parser and action it started with, the resolved configuration
    file path, a configuration and an API object. *)
Theorem run_returns_handler_value
    (ext : collaborators) (amb : ambient) (s s' : GalaxyCLI.self) (w : world) (rc : pyval) :
  (GalaxyCLI.run ext amb s w).1 = Return (s', rc) ->
  (exists c,
      In (EvHandler c) (events_since w (GalaxyCLI.run ext amb s w).2)
      /\ handler ext c (heap (GalaxyCLI.run ext amb s w).2) = Return rc)
  /\ GalaxyCLI.args s' = GalaxyCLI.args s
  /\ GalaxyCLI.options s' = GalaxyCLI.options s
  /\ GalaxyCLI.parser s' = GalaxyCLI.parser s
  /\ GalaxyCLI.action s' = GalaxyCLI.action s
  /\ GalaxyCLI.config_file_path s' = Some (resolved_config_file_path ext amb)
  /\ is_Some (GalaxyCLI.config s')
  /\ is_Some (GalaxyCLI.api s').
Proof.
  rewrite run_eq. cbv zeta.
  destruct (base_run ext) as [u|e]; [|discriminate].
  destruct (config_load ext (resolved_config_file_path ext amb)) as [doc|e]; [|discriminate].
  match goal with
  | |- context [GalaxyCLI._get_galaxy_context amb ?o ?cfg ?w1] =>
      destruct (emits_only_get_galaxy_context (fun _ => True) amb o cfg (fun _ => I) w1)
        as (evs1 & Ht1 & _);
      destruct (GalaxyCLI._get_galaxy_context amb o cfg w1) as [[ctx|e] w2]
  end; [|discriminate].
  simpl in Ht1.
  match goal with
  | |- context [GalaxyCLI.execute ext amb ?s1 ?w3] =>
      pose proof (execute_returns ext amb s1 w3) as Hex;
      destruct (GalaxyCLI.execute ext amb s1 w3) as [[rc'|e] w4]
  end; [|discriminate].
  simpl in Hex |- *. intros Heq. injection Heq as <- <-.
  destruct (Hex rc' eq_refl) as (c & evs & Ht & Hin & Hh).
  split.
  - exists c. split; [|exact Hh].
    erewrite events_since_trace; cycle 1.
    { rewrite Ht, Ht1. rewrite <- !app_assoc. reflexivity. }
    repeat (apply in_or_app; right). exact Hin.
  - simpl. repeat split; eauto.
Qed.

Lemma run_returns_handler_value_witness :
  exists c,
    In (EvHandler c)
      (events_since Fixtures.w0
         (GalaxyCLI.run Fixtures.ext0 Fixtures.amb0 Fixtures.with_argument Fixtures.w0).2)
    /\ handler Fixtures.ext0 c
         (heap (GalaxyCLI.run Fixtures.ext0 Fixtures.amb0 Fixtures.with_argument
                  Fixtures.w0).2) = Return (PInt 0).
Proof.
  destruct (GalaxyCLI.run Fixtures.ext0 Fixtures.amb0 Fixtures.with_argument Fixtures.w0)
    as [[[s' rc]|e] w'] eqn:Hrun; [|vm_compute in Hrun; discriminate Hrun].
  assert (Hrc : rc = PInt 0).
  { vm_compute in Hrun. injection Hrun as _ <- _. reflexivity. }
  subst rc.
  pose proof (run_returns_handler_value Fixtures.ext0 Fixtures.amb0 Fixtures.with_argument
                s' Fixtures.w0 (PInt 0)) as H.
  rewrite Hrun in H. apply H. reflexivity.
Defined.

(** X17: the version action reports the path that was loaded.  In a run
    of the version action every handler call is a call of the version
    handler with the resolved configuration file path, the one handed to
    the configuration loader, and the version of the program. *)
Theorem run_version_reports_config_path
    (ext : collaborators) (amb : ambient) (s : GalaxyCLI.self) (w : world)
    (c : handler_call) :
  GalaxyCLI.action s = Some "version" ->
  In (EvHandler c) (events_since w (GalaxyCLI.run ext amb s w).2) ->
  c = version_version (resolved_config_file_path ext amb) (galaxy_cli_version ext)
  /\ In (EvConfigLoad (resolved_config_file_path ext amb))
       (events_since w (GalaxyCLI.run ext amb s w).2).
Proof.
  intros Hact. rewrite run_eq. cbv zeta.
  assert (Hlog : Forall not_handler (config_path_log amb)).
  { unfold config_path_log.
    destruct (env_nonempty amb "MAZER_CONFIG");
      [|destruct (env_nonempty amb "ANSIBLE_GALAXY_CONFIG")]; repeat constructor. }
  destruct (base_run ext) as [u|e].
  2:{ simpl. rewrite events_since_app. intros Hin. exfalso.
      apply in_app_or in Hin. destruct Hin as [Hin|[Hin|[]]];
        [exact (in_not_handler _ _ Hlog Hin) | discriminate Hin]. }
  destruct (config_load ext (resolved_config_file_path ext amb)) as [doc|e].
  2:{ simpl. rewrite <- !app_assoc, events_since_app. intros Hin. exfalso.
      apply in_app_or in Hin. simpl in Hin. destruct Hin as [Hin|[Hin|[Hin|[]]]];
        [exact (in_not_handler _ _ Hlog Hin) | discriminate Hin | discriminate Hin]. }
  match goal with
  | |- context [GalaxyCLI._get_galaxy_context amb ?o ?cfg ?w1] =>
      pose proof (get_galaxy_context_effect amb o cfg w1) as Hfp;
      destruct (GalaxyCLI._get_galaxy_context amb o cfg w1) as [[ctx|e] w2]
  end.
  2:{ destruct Hfp as [-> _]. simpl. rewrite <- !app_assoc, events_since_app.
      intros Hin. exfalso. apply in_app_or in Hin. simpl in Hin.
      destruct Hin as [Hin|[Hin|[Hin|[Hin|[]]]]];
        [exact (in_not_handler _ _ Hlog Hin) | discriminate Hin ..]. }
  destruct Hfp as (_ & _ & Ht2). simpl in Ht2.
  rewrite (execute_dispatches ext amb ActVersion) by exact Hact.
  simpl execute_method. unfold GalaxyCLI.execute_version, run_instance.
  cbn [GalaxyCLI.config_file_path]. rewrite call_handler_eq. simpl.
  destruct (handler ext _ (heap w2)); simpl;
    rewrite Ht2; unfold run_before_dispatch; rewrite <- !app_assoc, events_since_app;
    intros Hin; (split; [|apply in_or_app; right; simpl; auto]);
    apply in_app_or in Hin; simpl in Hin;
    destruct Hin as [Hin|Hin]; try (exfalso; exact (in_not_handler _ _ Hlog Hin));
    repeat (destruct Hin as [Hin|Hin]; try discriminate Hin);
    try (injection Hin as <-; reflexivity); destruct Hin.
Qed.

Lemma run_version_reports_config_path_witness :
  In (EvHandler (version_version "/home/u/.ansible/mazer.yml" "0.4.0"))
    (events_since Fixtures.w0
       (GalaxyCLI.run Fixtures.ext0 Fixtures.amb0 MoreFixtures.version_only Fixtures.w0).2)
  /\ In (EvConfigLoad "/home/u/.ansible/mazer.yml")
       (events_since Fixtures.w0
          (GalaxyCLI.run Fixtures.ext0 Fixtures.amb0 MoreFixtures.version_only
             Fixtures.w0).2).
Proof.
  assert (Hin : In (EvHandler (version_version "/home/u/.ansible/mazer.yml" "0.4.0"))
                  (events_since Fixtures.w0
                     (GalaxyCLI.run Fixtures.ext0 Fixtures.amb0 MoreFixtures.version_only
                        Fixtures.w0).2)).
  { vm_compute. repeat (try (left; reflexivity); right). }
  split; [exact Hin|].
  apply (run_version_reports_config_path Fixtures.ext0 Fixtures.amb0
           MoreFixtures.version_only Fixtures.w0 _ eq_refl Hin).
Defined.

(** ** The option schema and the methods *)

Lemma in_option_list_add_option (o o' : opt_spec) (p : OptionParser) :
  In o (option_list (add_option p o')) <-> In o (option_list p) \/ o = o'.
Proof.
  simpl. rewrite in_app_iff. simpl. intuition congruence.
Qed.

(** X18: the options that [set_action] registers for an action are the
    ones that the method of the action reads.  With an options record as
    the parser that [set_action] left fills it (every registered
    destination present), a context built, an argument for info and
    remove, and the configuration file path for version, the method of the
    action reaches its handler: no attribute is missing and no default is
    ill-typed. *)
Theorem registered_options_suffice
    (ext : collaborators) (amb : ambient) (a : valid_action)
    (s0 s1 s : GalaxyCLI.self) (w0 w0' w w1 : world) (p : OptionParser)
    (cfg : Config.t) (ctx : GalaxyContext.t) :
  GalaxyCLI.set_action ext s0 w0 = (Return s1, w0') ->
  GalaxyCLI.action s1 = Some (action_name a) ->
  GalaxyCLI.parser s1 = Some p ->
  parsed_by p (GalaxyCLI.options s) ->
  GalaxyCLI.config s = Some cfg ->
  GalaxyCLI._get_galaxy_context amb (GalaxyCLI.options s) cfg w = (Return ctx, w1) ->
  (a = ActInfo \/ a = ActRemove -> GalaxyCLI.args s <> []) ->
  (a = ActVersion -> is_Some (GalaxyCLI.config_file_path s)) ->
  exists c, In (EvHandler c) (events_since w (execute_method ext amb a s w).2).
Proof.
  intros Hset Hact Hp Hparsed Hcfg Hgc Hargs Hpath.
  assert (Hreg : forall o,
            In o (match a with
                  | ActBuild =>
                      [MkOpt ["--collection-path"] "collection_path" store (Some PNone);
                       MkOpt ["--output-path"] "output_path" store (Some PNone)]
                  | ActInfo => [MkOpt ["--offline"] "offline" store_true (Some (PBool false))]
                  | ActInstall =>
                      [MkOpt ["-e"; "--editable"] "editable_install" store_true None;
                       MkOpt ["--namespace"] "namespace" store (Some PNone);
                       MkOpt ["-i"; "--ignore-errors"] "ignore_errors" store_true
                         (Some (PBool false));
                       MkOpt ["-n"; "--no-deps"] "no_deps" store_true (Some (PBool false));
                       MkOpt ["-f"; "--force"] "force" store_true (Some (PBool false))]
                  | _ => []
                  end) ->
            In o (option_list p)).
  { revert Hset Hact Hp.
    unfold GalaxyCLI.set_action, bind, lift_outcome, GalaxyCLI.get_parser.
    destruct (base_set_action ext (GalaxyCLI.parser s0) (GalaxyCLI.args s0))
      as [[act args1]|e]; [|discriminate].
    simpl. destruct (GalaxyCLI.parser s0) as [p0|]; [|discriminate].
    simpl. intros Heq. injection Heq as <- <-. simpl.
    intros -> Hp. injection Hp as <-.
    unfold GalaxyCLI.action_is. intros o.
    destruct a; simpl; rewrite ?in_app_iff; simpl; intuition auto. }
  destruct (get_galaxy_context_trace _ _ _ _ _ _ Hgc) as [evs0 Ht0].
  destruct a; simpl execute_method.
  - (* build *)
    destruct (Hparsed _ (Hreg _ (or_introl eq_refl))) as (cp & Hcp & Hcpt).
    destruct (Hparsed _ (Hreg _ (or_intror (or_introl eq_refl)))) as (op & Hop & _).
    simpl in Hcp, Hop, Hcpt.
    destruct (get_galaxy_context_frame amb _ cfg w w1 ctx
                [EvLog DEBUG "options: %s" []; EvLog DEBUG "args: %s" []] Hgc) as [Hgc' _].
    rewrite execute_build_eq. cbv zeta. rewrite Hcfg, Hgc', Hcp, Hop.
    assert (Hcoll : exists d, py_or cp (PStr (getcwd amb)) = PStr d).
    { unfold py_or. destruct Hcpt as [->|[t ->]]; [eauto|].
      destruct (truthy (PStr t)); eauto. }
    destruct Hcoll as [d ->].
    destruct (truthy op); rewrite call_handler_eq; simpl;
      rewrite <- !app_assoc, events_since_app; eexists;
      apply in_or_app; right; simpl; eauto.
  - (* info *)
    destruct (Hparsed _ (Hreg _ (or_introl eq_refl))) as (off & Hoff & _).
    simpl in Hoff.
    destruct (get_galaxy_context_frame amb _ cfg w w1 ctx
                [EvLog DEBUG "args=%s" []] Hgc) as [Hgc' _].
    unfold GalaxyCLI.execute_info, GalaxyCLI.get_config. rewrite Hcfg.
    destruct (GalaxyCLI.args s) as [|x l] eqn:Ha; [destruct (Hargs (or_introl eq_refl) eq_refl)|].
    simpl. unfold bind at 1 2 3. simpl. rewrite Hgc'.
    unfold getattr, bind. rewrite Hoff. simpl.
    rewrite <- !app_assoc, events_since_app. eexists.
    apply in_or_app. right. simpl. eauto.
  - (* install *)
    destruct (Hparsed _ (Hreg _ (or_introl eq_refl))) as (v1 & H1 & _).
    destruct (Hparsed _ (Hreg _ (or_intror (or_introl eq_refl)))) as (v2 & H2 & _).
    destruct (Hparsed _ (Hreg _ (or_intror (or_intror (or_introl eq_refl)))))
      as (v3 & H3 & _).
    destruct (Hparsed _ (Hreg _ (or_intror (or_intror (or_intror (or_introl eq_refl))))))
      as (v4 & H4 & _).
    destruct (Hparsed _ (Hreg _ (or_intror (or_intror (or_intror (or_intror
                                   (or_introl eq_refl))))))) as (v5 & H5 & _).
    simpl in H1, H2, H3, H4, H5.
    destruct (get_galaxy_context_frame amb _ cfg w w1 ctx
                [EvLog DEBUG "self.options: %s" []] Hgc) as [Hgc' _].
    unfold GalaxyCLI.execute_install, GalaxyCLI.get_config. rewrite Hcfg.
    unfold bind at 1 2 3. simpl. rewrite Hgc'.
    unfold try_except_Exception, getattr, bind. rewrite H1, H2, H3, H4, H5. simpl.
    destruct (handler ext _ (heap w1)) as [v|e]; simpl;
      [|destruct (isinstance_Exception e); simpl];
      rewrite <- !app_assoc, events_since_app; eexists;
      apply in_or_app; right; simpl; eauto.
  - (* list *)
    unfold GalaxyCLI.execute_list, GalaxyCLI.get_config. rewrite Hcfg.
    unfold bind at 1. simpl. unfold bind at 1. rewrite Hgc.
    unfold GalaxyCLI.call_handler, bind, emit, GalaxyCLI.handler_result. simpl.
    rewrite Ht0, <- app_assoc, events_since_app.
    eexists. apply in_or_app. right. left. reflexivity.
  - (* remove *)
    unfold GalaxyCLI.execute_remove, GalaxyCLI.get_config. rewrite Hcfg.
    destruct (GalaxyCLI.args s) as [|x l] eqn:Ha; [destruct (Hargs (or_intror eq_refl) eq_refl)|].
    simpl. unfold bind at 1. simpl. unfold bind at 1. rewrite Hgc.
    unfold GalaxyCLI.call_handler, bind, emit, GalaxyCLI.handler_result. simpl.
    rewrite Ht0, <- app_assoc, events_since_app.
    eexists. apply in_or_app. right. left. reflexivity.
  - (* version *)
    unfold GalaxyCLI.execute_version.
    destruct (Hpath eq_refl) as [path ->].
    rewrite call_handler_eq. simpl. rewrite events_since_app. eexists. left. reflexivity.
Qed.

Lemma registered_options_suffice_witness :
  exists c,
    In (EvHandler c)
      (events_since Fixtures.w0
         (GalaxyCLI.execute_install Fixtures.ext0 Fixtures.amb0 Fixtures.install_one
            Fixtures.w0).2).
Proof.
  eapply (registered_options_suffice Fixtures.ext0 Fixtures.amb0 ActInstall
            (GalaxyCLI.set_parser (GalaxyCLI.__init__ ["install"; "geerlingguy.nginx"])
               (common_parser Fixtures.ext0))
            _ Fixtures.install_one Fixtures.w0 _ Fixtures.w0 _ _ Fixtures.cfg0 _).
  - reflexivity.
  - reflexivity.
  - reflexivity.
  - intros o Hin. simpl in Hin.
    repeat (destruct Hin as [<-|Hin]; [eexists; split; [reflexivity | simpl; eauto]|]).
    destruct Hin.
  - reflexivity.
  - vm_compute. reflexivity.
  - intros [H|H]; discriminate H.
  - intros H; discriminate H.
Defined.
